(** * pumpbot: a shallow embedding of the batch scripts

    The repository is a menu and five Node.js scripts behind it (token
    creation, wallet funding, multi-wallet buy, multi-wallet sell,
    consolidation).  Each script is embedded as a function of a small monad
    [Js] that threads the process state (console and effect trace, lexical
    scopes, files, the counters of the random source, the key generator and
    the clock) and carries JavaScript exceptions.  The collaborators the scripts talk to
    (environment, RPC node, trade API, upload API, relay, prompt) are the
    fields of a record [World]; every statement quantifies over them.

    Sources.  consolidate.js is src/unnamed/part_000; src/src/buyBot.js
    holds buyBot.js followed by the menu (index.js); src/src/createToken.js
    holds createToken.js followed by fundWallets.js; sellBot.js is
    src/src/sellBot.js.

    Numbers.  A JavaScript Number is modelled by the rational it denotes,
    [Q].  Where a script rounds a result down to an integer (the delay
    between two wallets, the lamports of a funding transfer), the product
    and the sum under [Math.floor] are rounded as binary64 arithmetic rounds
    them, by [round64]: to the nearest double, ties to even; a magnitude
    beyond the largest double is outside the model.  The other sums,
    products and quotients of the scripts (the share of a balance to sell,
    the funded total, a balance in SOL) are written with the exact
    operations of [Q].  The result of an expression that is no number is
    [NaN] of [JsNumber].

    Packages.  What the imported packages do is part of the model where a
    script depends on it: [getFeeForMessage] of @solana/web3.js resolves to
    an object [{context, value}], [SystemProgram.transfer] converts its
    amount with [BigInt], and [append] of the package form-data takes a
    value that is neither a string nor a buffer for a stream.

    Console.  The trace holds the lines the scripts print about their work
    and the calls to the collaborators.  The banners and the rendering of
    the prompts ([figlet], [clear], the summaries of [getQuestionMessage])
    are front end and are not traced. *)

From Stdlib Require Import ZArith QArith Qround Qabs Qpower List String Ascii Permutation Lia Bool.
From Stdlib Require SpecFloat.
From stdpp Require Import base strings pretty gmap.

Import ListNotations.
Local Open Scope Z_scope.
Local Open Scope string_scope.

(** ** Data *)

Definition Number := Q.
Definition PublicKey := string.
Definition Signature := string.

(** [LAMPORTS_PER_SOL] of @solana/web3.js. *)
Definition LAMPORTS_PER_SOL : Number := 1000000000%Q.

Inductive ErrorName := Error | ReferenceError | TypeError | RangeError.

Record JsError := mkError { err_name : ErrorName; message : string }.

(** An entry of [config/wallets.json]. *)
Record Wallet := mkWallet { name : string; publicKey : PublicKey; amount : Number }.

Record DelayRange := mkDelayRange { min : Z; max : Z }.

Record WalletConfig := mkWalletConfig { wallets : list Wallet; delayRange : DelayRange }.

(** The variables read from [process.env]. *)
Inductive EnvVar :=
| WALLET_PRIVATE_KEY (n : Z)        (* WALLET_<n>_PRIVATE_KEY *)
| WALLET_A_PRIVATE_KEY
| WALLET_B_PRIVATE_KEY
| BASE_WALLET_ADDRESS
| FUNDING_WALLET_PRIVATE_KEY.

(** A call either returns or throws. *)
Inductive Outcome (A : Type) :=
| Normal (a : A)
| Throw (e : JsError).
Arguments Normal {A} a.
Arguments Throw {A} e.

(** A request to the trade API ([/api/trade-local]). *)
Inductive Action := Create | Buy | Sell.

Record TradeRequest := mkTradeRequest {
  tr_publicKey : PublicKey;
  tr_action : Action;
  tr_tokenMetadataUri : option string;   (* tokenMetadata.uri, for a creation *)
  tr_mint : string;
  tr_denominatedInSol : bool;
  tr_amount : Number;
  tr_slippage : Number;
  tr_priorityFee : Number
}.

Record Response (B : Type) := mkResponse { status : Z; statusText : string; body : B }.
Arguments mkResponse {B}.
Arguments status {B}.
Arguments statusText {B}.
Arguments body {B}.

(** The answers of the token creation prompt. *)
Record TokenData := mkTokenData {
  tokenName : string; tokenSymbol : string; tokenDescription : string;
  xLink : string; telegramLink : string; websiteLink : string;
  imagePath : string; td_amount : Number
}.

Record BaseParams := mkBaseParams {
  percentToSell : Number; slippage : Number; priorityFee : Number
}.

(** One batch of the private-key backup: the object
    [{...privateKeys, walletPublicKeys}]. *)
Record Batch := mkBatch {
  privateKeys : list (EnvVar * string);
  walletPublicKeys : list PublicKey
}.

(** What [config/private_keys_backup.json] holds: nothing, text that
    [JSON.parse] rejects, or an object keyed by timestamp. *)
Inductive BackupFile :=
| Absent
| Unparseable
| Parsed (m : gmap string Batch).

(** The files of the working directory; [.env] is held as its text. *)
Record Files := mkFiles {
  wallets_json : option WalletConfig;
  private_keys_backup : BackupFile;
  dotenv : option string
}.

(** What [getFeeForMessage] of @solana/web3.js resolves to: the object
    [{context: {slot}, value}], whose [value] is the fee in lamports, or
    [null]. *)
Record RpcResponseAndContext := mkRpcResponse { context_slot : Z; value : option Number }.

(** The result of an arithmetic expression: a number, or NaN. *)
Inductive JsNumber := NaN | Num (q : Number).

(** [x - o] for an object [o]: [ToNumber] of an object that defines neither
    [valueOf] nor [toString] goes through the string "[object Object]" and
    is NaN, and so is the difference. *)
Definition minus_object {A : Type} (x : Number) (o : A) : JsNumber := NaN.

(** ** Doubles *)

(** 2^e, for an exponent of either sign. *)
Definition pow2 (e : Z) : Q := (2 ^ e)%Q.

(** The integer part of the binary logarithm of a positive rational. *)
Definition ilog2 (x : Q) : Z :=
  let k := Z.log2 (Qnum x) - Z.log2 (Zpos (Qden x)) in
  if Qle_bool (pow2 k) x then k else k - 1.

(** The exponent of the unit in the last place of the doubles around [x]:
    53 bits of precision, and the subnormal numbers below 2^-1022. *)
Definition ulp_exponent (x : Q) : Z := Z.max (ilog2 (Qabs x) - 52) (-1074).

(** The nearest integer, the even one of two that are equally near. *)
Definition roundHalfEven (q : Q) : Z :=
  match (q - inject_Z (Qfloor q) ?= 1 # 2)%Q with
  | Lt => Qfloor q
  | Gt => Qfloor q + 1
  | Eq => if Z.even (Qfloor q) then Qfloor q else Qfloor q + 1
  end.

(** The double nearest to [x] (round to nearest, ties to even). *)
Definition round64 (x : Q) : Q :=
  (inject_Z (roundHalfEven (x / pow2 (ulp_exponent x))) * pow2 (ulp_exponent x))%Q.

(** [a * b], [a + b] and [a - b] of two doubles. *)
Definition mul64 (a b : Number) : Number := round64 (a * b).
Definition add64 (a b : Number) : Number := round64 (a + b).
Definition sub64 (a b : Number) : Number := round64 (a - b).

(** The rational denoted by a finite double of [SpecFloat], the Standard
    Library's specification of binary floating-point arithmetic (0 for an
    infinity or a NaN). *)
Definition ofDouble (f : SpecFloat.spec_float) : Number :=
  match f with
  | SpecFloat.S754_finite sign m e =>
      ((if sign then -1 else 1) * inject_Z (Zpos m) * pow2 e)%Q
  | _ => 0%Q
  end.

(** Some doubles, as mantissa and exponent: the ones nearest to the
    decimals 8.2, 0.3, 0.1 and 0.2, the double 1 - 2^-52, the smallest
    positive double, 1.5, 2 and 10^9; and the binary64 product, sum and
    difference of [SpecFloat]. *)
Module Sample64.
Import SpecFloat.
Definition eightPointTwo : spec_float := S754_finite false 4616189618054758 (-49).
Definition threeTenths : spec_float := S754_finite false 5404319552844595 (-54).
Definition oneTenth : spec_float := S754_finite false 7205759403792794 (-56).
Definition twoTenths : spec_float := S754_finite false 7205759403792794 (-55).
Definition belowOne : spec_float := S754_finite false 9007199254740990 (-53).
Definition smallest : spec_float := S754_finite false 1 (-1074).
Definition oneAndHalf : spec_float := S754_finite false 6755399441055744 (-52).
Definition two : spec_float := S754_finite false 4503599627370496 (-51).
Definition billion : spec_float := S754_finite false 8388608000000000 (-23).
Definition mul : spec_float -> spec_float -> spec_float := SFmul 53 1024.
Definition add : spec_float -> spec_float -> spec_float := SFadd 53 1024.
Definition sub : spec_float -> spec_float -> spec_float := SFsub 53 1024.
End Sample64.

(** ** Console and effects *)

Inductive Msg :=
(* consolidate *)
| ErrorFetchingBalance (m : string)
| SkippingNoPrivateKey (n : Z)
| SkippingNoBalance (n : Z)
| ProcessingWallet (n : Z)
| Address (pk : PublicKey)
| BalanceLine (b : Number)
| TransferSuccessful
| AmountLine (a : Number)
| TransactionLine (s : Signature)
| ErrorConsolidating (n : Z) (m : string)
| BaseWalletMissing
| BaseWalletInvalid
| StartingConsolidation
| ConsolidationCompleted
| TotalConsolidated (t : Number)
| OperationCancelled
| AnErrorOccurred (e : JsError)
(* buy and sell *)
| ExecutingBuy (w : string) (a : Number)
| ExecutingSell (w : string)
| NoTokenBalance (w : string)
| CurrentBalance (b : Number)
| InsufficientBalance (w : string)
| Success (w : string)
| ErrorWith (w : string) (m : string)
| StartingBuySequence
| StartingSellSequence
| Waiting (ms : Z)
(* create *)
| PreparingToken
| UploadingMetadata
| GeneratingTransactions
| SigningTransactions
| SubmittingBundle
| TokenCreated
| TransactionDetail (i : nat) (s : Signature)
| ErrorCreatingToken (e : JsError)
(* fund *)
| FundingKeyMissing
| GeneratingWallets
| WalletsGenerated
| StartingFunding
| Funding (w : string)
| ErrorFunding (w : string) (m : string)
| FundingCompleted
| TotalDistributed (t : Number)
| NoExistingBackup.

Inductive Fn := consolidateWallet_fn | executeBuyWithWallet_fn | executeSellWithWallet_fn | fundWallet_fn.

Inductive Event :=
| ConsoleLog (m : Msg)                               (* console.log *)
| ConsoleError (m : Msg)                             (* console.error *)
| Call (f : Fn) (walletIndex : Z) (w : string)       (* entry of a per-wallet operation *)
| Prompt                                             (* inquirer.prompt *)
| Sleep (ms : Z)                                     (* await sleep(ms) *)
| TransferInstruction (from to : PublicKey) (lamports : Number)  (* SystemProgram.transfer *)
| SendTransfer (from to : PublicKey) (lamports : Number)         (* sendTransaction of a transfer *)
| Upload (t : TokenData)                             (* POST pump.fun/api/ipfs *)
| Trade (r : list TradeRequest)                      (* POST /api/trade-local *)
| Sign (tx : string) (signers : list PublicKey)      (* tx.sign *)
| SendTransaction (tx : string)                      (* sendTransaction of a signed trade *)
| SendBundle (txs : list string).                    (* POST to the relay *)

(** ** Lexical scopes *)

Inductive Value := VPublicKey (pk : PublicKey) | VModule.

Definition Frame := list (string * Value).

(** ** The world and the process state *)

(** The collaborators of the scripts: what each answers to a request.  An
    answer depends on the request alone; the random source, the clock and
    the key generator are sequences, read in order. *)
Record World := mkWorld {
  env : EnvVar -> option string;                       (* process.env *)
  walletConfig : WalletConfig;                         (* import of config/wallets.json *)
  random : nat -> Number;                              (* the k-th Math.random() *)
  clock : nat -> string;                               (* the k-th new Date().toISOString() *)
  keygen : nat -> PublicKey * string;                  (* the k-th Keypair.generate(): address, encoded secret *)
  fromSecretKey : string -> Outcome PublicKey;         (* Keypair.fromSecretKey(bs58.decode(s)).publicKey *)
  newPublicKey : string -> Outcome PublicKey;          (* new PublicKey(s) *)
  confirm : Outcome bool;                              (* the yes/no prompt *)
  getBalance : PublicKey -> Outcome Number;            (* lamports *)
  getLatestBlockhash : Outcome string;
  getFeeForMessage : PublicKey -> Outcome RpcResponseAndContext;
  transfer : PublicKey -> PublicKey -> Number -> Outcome unit;       (* the instruction, once the amount is converted *)
  sendTransfer : PublicKey -> PublicKey -> Number -> Outcome Signature;
  getParsedTokenAccountsByOwner : PublicKey -> string -> Outcome (list Number);  (* uiAmount of each account *)
  newMint : string -> Outcome PublicKey;               (* new PublicKey(tokenAddress) *)
  tradeLocal : TradeRequest -> Outcome (Response string);           (* body: the unsigned transaction *)
  tradeBundle : list TradeRequest -> Outcome (Response (Outcome (list string)));  (* body: .json() *)
  signed : string -> list PublicKey -> string * Signature;  (* tx.sign: encoded signed tx, signatures[0] *)
  fundAnswers : Outcome (nat * Number);                (* numberOfWallets, solPerWallet *)
  deserialize : string -> Outcome string;              (* VersionedTransaction.deserialize *)
  sendTransaction : string -> Outcome Signature;
  openAsBlob : string -> Outcome unit;                 (* fs.openAsBlob(imagePath) *)
  upload : TokenData -> Outcome (Response (Outcome (option string)));  (* body: .json(), then .metadataUri *)
  sendBundle : list string -> Outcome unit              (* the POST to the relay; its answer is never read *)
}.

Record State := mkState {
  trace : list Event;
  scopes : list Frame;
  files : Files;
  draws : nat;        (* calls of Math.random so far *)
  ticks : nat;        (* calls of new Date() so far *)
  gens : nat          (* calls of Keypair.generate so far *)
}.

(** ** The monad *)

Definition Js (A : Type) := State -> Outcome A * State.

Definition ret {A} (a : A) : Js A := fun s => (Normal a, s).

Definition bind {A B} (m : Js A) (k : A -> Js B) : Js B :=
  fun s => match m s with
           | (Normal a, s') => k a s'
           | (Throw e, s') => (Throw e, s')
           end.

Notation "'let*' x ':=' m 'in' k" := (bind m (fun x => k))
  (at level 10, x pattern, m at level 100, k at level 200).
Notation "m ';;' k" := (bind m (fun _ => k))
  (at level 100, k at level 200, right associativity).

Definition throw {A} (e : JsError) : Js A := fun s => (Throw e, s).

(** [try { m } catch (error) { h error }] *)
Definition try_catch {A} (m : Js A) (h : JsError -> Js A) : Js A :=
  fun s => match m s with
           | (Normal a, s') => (Normal a, s')
           | (Throw e, s') => h e s'
           end.

(** The awaited result of a collaborator. *)
Definition await {A} (o : Outcome A) : Js A := fun s => (o, s).

(** The state after the events [evs] happened. *)
Definition extend (s : State) (evs : list Event) : State :=
  mkState (trace s ++ evs) (scopes s) (files s) (draws s) (ticks s) (gens s).

Definition emit (e : Event) : Js unit := fun s => (Normal tt, extend s [e]).

Definition console_log (m : Msg) : Js unit := emit (ConsoleLog m).
Definition console_error (m : Msg) : Js unit := emit (ConsoleError m).

(** [Math.random()] *)
Definition Math_random (W : World) : Js Number :=
  fun s => (Normal (random W (draws s)),
            mkState (trace s) (scopes s) (files s) (S (draws s)) (ticks s) (gens s)).

(** [new Date().toISOString()] *)
Definition Date_now (W : World) : Js string :=
  fun s => (Normal (clock W (ticks s)),
            mkState (trace s) (scopes s) (files s) (draws s) (S (ticks s)) (gens s)).

(** [Keypair.generate()] *)
Definition Keypair_generate (W : World) : Js (PublicKey * string) :=
  fun s => (Normal (keygen W (gens s)),
            mkState (trace s) (scopes s) (files s) (draws s) (ticks s) (S (gens s))).

Definition get_files : Js Files := fun s => (Normal (files s), s).

Definition put_files (f : Files) : Js unit :=
  fun s => (Normal tt, mkState (trace s) (scopes s) f (draws s) (ticks s) (gens s)).

(** A block [{ ... }]: its [const] declarations end with it, however it is left. *)
Definition block {A} (m : Js A) : Js A :=
  fun s =>
    let '(o, s') := m (mkState (trace s) ([] :: scopes s) (files s) (draws s) (ticks s) (gens s)) in
    (o, mkState (trace s') (tail (scopes s')) (files s') (draws s') (ticks s') (gens s')).

(** [const x = v;] in the innermost block. *)
Definition declare_const (x : string) (v : Value) : Js unit :=
  fun s =>
    let sc := match scopes s with
              | [] => [[(x, v)]]
              | f :: fs => ((x, v) :: f) :: fs
              end in
    (Normal tt, mkState (trace s) sc (files s) (draws s) (ticks s) (gens s)).

Fixpoint lookup_frame (x : string) (f : Frame) : option Value :=
  match f with
  | [] => None
  | (y, v) :: f' => if String.eqb x y then Some v else lookup_frame x f'
  end.

Fixpoint lookup_scopes (x : string) (fs : list Frame) : option Value :=
  match fs with
  | [] => None
  | f :: fs' => match lookup_frame x f with
                | Some v => Some v
                | None => lookup_scopes x fs'
                end
  end.

(** Evaluation of the identifier [x]: a name bound in no enclosing scope
    throws a ReferenceError (the scripts are ES modules, hence strict). *)
Definition resolve (x : string) : Js Value :=
  fun s => match lookup_scopes x (scopes s) with
           | Some v => (Normal v, s)
           | None => (Throw (mkError ReferenceError (x ++ " is not defined")), s)
           end.

Definition initial_files : Files := mkFiles None Absent None.

(** ** @solana/web3.js *)

(** Whether a number is an integer. *)
Definition is_integer (q : Number) : bool := Qeq_bool (inject_Z (Qfloor q)) q.

(** [SystemProgram.transfer({fromPubkey, toPubkey, lamports})].  The amount
    is converted with [BigInt(lamports)], which throws a RangeError for NaN
    and for a number that is no integer (its message names the number,
    which is left out here).  The result is the amount of the instruction
    built: past this call [lamports] is a number. *)
Definition SystemProgram_transfer (W : World) (fromPubkey toPubkey : PublicKey)
    (lamports : JsNumber) : Js Number :=
  match lamports with
  | NaN =>
      throw (mkError RangeError
               "The number NaN cannot be converted to a BigInt because it is not an integer")
  | Num q =>
      if is_integer q then
        emit (TransferInstruction fromPubkey toPubkey q);;
        await (transfer W fromPubkey toPubkey q);;
        ret q
      else
        throw (mkError RangeError
                 "The number cannot be converted to a BigInt because it is not an integer")
  end.

Definition initial_state (module_scope : Frame) (f : Files) : State :=
  mkState [] [module_scope] f 0 0 0.

(** ** consolidate.js (src/unnamed/part_000) *)

Module Consolidate.

(** The names declared at module level. *)
Definition module_scope : Frame :=
  map (fun x => (x, VModule))
    ["inquirer"; "chalk"; "figlet"; "clear"; "dotenv"; "Connection"; "Keypair";
     "PublicKey"; "LAMPORTS_PER_SOL"; "Transaction"; "SystemProgram"; "bs58";
     "walletConfig"; "RPC_ENDPOINT"; "web3Connection"; "getWalletBalance";
     "consolidateWallet"; "questions"; "getQuestionMessage"; "main"].

Definition as_key (v : Value) : PublicKey :=
  match v with
  | VPublicKey pk => pk
  | VModule => ""
  end.

Definition getWalletBalance (W : World) (publicKey : PublicKey) : Js Number :=
  try_catch
    (let* balance := await (getBalance W publicKey) in
     ret (balance / LAMPORTS_PER_SOL)%Q)
    (fun error =>
       console_error (ErrorFetchingBalance (message error));;
       ret 0%Q).

Definition consolidateWallet (W : World) (walletIndex : Z) (baseWalletPublicKey : PublicKey)
  : Js Number :=
  emit (Call consolidateWallet_fn walletIndex "");;
  try_catch
    (match env W (WALLET_PRIVATE_KEY (walletIndex + 1)) with
     | None =>
         console_log (SkippingNoPrivateKey (walletIndex + 1));;
         ret 0%Q
     | Some walletPrivateKey =>
         if String.eqb walletPrivateKey "" then
           console_log (SkippingNoPrivateKey (walletIndex + 1));;
           ret 0%Q
         else
           let* walletKeypair := await (fromSecretKey W walletPrivateKey) in
           let* balance := getWalletBalance W walletKeypair in
           if Qle_bool balance 0 then
             console_log (SkippingNoBalance (walletIndex + 1));;
             ret 0%Q
           else
             console_log (ProcessingWallet (walletIndex + 1));;
             console_log (Address walletKeypair);;
             console_log (BalanceLine balance);;
             let* blockhash := await (getLatestBlockhash W) in
             let* fee := await (getFeeForMessage W walletKeypair) in
             let* lamports :=
               SystemProgram_transfer W walletKeypair baseWalletPublicKey
                 (minus_object (balance * LAMPORTS_PER_SOL)%Q fee) in
             emit (SendTransfer walletKeypair baseWalletPublicKey lamports);;
             let* signature :=
               await (sendTransfer W walletKeypair baseWalletPublicKey lamports) in
             console_log TransferSuccessful;;
             console_log (AmountLine (lamports / LAMPORTS_PER_SOL)%Q);;
             console_log (TransactionLine signature);;
             ret (lamports / LAMPORTS_PER_SOL)%Q
     end)
    (fun error =>
       console_error (ErrorConsolidating (walletIndex + 1) (message error));;
       ret 0%Q).

(** The [for] loop of [main], from index [i], over the remaining wallets. *)
Fixpoint consolidateLoop (W : World) (ws : list Wallet) (i : Z) (totalConsolidated : Number)
  : Js Number :=
  match ws with
  | [] => ret totalConsolidated
  | _ :: ws' =>
      let* total := block
        (let* base := resolve "baseWalletPublicKey" in
         let* amountSent := consolidateWallet W i (as_key base) in
         ret (totalConsolidated + amountSent)%Q) in
      consolidateLoop W ws' (i + 1) total
  end.

Definition main (W : World) : Js unit :=
  block
    (try_catch
       (block
          (match env W BASE_WALLET_ADDRESS with
           | None => console_error BaseWalletMissing
           | Some address =>
               if String.eqb address "" then console_error BaseWalletMissing
               else
                 let* valid :=
                   try_catch
                     (block
                        (let* pk := await (newPublicKey W address) in
                         declare_const "baseWalletPublicKey" (VPublicKey pk);;
                         ret true))
                     (fun error =>
                        block (console_error BaseWalletInvalid;; ret false)) in
                 if negb valid then ret tt
                 else
                   emit Prompt;;
                   let* answers := await (confirm W) in
                   if (answers : bool) then
                     block
                       (console_log StartingConsolidation;;
                        let* totalConsolidated :=
                          block (consolidateLoop W (wallets (walletConfig W)) 0 0%Q) in
                        console_log ConsolidationCompleted;;
                        console_log (TotalConsolidated totalConsolidated))
                   else
                     block (console_log OperationCancelled)
           end))
       (fun error => block (console_error (AnErrorOccurred error)))).

Definition run (W : World) : Outcome unit * State :=
  main W (initial_state module_scope initial_files).

End Consolidate.

(** ** Shared by buyBot.js and sellBot.js *)

(** [Math.floor(Math.random() * (max - min + 1) + min)] for the drawn [r],
    each operation rounded to a double. *)
Definition floorOfDraw (r : Number) (min max : Z) : Z :=
  Qfloor (add64 (mul64 r (add64 (sub64 (inject_Z max) (inject_Z min)) 1%Q)) (inject_Z min)).

(** ** buyBot.js (src/src/buyBot.js) *)

Module BuyBot.

Definition getRandomDelay (W : World) (min max : Z) : Js Z :=
  let* r := Math_random W in
  ret (floorOfDraw r min max).

Definition sleep (ms : Z) : Js unit := emit (Sleep ms).

Definition executeBuyWithWallet (W : World) (walletIndex : Z) (tokenAddress : string)
    (walletInfo : Wallet) (baseParams : BaseParams) : Js (option Signature) :=
  emit (Call executeBuyWithWallet_fn walletIndex (name walletInfo));;
  try_catch
    (match env W (WALLET_PRIVATE_KEY (walletIndex + 1)) with
     | None =>
         console_log (SkippingNoPrivateKey (walletIndex + 1));;
         ret None
     | Some walletPrivateKey =>
         if String.eqb walletPrivateKey "" then
           console_log (SkippingNoPrivateKey (walletIndex + 1));;
           ret None
         else
           console_log (ExecutingBuy (name walletInfo) (amount walletInfo));;
           let* publicKey := await (fromSecretKey W walletPrivateKey) in
           let request :=
             mkTradeRequest publicKey Buy None tokenAddress true (amount walletInfo)
               (slippage baseParams) (priorityFee baseParams) in
           emit (Trade [request]);;
           let* response := await (tradeLocal W request) in
           if (status response =? 200)%Z then
             let* tx := await (deserialize W (body response)) in
             let* signerKeyPair := await (fromSecretKey W walletPrivateKey) in
             emit (Sign tx [signerKeyPair]);;
             emit (SendTransaction (fst (signed W tx [signerKeyPair])));;
             let* signature := await (sendTransaction W (fst (signed W tx [signerKeyPair]))) in
             console_log (Success (name walletInfo));;
             console_log (TransactionLine signature);;
             ret (Some signature)
           else ret None
     end)
    (fun error =>
       console_error (ErrorWith (name walletInfo) (message error));;
       ret None).

(** The [for] loop of [executeMultiWalletBuy], from index [i]. *)
Fixpoint buyLoop (W : World) (tokenAddress : string) (baseParams : BaseParams)
    (ws : list Wallet) (i : Z) : Js unit :=
  match ws with
  | [] => ret tt
  | wallet :: ws' =>
      (if (0 <? i)%Z then
         let* delay := getRandomDelay W (min (delayRange (walletConfig W)))
                                        (max (delayRange (walletConfig W))) in
         console_log (Waiting delay);;
         sleep delay
       else ret tt);;
      executeBuyWithWallet W i tokenAddress wallet baseParams;;
      buyLoop W tokenAddress baseParams ws' (i + 1)
  end.

Definition executeMultiWalletBuy (W : World) (tokenAddress : string) (baseParams : BaseParams)
  : Js unit :=
  console_log StartingBuySequence;;
  buyLoop W tokenAddress baseParams (wallets (walletConfig W)) 0.

End BuyBot.

(** ** sellBot.js (src/src/sellBot.js) *)

Module SellBot.

Definition getRandomDelay (W : World) (min max : Z) : Js Z :=
  let* r := Math_random W in
  ret (floorOfDraw r min max).

Definition sleep (ms : Z) : Js unit := emit (Sleep ms).

(** The constant [amountToSell] of [executeSellWithWallet]. *)
Definition amountToSell (baseParams : BaseParams) (tokenBalance : Number) : Number :=
  if Qeq_bool (percentToSell baseParams) 100 then tokenBalance
  else (tokenBalance * percentToSell baseParams / 100)%Q.

Definition executeSellWithWallet (W : World) (walletIndex : Z) (tokenAddress : string)
    (walletInfo : Wallet) (baseParams : BaseParams) : Js (option Signature) :=
  emit (Call executeSellWithWallet_fn walletIndex (name walletInfo));;
  try_catch
    (match env W (WALLET_PRIVATE_KEY (walletIndex + 1)) with
     | None =>
         console_log (SkippingNoPrivateKey (walletIndex + 1));;
         ret None
     | Some walletPrivateKey =>
         if String.eqb walletPrivateKey "" then
           console_log (SkippingNoPrivateKey (walletIndex + 1));;
           ret None
         else
           console_log (ExecutingSell (name walletInfo));;
           let* walletPublicKey := await (fromSecretKey W walletPrivateKey) in
           let* mint := await (newMint W tokenAddress) in
           let* tokenAccounts :=
             await (getParsedTokenAccountsByOwner W walletPublicKey mint) in
           match tokenAccounts with
           | [] =>
               console_log (NoTokenBalance (name walletInfo));;
               ret None
           | tokenBalance :: _ =>
               console_log (CurrentBalance tokenBalance);;
               if Qle_bool (amountToSell baseParams tokenBalance) 0 then
                 console_log (InsufficientBalance (name walletInfo));;
                 ret None
               else
                 let request :=
                   mkTradeRequest walletPublicKey Sell None tokenAddress false
                     (amountToSell baseParams tokenBalance)
                     (slippage baseParams) (priorityFee baseParams) in
                 emit (Trade [request]);;
                 let* response := await (tradeLocal W request) in
                 if (status response =? 200)%Z then
                   let* tx := await (deserialize W (body response)) in
                   let* signerKeyPair := await (fromSecretKey W walletPrivateKey) in
                   emit (Sign tx [signerKeyPair]);;
                   emit (SendTransaction (fst (signed W tx [signerKeyPair])));;
                   let* signature :=
                     await (sendTransaction W (fst (signed W tx [signerKeyPair]))) in
                   console_log (Success (name walletInfo));;
                   console_log (TransactionLine signature);;
                   ret (Some signature)
                 else ret None
           end
     end)
    (fun error =>
       console_error (ErrorWith (name walletInfo) (message error));;
       ret None).

(** [Array.prototype.sort(compare)] belongs to the engine, not to the
    repository.  It is modelled as an insertion sort: every element is put
    into the already sorted rest, after the elements it compares greater
    than.  The comparator runs in the monad, since the one of the script
    draws a random number at each call.  The engine's own algorithm calls
    the comparator in another order and another number of times, and with
    a comparator that answers at random it ends in another order: what is
    proved of a sell batch uses of this model only that the result is a
    permutation of the list. *)
Fixpoint insert {A} (compare : A -> A -> Js Number) (x : A) (l : list A) : Js (list A) :=
  match l with
  | [] => ret [x]
  | y :: l' =>
      let* c := compare x y in
      if Qle_bool c 0 then ret (x :: y :: l')
      else let* r := insert compare x l' in ret (y :: r)
  end.

Fixpoint sort {A} (compare : A -> A -> Js Number) (l : list A) : Js (list A) :=
  match l with
  | [] => ret []
  | x :: l' =>
      let* r := sort compare l' in
      insert compare x r
  end.

(** [l.findIndex(p)], counting from [i]; -1 when no element satisfies [p]. *)
Fixpoint findIndex {A} (p : A -> bool) (l : list A) (i : Z) : Z :=
  match l with
  | [] => -1
  | x :: l' => if p x then i else findIndex p l' (i + 1)
  end.

(** [[...walletConfig.wallets].sort(() => Math.random() - 0.5)] *)
Definition shuffledWallets (W : World) : Js (list Wallet) :=
  sort (fun _ _ => let* r := Math_random W in ret (r - 0.5)%Q) (wallets (walletConfig W)).

(** The [for] loop of [executeMultiWalletSell], from index [i]. *)
Fixpoint sellLoop (W : World) (tokenAddress : string) (baseParams : BaseParams)
    (ws : list Wallet) (i : Z) : Js unit :=
  match ws with
  | [] => ret tt
  | wallet :: ws' =>
      (if (0 <? i)%Z then
         let* delay := getRandomDelay W (min (delayRange (walletConfig W)))
                                        (max (delayRange (walletConfig W))) in
         console_log (Waiting delay);;
         sleep delay
       else ret tt);;
      executeSellWithWallet W
        (findIndex (fun w => String.eqb (name w) (name wallet)) (wallets (walletConfig W)) 0)
        tokenAddress wallet baseParams;;
      sellLoop W tokenAddress baseParams ws' (i + 1)
  end.

Definition executeMultiWalletSell (W : World) (tokenAddress : string) (baseParams : BaseParams)
  : Js unit :=
  console_log StartingSellSequence;;
  let* shuffled := shuffledWallets W in
  sellLoop W tokenAddress baseParams shuffled 0.

End SellBot.

(** ** createToken.js (src/src/createToken.js, first part) *)

Module CreateToken.

(** A value handed to [formData.append]. *)
Inductive FormValue := FormString (s : string) | FormBlob.

(** [formData.append(field, value)] of the package form-data, which the
    script imports.  A string is added to the form.  A [Blob] is neither a
    string nor a buffer: it is taken for a stream and wrapped, and the
    wrapper calls its method [on], which a Blob does not have. *)
Definition FormData_append (field : string) (value : FormValue) : Js unit :=
  match value with
  | FormString _ => ret tt
  | FormBlob => throw (mkError TypeError "source.on is not a function")
  end.

(** [Keypair.fromSecretKey(bs58.decode(process.env.X))]: decoding
    [undefined] throws. *)
Definition keypairOfEnv (W : World) (x : EnvVar) : Js PublicKey :=
  match env W x with
  | None => throw (mkError TypeError "Expected String")
  | Some k => await (fromSecretKey W k)
  end.

(** The signing loop of [createTokenBundle], from index [i]. *)
Fixpoint signLoop (W : World) (mintKeypair : PublicKey) (signerKeyPairs : list PublicKey)
    (transactions : list string) (args : list TradeRequest) (i : nat)
    (encodedSignedTransactions : list string) (signatures : list Signature)
  : Js (list string * list Signature) :=
  match args with
  | [] => ret (encodedSignedTransactions, signatures)
  | a :: args' =>
      let* tx :=
        match nth_error transactions i with
        | None => throw (mkError TypeError "Expected String")
        | Some t => await (deserialize W t)
        end in
      let* signer :=
        match nth_error signerKeyPairs i with
        | None => throw (mkError TypeError "Cannot read properties of undefined")
        | Some k => ret k
        end in
      let signers :=
        match tr_action a with
        | Create => [mintKeypair; signer]
        | _ => [signer]
        end in
      emit (Sign tx signers);;
      signLoop W mintKeypair signerKeyPairs transactions args' (S i)
        (encodedSignedTransactions ++ [fst (signed W tx signers)])
        (signatures ++ [snd (signed W tx signers)])
  end.

Fixpoint logSignatures (signatures : list Signature) (i : nat) : Js unit :=
  match signatures with
  | [] => ret tt
  | sg :: rest => console_log (TransactionDetail i sg);; logSignatures rest (S i)
  end.

Definition createTokenBundle (W : World) (tokenData : TokenData)
  : Js (list Signature * PublicKey) :=
  try_catch
    (console_log PreparingToken;;
     let* signerA := keypairOfEnv W WALLET_A_PRIVATE_KEY in
     let* signerB := keypairOfEnv W WALLET_B_PRIVATE_KEY in
     let signerKeyPairs := [signerA; signerB] in
     let* mintKeypair := Keypair_generate W in
     await (openAsBlob W (imagePath tokenData));;
     FormData_append "file" FormBlob;;
     FormData_append "name" (FormString (tokenName tokenData));;
     FormData_append "symbol" (FormString (tokenSymbol tokenData));;
     FormData_append "description" (FormString (tokenDescription tokenData));;
     FormData_append "twitter" (FormString (xLink tokenData));;
     FormData_append "telegram" (FormString (telegramLink tokenData));;
     FormData_append "website" (FormString (websiteLink tokenData));;
     FormData_append "showName" (FormString "true");;
     console_log UploadingMetadata;;
     emit (Upload tokenData);;
     let* metadataResponse := await (upload W tokenData) in
     let* metadataUri := await (body metadataResponse) in
     let bundledTxArgs :=
       [ mkTradeRequest signerA Create metadataUri (fst mintKeypair) false
           (td_amount tokenData) 10%Q 0.0001%Q;
         mkTradeRequest signerB Buy None (fst mintKeypair) false
           (td_amount tokenData) 10%Q 0.00005%Q ] in
     console_log GeneratingTransactions;;
     emit (Trade bundledTxArgs);;
     let* response := await (tradeBundle W bundledTxArgs) in
     if (status response =? 200)%Z then
       let* transactions := await (body response) in
       console_log SigningTransactions;;
       let* signedAll :=
         signLoop W (fst mintKeypair) signerKeyPairs transactions bundledTxArgs 0 [] [] in
       console_log SubmittingBundle;;
       emit (SendBundle (fst signedAll));;
       await (sendBundle W (fst signedAll));;
       console_log TokenCreated;;
       logSignatures (snd signedAll) 0;;
       ret (snd signedAll, fst mintKeypair)
     else
       throw (mkError Error ("Failed to generate transactions: " ++ statusText response)))
    (fun error =>
       console_error (ErrorCreatingToken error);;
       throw error).

End CreateToken.

(** ** fundWallets.js (src/src/createToken.js, second part) *)

Module FundWallets.

#[global] Instance EnvVar_eq_dec : EqDecision EnvVar.
Proof. solve_decision. Defined.

(** The generation loop of [generateAndSaveWallets], from index [i]. *)
Fixpoint generateLoop (W : World) (n : nat) (i : Z)
    (wallets : list Wallet) (privateKeys : list (EnvVar * string))
  : Js (list Wallet * list (EnvVar * string)) :=
  match n with
  | O => ret (wallets, privateKeys)
  | S n' =>
      let* wallet := Keypair_generate W in
      generateLoop W n' (i + 1)
        (wallets ++ [mkWallet ("Wallet " ++ pretty (i + 1)) (fst wallet) 0%Q])
        (privateKeys ++ [(WALLET_PRIVATE_KEY (i + 1), snd wallet)])
  end.

(** Lines 409-417: the backup as read back, the empty object when the file
    is missing or cannot be read. *)
Definition loadBackup : Js (gmap string Batch) :=
  let* fs := get_files in
  try_catch
    (match private_keys_backup fs with
     | Absent => ret ∅
     | Unparseable => throw (mkError Error "Unexpected token in JSON")
     | Parsed m => ret m
     end)
    (fun error =>
       console_log NoExistingBackup;;
       ret ∅).

(** Lines 423-429: the new batch under its timestamp, and the file written. *)
Definition storeBackup (existingPrivateKeys : gmap string Batch) (timestamp : string)
    (privateKeys : list (EnvVar * string)) (wallets : list Wallet) : Js unit :=
  let* fs := get_files in
  put_files
    (mkFiles (wallets_json fs)
       (Parsed (<[timestamp := mkBatch privateKeys (map publicKey wallets)]> existingPrivateKeys))
       (dotenv fs)).

(** The write the specification calls [appendBackupBatch]: lines 407-429 of
    [generateAndSaveWallets] for a given timestamp. *)
Definition appendBackupBatch (timestamp : string) (privateKeys : list (EnvVar * string))
    (wallets : list Wallet) : Js unit :=
  let* existingPrivateKeys := loadBackup in
  storeBackup existingPrivateKeys timestamp privateKeys wallets.

(** The name of a variable, as it is written in [.env]. *)
Definition envName (x : EnvVar) : string :=
  match x with
  | WALLET_PRIVATE_KEY n => "WALLET_" ++ pretty n ++ "_PRIVATE_KEY"
  | WALLET_A_PRIVATE_KEY => "WALLET_A_PRIVATE_KEY"
  | WALLET_B_PRIVATE_KEY => "WALLET_B_PRIVATE_KEY"
  | BASE_WALLET_ADDRESS => "BASE_WALLET_ADDRESS"
  | FUNDING_WALLET_PRIVATE_KEY => "FUNDING_WALLET_PRIVATE_KEY"
  end.

Definition LF : string := String "010"%char "".

(** Whether [text] starts with a line terminator of a regular expression:
    LF, CR, or U+2028 or U+2029 (in the UTF-8 encoding of the file). *)
Definition atLineTerminator (text : string) : bool :=
  String.prefix LF text
  || String.prefix (String "013"%char "") text
  || String.prefix (String "226"%char (String "128"%char (String "168"%char ""))) text
  || String.prefix (String "226"%char (String "128"%char (String "169"%char ""))) text.

(** What [.*] leaves of [text]: the text from its first line terminator on. *)
Fixpoint afterDotStar (text : string) : string :=
  match text with
  | EmptyString => EmptyString
  | String _ rest => if atLineTerminator text then text else afterDotStar rest
  end.

Fixpoint dropPrefix (n : nat) (text : string) : string :=
  match n, text with
  | O, _ => text
  | S n', String _ rest => dropPrefix n' rest
  | S _, EmptyString => EmptyString
  end.

(** [text.replace(new RegExp(key + "=.*"), key + "=" + value)] when the
    expression matches, [None] when it does not.  The expression is not
    anchored: it matches at the first place where [key=] occurs, wherever
    in a line that is, and takes the rest of that line.  The value is a
    Base58 string, in which no [$] occurs, so it is inserted as it is. *)
Fixpoint replaceAssignment (key value : string) (text : string) : option string :=
  if String.prefix (key ++ "=") text then
    Some (key ++ "=" ++ value ++ afterDotStar (dropPrefix (String.length (key ++ "=")) text))
  else
    match text with
    | EmptyString => None
    | String c rest => option_map (String c) (replaceAssignment key value rest)
    end.

(** The body of the [forEach] over the new keys: the first match replaced,
    or a line appended. *)
Definition setEnvLine (key value : string) (envContent : string) : string :=
  match replaceAssignment key value envContent with
  | Some replaced => replaced
  | None => envContent ++ LF ++ key ++ "=" ++ value
  end.

(** [.env] after the [forEach]. *)
Definition writeEnv (privateKeys : list (EnvVar * string)) (envContent : string) : string :=
  fold_left (fun content kv => setEnvLine (envName (fst kv)) (snd kv) content)
    privateKeys envContent.

Definition generateAndSaveWallets (W : World) (numberOfWallets : nat)
  : Js (list Wallet * list (EnvVar * string)) :=
  let* generated := generateLoop W numberOfWallets 0 [] [] in
  let '(wallets, privateKeys) := generated in
  let* fs := get_files in
  put_files (mkFiles (Some (mkWalletConfig wallets (mkDelayRange 100 1000)))
               (private_keys_backup fs) (dotenv fs));;
  let* existingPrivateKeys := loadBackup in
  let* timestamp := Date_now W in
  storeBackup existingPrivateKeys timestamp privateKeys wallets;;
  let* fs' := get_files in
  match dotenv fs' with
  | None => throw (mkError Error "ENOENT: no such file or directory, open '.env'")
  | Some envContent =>
      put_files (mkFiles (wallets_json fs') (private_keys_backup fs')
                   (Some (writeEnv privateKeys envContent)));;
      ret (wallets, privateKeys)
  end.

Definition fundWallet (W : World) (sourceKeypair : PublicKey) (destinationPublicKey : string)
    (amount : Number) : Js Signature :=
  emit (Call fundWallet_fn 0 destinationPublicKey);;
  try_catch
    (let* toPubkey := await (newPublicKey W destinationPublicKey) in
     let* lamports :=
       SystemProgram_transfer W sourceKeypair toPubkey
         (Num (inject_Z (Qfloor (mul64 amount LAMPORTS_PER_SOL)))) in
     emit (SendTransfer sourceKeypair toPubkey lamports);;
     let* signature := await (sendTransfer W sourceKeypair toPubkey lamports) in
     ret signature)
    (fun error => throw error).

(** The body of the [for ... of] loop of [main]: the total after [wallet]. *)
Definition fundStep (W : World) (fundingWallet : PublicKey) (solPerWallet : Number)
    (wallet : Wallet) (totalFunded : Number) : Js Number :=
  try_catch
    (console_log (Funding (name wallet));;
     let* signature := fundWallet W fundingWallet (publicKey wallet) solPerWallet in
     console_log TransferSuccessful;;
     console_log (AmountLine solPerWallet);;
     console_log (TransactionLine signature);;
     ret (totalFunded + solPerWallet)%Q)
    (fun error =>
       console_error (ErrorFunding (name wallet) (message error));;
       ret totalFunded).

(** The [for ... of] loop of [main]. *)
Fixpoint fundLoop (W : World) (fundingWallet : PublicKey) (solPerWallet : Number)
    (ws : list Wallet) (totalFunded : Number) : Js Number :=
  match ws with
  | [] => ret totalFunded
  | wallet :: ws' =>
      let* total := fundStep W fundingWallet solPerWallet wallet totalFunded in
      fundLoop W fundingWallet solPerWallet ws' total
  end.

Definition main (W : World) : Js unit :=
  try_catch
    (match env W FUNDING_WALLET_PRIVATE_KEY with
     | None => console_error FundingKeyMissing
     | Some fundingKey =>
         if String.eqb fundingKey "" then console_error FundingKeyMissing
         else
           emit Prompt;;
           let* answers := await (fundAnswers W) in
           console_log GeneratingWallets;;
           let* generated := generateAndSaveWallets W (fst answers) in
           console_log WalletsGenerated;;
           console_log StartingFunding;;
           let* fundingWallet := await (fromSecretKey W fundingKey) in
           let* totalFunded := fundLoop W fundingWallet (snd answers) (fst generated) 0%Q in
           console_log FundingCompleted;;
           console_log (TotalDistributed totalFunded)
     end)
    (fun error => console_error (AnErrorOccurred error)).

End FundWallets.

(** ** Observations on a run *)

Definition is_transfer (e : Event) : bool :=
  match e with
  | TransferInstruction _ _ _ | SendTransfer _ _ _ => true
  | _ => false
  end.

(** The transfers constructed or submitted in a trace. *)
Definition transfers (tr : list Event) : list Event := filter is_transfer tr.

Definition is_signing (e : Event) : bool :=
  match e with
  | Sign _ _ | SendTransaction _ | SendBundle _ => true
  | _ => false
  end.

(** The signatures and submissions in a trace. *)
Definition signings (tr : list Event) : list Event := filter is_signing tr.

Definition call_of (e : Event) : option (Fn * Z * string) :=
  match e with
  | Call f i w => Some (f, i, w)
  | _ => None
  end.

(** The per-wallet operations entered in a trace, in order. *)
Definition calls (tr : list Event) : list (Fn * Z * string) := omap call_of tr.

Definition total_of (e : Event) : option Number :=
  match e with
  | ConsoleLog (TotalConsolidated t) | ConsoleLog (TotalDistributed t) => Some t
  | _ => None
  end.

(** The aggregate totals printed in a trace. *)
Definition totals (tr : list Event) : list Number := omap total_of tr.

(** The console lines that tell of a wallet that failed or was skipped. *)
Definition failure_line (e : Event) : bool :=
  match e with
  | ConsoleLog (SkippingNoPrivateKey _) | ConsoleLog (SkippingNoBalance _)
  | ConsoleLog (NoTokenBalance _) | ConsoleLog (InsufficientBalance _)
  | ConsoleError _ => true
  | _ => false
  end.

(** A step that returns, entering the operations [cs] and printing no total. *)
Definition steps {A} (m : Js A) (cs : list (Fn * Z * string)) : Prop :=
  forall s, exists a s' evs,
    m s = (Normal a, s') /\ trace s' = (trace s ++ evs)%list /\
    calls evs = cs /\ totals evs = [].

(** A computation that returns a value satisfying [P] and leaves the trace as it is. *)
Definition silent {A} (m : Js A) (P : A -> Prop) : Prop :=
  forall s, exists a s', m s = (Normal a, s') /\ trace s' = trace s /\ P a.

Definition start : State := initial_state [] initial_files.

(** A process started with an empty [.env] file and no backup. *)
Definition startWithEnv : State := initial_state [] (mkFiles None Absent (Some "")).

(** *** The delay *)

(** A double below 1: 1 - 2^-52, the largest value of a generator that
    draws 52 random bits. *)
Definition nearOne : Number := (4503599627370495 # 4503599627370496)%Q.

(** *** The batches *)

(** The wallets of a buy batch with their indices, from [i]. *)
Fixpoint indexed (f : Fn) (ws : list Wallet) (i : Z) : list (Fn * Z * string) :=
  match ws with
  | [] => []
  | w :: ws' => (f, i, name w) :: indexed f ws' (i + 1)
  end.

(** The operations a sell batch enters for the wallets [ws], in order: the
    index is the one [findIndex] gives for the name. *)
Definition sellCalls (W : World) (ws : list Wallet) : list (Fn * Z * string) :=
  map (fun wallet =>
         (executeSellWithWallet_fn,
          SellBot.findIndex (fun w => String.eqb (name w) (name wallet))
            (wallets (walletConfig W)) 0,
          name wallet)) ws.

(** The events of a sale up to the request to the trade API. *)
Definition selling (i : Z) (t : string) (w : Wallet) (bp : BaseParams) (pk : PublicKey)
    (tokenBalance : Number) : list Event :=
  [Call executeSellWithWallet_fn i (name w);
   ConsoleLog (ExecutingSell (name w));
   ConsoleLog (CurrentBalance tokenBalance);
   Trade [mkTradeRequest pk Sell None t false (SellBot.amountToSell bp tokenBalance)
            (slippage bp) (priorityFee bp)]].

(** Whether the transfer to [destination] goes through. *)
Definition funded (W : World) (source : PublicKey) (destination : string) (amount : Number)
  : bool :=
  match fst (FundWallets.fundWallet W source destination amount start) with
  | Normal _ => true
  | Throw _ => false
  end.

(** The sum of the amounts of the transfers that went through. *)
Definition fundedTotal (W : World) (source : PublicKey) (solPerWallet : Number)
    (ws : list Wallet) (total : Number) : Number :=
  fold_left
    (fun acc w => if funded W source (publicKey w) solPerWallet then (acc + solPerWallet)%Q else acc)
    ws total.

(** *** Consolidation *)

(** The events of [consolidateWallet] for a wallet with a positive balance
    of [b] lamports, up to the fee query. *)
Definition processing (walletIndex : Z) (kp : PublicKey) (b : Number) : list Event :=
  [Call consolidateWallet_fn walletIndex "";
   ConsoleLog (ProcessingWallet (walletIndex + 1));
   ConsoleLog (Address kp);
   ConsoleLog (BalanceLine (b / LAMPORTS_PER_SOL)%Q)].

(** The error of [BigInt(NaN)]. *)
Definition notAnInteger : JsError :=
  mkError RangeError
    "The number NaN cannot be converted to a BigInt because it is not an integer".

(** *** The backup *)

(** The batches a backup file gives when it is read back. *)
Definition stored (f : BackupFile) : gmap string Batch :=
  match f with
  | Parsed m => m
  | Absent | Unparseable => ∅
  end.

(** Two writes of the backup, one after the other. *)
Definition twoBackups (t1 : string) (keys1 : list (EnvVar * string)) (ws1 : list Wallet)
    (t2 : string) (keys2 : list (EnvVar * string)) (ws2 : list Wallet) : Js unit :=
  FundWallets.appendBackupBatch t1 keys1 ws1;;
  FundWallets.appendBackupBatch t2 keys2 ws2.

(** ** The claims that fail, as the specification words them *)

(** The run reports the aggregate total [v]. *)
Definition reports (tr : list Event) (v : Number) : Prop :=
  exists t, last (totals tr) = Some t /\ (t == v)%Q.

(** After two writes the batch of the first is still there, next to the
    timestamp of the second. *)
Definition first_batch_kept (t1 : string) (keys1 : list (EnvVar * string)) (ws1 : list Wallet)
    (t2 : string) (keys2 : list (EnvVar * string)) (ws2 : list Wallet) (s : State) : Prop :=
  exists m,
    private_keys_backup (files (snd (twoBackups t1 keys1 ws1 t2 keys2 ws2 s))) = Parsed m /\
    m !! t1 = Some (mkBatch keys1 (map publicKey ws1)) /\
    is_Some (m !! t2).

(** ** Sample worlds *)

(** A world where every collaborator answers; the arguments are what the
    sample runs vary. *)
Definition sampleWorld
    (env : EnvVar -> option string) (config : WalletConfig) (random : nat -> Number)
    (getBalance : PublicKey -> Outcome Number) (fee : Number)
    (tradeLocal : TradeRequest -> Outcome (Response string))
    (sendTransfer : PublicKey -> PublicKey -> Number -> Outcome Signature)
    (upload : TokenData -> Outcome (Response (Outcome (option string))))
    (answers : nat * Number) : World :=
  mkWorld env config random
    (fun k => "2024-01-01T00:00:0" ++ pretty k ++ ".000Z")
    (fun k => ("generated" ++ pretty k, "secret" ++ pretty k))
    (fun k => Normal ("pub:" ++ k))
    (fun a => Normal a)
    (Normal true)
    getBalance
    (Normal "blockhash")
    (fun _ => Normal (mkRpcResponse 0 (Some fee)))
    (fun _ _ _ => Normal tt)
    sendTransfer
    (fun _ _ => Normal [1000%Q])
    (fun a => Normal a)
    tradeLocal
    (fun _ => Normal (mkResponse 200 "OK" (Normal ["tx0"; "tx1"])))
    (fun tx signers => ("signed:" ++ tx, "sig:" ++ tx))
    (Normal answers)
    (fun tx => Normal tx)
    (fun tx => Normal ("sent:" ++ tx))
    (fun _ => Normal tt)
    upload
    (fun _ => Normal tt).

Definition firstWallet : Wallet := mkWallet "Wallet 1" "addr1" 0.5%Q.

Definition oneWallet : WalletConfig := mkWalletConfig [firstWallet] (mkDelayRange 100 1000).

(** Every wallet has its key, and the base and funding wallets are configured. *)
Definition fullEnv (x : EnvVar) : option string :=
  match x with
  | WALLET_PRIVATE_KEY n => Some ("key" ++ pretty n)
  | WALLET_A_PRIVATE_KEY => Some "keyA"
  | WALLET_B_PRIVATE_KEY => Some "keyB"
  | BASE_WALLET_ADDRESS => Some "base"
  | FUNDING_WALLET_PRIVATE_KEY => Some "funding"
  end.

Definition okTrade (r : TradeRequest) : Outcome (Response string) :=
  Normal (mkResponse 200 "OK" "tx").

Definition okUpload (t : TokenData) : Outcome (Response (Outcome (option string))) :=
  Normal (mkResponse 200 "OK" (Normal (Some "ipfs://meta"))).

Definition okSend (from to : PublicKey) (lamports : Number) : Outcome Signature :=
  Normal "transferSig".

Definition buyParams : BaseParams := mkBaseParams 100%Q 10%Q 0.00001%Q.

Definition halfParams : BaseParams := mkBaseParams 50%Q 10%Q 0.00001%Q.

Definition sampleToken : TokenData :=
  mkTokenData "Token" "TKN" "a token" "" "" "" "./image.png" 1%Q.

(** One wallet holding 2 SOL and 1000 tokens; every collaborator answers. *)
Definition buyWorld : World :=
  sampleWorld fullEnv oneWallet (fun _ => 0.37%Q) (fun _ => Normal 2000000000%Q) 5000%Q
    okTrade okSend okUpload (1%nat, 1%Q).

(** One wallet holding exactly the fee, 5000 lamports. *)
Definition feeWorld : World :=
  sampleWorld fullEnv oneWallet (fun _ => 0.37%Q) (fun _ => Normal 5000%Q) 5000%Q
    okTrade okSend okUpload (1%nat, 1%Q).

(** The balance query of every wallet fails. *)
Definition offlineWorld : World :=
  sampleWorld fullEnv oneWallet (fun _ => 0.37%Q)
    (fun _ => Throw (mkError Error "fetch failed")) 5000%Q
    okTrade okSend okUpload (1%nat, 1%Q).

(** The trade API answers 500. *)
Definition refusedTrade (r : TradeRequest) : Outcome (Response string) :=
  Normal (mkResponse 500 "Internal Server Error" "").

Definition quoteDownWorld : World :=
  sampleWorld fullEnv oneWallet (fun _ => 0.37%Q) (fun _ => Normal 2000000000%Q) 5000%Q
    refusedTrade okSend okUpload (1%nat, 1%Q).

(** The upload answers 500 with a JSON body that has no [metadataUri]. *)
Definition refusedUpload (t : TokenData) : Outcome (Response (Outcome (option string))) :=
  Normal (mkResponse 500 "Internal Server Error" (Normal None)).

Definition uploadDownWorld : World :=
  sampleWorld fullEnv oneWallet (fun _ => 0.37%Q) (fun _ => Normal 2000000000%Q) 5000%Q
    okTrade okSend refusedUpload (1%nat, 1%Q).

(** Three wallets to fund with 1 SOL each; the transfer to the second is refused. *)
Definition refuseSecond (from to : PublicKey) (lamports : Number) : Outcome Signature :=
  if String.eqb to "generated1" then Throw (mkError Error "blockhash not found")
  else Normal "transferSig".

Definition fundWorld : World :=
  sampleWorld fullEnv oneWallet (fun _ => 0.37%Q) (fun _ => Normal 2000000000%Q) 5000%Q
    okTrade refuseSecond okUpload (3%nat, 1%Q).

(** Three wallets, and draws that alternate between 0.9 and 0.2. *)
Definition threeWallets : WalletConfig :=
  mkWalletConfig
    [firstWallet; mkWallet "Wallet 2" "addr2" 0.25%Q; mkWallet "Wallet 3" "addr3" 1%Q]
    (mkDelayRange 100 1000).

Definition shuffleWorld : World :=
  sampleWorld fullEnv threeWallets (fun k => if Nat.even k then 0.9%Q else 0.2%Q)
    (fun _ => Normal 2000000000%Q) 5000%Q okTrade okSend okUpload (1%nat, 1%Q).

(** A process that finds a backup file it cannot parse. *)
Definition startUnreadable : State := initial_state [] (mkFiles None Unparseable (Some "")).

(** ** Further observations *)

Definition trade_of (e : Event) : option (list TradeRequest) :=
  match e with
  | Trade r => Some r
  | _ => None
  end.

(** The requests sent to the trade API in a trace. *)
Definition trades (tr : list Event) : list (list TradeRequest) := omap trade_of tr.

Definition is_upload (e : Event) : bool :=
  match e with
  | Upload _ => true
  | _ => false
  end.

(** The wallets and the keys that [generateAndSaveWallets] makes: [n] of
    them, numbered from [i] + 1, from the [g]-th generated key pair on. *)
Fixpoint generatedWallets (W : World) (n : nat) (i : Z) (g : nat) : list Wallet :=
  match n with
  | O => []
  | S n' =>
      mkWallet ("Wallet " ++ pretty (i + 1)) (fst (keygen W g)) 0%Q
      :: generatedWallets W n' (i + 1) (S g)
  end.

Fixpoint generatedKeys (W : World) (n : nat) (i : Z) (g : nat) : list (EnvVar * string) :=
  match n with
  | O => []
  | S n' =>
      (WALLET_PRIVATE_KEY (i + 1), snd (keygen W g)) :: generatedKeys W n' (i + 1) (S g)
  end.

(** A world without configured wallets, and one without any variable set. *)
Definition noWallets : WalletConfig := mkWalletConfig [] (mkDelayRange 100 1000).

Definition emptyWorld : World :=
  sampleWorld fullEnv noWallets (fun _ => 0.37%Q) (fun _ => Normal 2000000000%Q) 5000%Q
    okTrade okSend okUpload (1%nat, 1%Q).

Definition bareWorld : World :=
  sampleWorld (fun _ => None) oneWallet (fun _ => 0.37%Q) (fun _ => Normal 2000000000%Q) 5000%Q
    okTrade okSend okUpload (1%nat, 1%Q).

(** The delays a batch draws: [k] of them, from the [d]-th random number on. *)
Fixpoint delaysFrom (W : World) (d : nat) (k : nat) : list Z :=
  match k with
  | O => []
  | S k' =>
      floorOfDraw (random W d) (min (delayRange (walletConfig W)))
        (max (delayRange (walletConfig W)))
      :: delaysFrom W (S d) k'
  end.

(** The number of pauses of a loop over [n] wallets that starts at index [i]:
    none before the wallet of index 0. *)
Definition pauses (i : Z) (n : nat) : nat := if (0 <? i)%Z then n else pred n.

(** The rhythm of a trace: the operations entered and the pauses made, in
    the order in which they happened. *)
Inductive Beat := Enter (c : Fn * Z * string) | Pause (ms : Z).

Definition beat_of (e : Event) : option Beat :=
  match e with
  | Call f i w => Some (Enter (f, i, w))
  | Sleep ms => Some (Pause ms)
  | _ => None
  end.

Definition beats (tr : list Event) : list Beat := omap beat_of tr.

(** Each operation of [cs] with a pause before it. *)
Definition pausedBefore (ds : list Z) (cs : list (Fn * Z * string)) : list Beat :=
  concat (zip_with (fun d c => [Pause d; Enter c]) ds cs).

(** A batch paced as the scripts pace it: the first operation at once,
    each of the others after a pause. *)
Definition paced (cs : list (Fn * Z * string)) (ds : list Z) : list Beat :=
  match cs with
  | [] => []
  | c :: cs' => Enter c :: pausedBefore ds cs'
  end.

(** The rhythm of a loop that starts at index [i]: a pause before every
    wallet but the one of index 0. *)
Definition rhythm (i : Z) (cs : list (Fn * Z * string)) (ds : list Z) : list Beat :=
  if (0 <? i)%Z then pausedBefore ds cs else paced cs ds.

(** A process started with a [.env] file of two lines and a backup that
    holds one earlier batch. *)
Definition startWithBackup : State :=
  initial_state []
    (mkFiles None
       (Parsed {[ "2023-12-31T00:00:00.000Z" := mkBatch [(WALLET_PRIVATE_KEY 1, "old")] ["old1"] ]})
       (Some ("FUNDING_WALLET_PRIVATE_KEY=funding" ++ FundWallets.LF ++ "WALLET_1_PRIVATE_KEY=old"))).

(** The lamports [fundWallet] sends for an amount in SOL:
    [Math.floor(amount * LAMPORTS_PER_SOL)], the product rounded to a double. *)
Definition fundLamports (amount : Number) : Number :=
  inject_Z (Qfloor (mul64 amount LAMPORTS_PER_SOL)).

(** A world whose funding key does not decode. *)
Definition badFundingWorld : World :=
  mkWorld fullEnv oneWallet (fun _ => 0.37%Q)
    (fun k => "2024-01-01T00:00:0" ++ pretty k ++ ".000Z")
    (fun k => ("generated" ++ pretty k, "secret" ++ pretty k))
    (fun k => if String.eqb k "funding" then Throw (mkError Error "bad secret key size")
              else Normal ("pub:" ++ k))
    (fun a => Normal a)
    (Normal true)
    (fun _ => Normal 2000000000%Q)
    (Normal "blockhash")
    (fun _ => Normal (mkRpcResponse 0 (Some 5000%Q)))
    (fun _ _ _ => Normal tt)
    okSend
    (fun _ _ => Normal [1000%Q])
    (fun a => Normal a)
    okTrade
    (fun _ => Normal (mkResponse 200 "OK" (Normal ["tx0"; "tx1"])))
    (fun tx signers => ("signed:" ++ tx, "sig:" ++ tx))
    (Normal (2%nat, 1%Q))
    (fun tx => Normal tx)
    (fun tx => Normal ("sent:" ++ tx))
    (fun _ => Normal tt)
    okUpload
    (fun _ => Normal tt).

(** The configuration a funding run of three wallets leaves, read by the next script. *)
Definition afterFundingWorld : World :=
  sampleWorld fullEnv
    (mkWalletConfig (generatedWallets fundWorld 3 0 0) (mkDelayRange 100 1000))
    (fun _ => 0.37%Q) (fun _ => Normal 2000000000%Q) 5000%Q
    okTrade okSend okUpload (1%nat, 1%Q).

(** * Theorems *)

Lemma extend_extend (s : State) (a b : list Event) :
  extend (extend s a) b = extend s (a ++ b).
Proof. unfold extend; simpl. now rewrite <- app_assoc. Qed.

Ltac js_unfold :=
  unfold bind, ret, try_catch, await, throw, emit, console_log, console_error in *.

(** One case distinction on what the code looks at next. *)
Ltac case_step :=
  match goal with
  | |- context [match ?x with _ => _ end] =>
      lazymatch type of x with
      | Outcome _ => destruct x eqn:?
      | option _ => destruct x eqn:?
      | bool => destruct x eqn:?
      | list _ => destruct x eqn:?
      end; cbn
  end.

(** ** Doubles *)

Section Doubles.
Local Open Scope Q_scope.

Lemma pow2_pos (e : Z) : 0 < pow2 e.
Proof. apply Qpower_0_lt. reflexivity. Qed.

Lemma pow2_nonneg_exponent (n : Z) : (0 <= n)%Z -> pow2 n == inject_Z (2 ^ n).
Proof. intros H. unfold pow2. now rewrite Zpower_Qpower. Qed.

Lemma pow2_minus (a b : Z) : pow2 (a - b) == pow2 a / pow2 b.
Proof. unfold pow2. apply Qpower_minus. discriminate. Qed.

Lemma pow2_le (a b : Z) : (a <= b)%Z -> pow2 a <= pow2 b.
Proof. intros H. apply Qpower_le_compat_l; [assumption | discriminate]. Qed.

Lemma pow2_lt_inv (a b : Z) : pow2 a < pow2 b -> (a < b)%Z.
Proof. intros H. apply (Qpower_lt_compat_l_inv 2); [assumption | reflexivity]. Qed.

Lemma Qdiv_lt_cross (a b c d : Q) : 0 < b -> 0 < d -> a * d < c * b -> a / b < c / d.
Proof.
  intros Hb Hd H. apply Qlt_shift_div_l; [assumption |].
  assert (E : a / b * d == a * d / b) by (field; intros E; rewrite E in Hb; discriminate).
  rewrite E. now apply Qlt_shift_div_r.
Qed.

Lemma Qdiv_le_cross (a b c d : Q) : 0 < b -> 0 < d -> a * d <= c * b -> a / b <= c / d.
Proof.
  intros Hb Hd H. apply Qle_shift_div_l; [assumption |].
  assert (E : a / b * d == a * d / b) by (field; intros E; rewrite E in Hb; discriminate).
  rewrite E. now apply Qle_shift_div_r.
Qed.

(** [ilog2 x] is the integer part of the binary logarithm of a positive [x]. *)
Lemma ilog2_spec (x : Q) : 0 < x -> pow2 (ilog2 x) <= x /\ x < pow2 (ilog2 x + 1).
Proof.
  intros Hx. destruct x as [n d]. unfold ilog2. cbn [Qnum Qden].
  assert (Hn : (0 < n)%Z) by (unfold Qlt in Hx; cbn in Hx; lia).
  destruct (Z.log2_spec n Hn) as [Ha1 Ha2].
  destruct (Z.log2_spec (Zpos d) (Pos2Z.is_pos d)) as [Hb1 Hb2].
  pose proof (Z.log2_nonneg n) as Ha0. pose proof (Z.log2_nonneg (Zpos d)) as Hb0.
  set (a := Z.log2 n) in *. set (b := Z.log2 (Zpos d)) in *.
  assert (Hd : 0 < inject_Z (Zpos d)) by reflexivity.
  assert (E : n # d == inject_Z n / inject_Z (Zpos d)) by apply Qmake_Qdiv.
  destruct (Qle_bool (pow2 (a - b)) (n # d)) eqn:Hc.
  - split; [now apply Qle_bool_iff |].
    replace (a - b + 1)%Z with ((a + 1) - b)%Z by lia.
    rewrite pow2_minus, E, !pow2_nonneg_exponent by lia.
    apply Qdiv_lt_cross; [assumption | change 0 with (inject_Z 0); rewrite <- Zlt_Qlt; lia |].
    rewrite <- !inject_Z_mult, <- Zlt_Qlt. nia.
  - assert (Hlt : n # d < pow2 (a - b)).
    { apply Qnot_le_lt. intros H. apply Qle_bool_iff in H. congruence. }
    split; [| now replace (a - b - 1 + 1)%Z with (a - b)%Z by lia].
    replace (a - b - 1)%Z with (a - (b + 1))%Z by lia.
    rewrite pow2_minus, E, !pow2_nonneg_exponent by lia.
    apply Qdiv_le_cross; [change 0 with (inject_Z 0); rewrite <- Zlt_Qlt; lia | assumption |].
    rewrite <- !inject_Z_mult, <- Zle_Qle. nia.
Qed.

Lemma ulp_exponent_fine (x : Q) : Qabs x < pow2 53 -> (ulp_exponent x <= 0)%Z.
Proof.
  intros H. unfold ulp_exponent. apply Z.max_lub; [| lia].
  destruct (Qlt_le_dec 0 (Qabs x)) as [Hpos | Hz].
  - destruct (ilog2_spec _ Hpos) as [Hlo _].
    assert (ilog2 (Qabs x) < 53)%Z; [| lia].
    apply pow2_lt_inv. now apply Qle_lt_trans with (Qabs x).
  - assert (E : Qnum (Qabs x) = 0%Z).
    { pose proof (Qabs_nonneg x) as H0. unfold Qle in *. cbn in *. lia. }
    unfold ilog2. rewrite E. change (Z.log2 0) with 0%Z.
    pose proof (Z.log2_nonneg (Zpos (Qden (Qabs x)))).
    destruct (Qle_bool _ _); lia.
Qed.

Lemma roundHalfEven_ge (z : Z) (q : Q) : inject_Z z <= q -> (z <= roundHalfEven q)%Z.
Proof.
  intros H. apply Qfloor_resp_le in H. rewrite Qfloor_Z in H.
  unfold roundHalfEven. destruct (_ ?= _); [destruct (Z.even _) |..]; lia.
Qed.

Lemma roundHalfEven_le (z : Z) (q : Q) : q <= inject_Z z -> (roundHalfEven q <= z)%Z.
Proof.
  intros H. pose proof (Qfloor_le q) as Hf.
  assert (Hz : (Qfloor q <= z)%Z).
  { apply Qfloor_resp_le in H. now rewrite Qfloor_Z in H. }
  assert (Hstep : inject_Z (Qfloor q) < q -> (Qfloor q + 1 <= z)%Z).
  { intros Hlt. assert (Qfloor q < z)%Z; [| lia].
    rewrite Zlt_Qlt. now apply Qlt_le_trans with q. }
  unfold roundHalfEven.
  destruct (q - inject_Z (Qfloor q) ?= 1 # 2) eqn:E.
  - destruct (Z.even _); [assumption |]. apply Hstep.
    apply Qeq_alt in E. apply Qlt_minus_iff. rewrite E. reflexivity.
  - assumption.
  - apply Hstep. apply Qgt_alt in E. apply Qlt_minus_iff.
    apply Qlt_trans with (1 # 2); [reflexivity | assumption].
Qed.

(** Rounding does not cross an integer: below 2^53 the integers are doubles. *)
Lemma round64_between (z : Z) (x : Q) :
  Qabs x < pow2 53 ->
  (inject_Z z <= x -> inject_Z z <= round64 x) /\
  (x <= inject_Z z -> round64 x <= inject_Z z).
Proof.
  intros Hx. pose proof (ulp_exponent_fine x Hx) as He. unfold round64.
  set (e := ulp_exponent x) in *.
  assert (Hp : pow2 e == / inject_Z (2 ^ (- e))).
  { replace e with (- - e)%Z at 1 by lia. unfold pow2. rewrite Qpower_opp.
    now rewrite Zpower_Qpower by lia. }
  assert (HN : (0 < 2 ^ (- e))%Z) by (apply Z.pow_pos_nonneg; lia).
  set (N := (2 ^ (- e))%Z) in *.
  assert (HNq : 0 < inject_Z N) by (change 0 with (inject_Z 0); now rewrite <- Zlt_Qlt).
  assert (Hdiv : x / pow2 e == x * inject_Z N).
  { rewrite Hp. unfold Qdiv. rewrite Qinv_involutive. reflexivity. }
  assert (Hback : forall k : Z, inject_Z k * pow2 e == inject_Z k / inject_Z N).
  { intros k. rewrite Hp. reflexivity. }
  split; intros H.
  - rewrite Hback. apply Qle_shift_div_l; [assumption |].
    rewrite <- inject_Z_mult, <- Zle_Qle. apply roundHalfEven_ge.
    rewrite Hdiv, inject_Z_mult. apply Qmult_le_compat_r; [assumption | now apply Qlt_le_weak].
  - rewrite Hback. apply Qle_shift_div_r; [assumption |].
    rewrite <- inject_Z_mult, <- Zle_Qle. apply roundHalfEven_le.
    rewrite Hdiv, inject_Z_mult. apply Qmult_le_compat_r; [assumption | now apply Qlt_le_weak].
Qed.

End Doubles.


Section ConsolidateFacts.
Import Consolidate.
Variable W : World.

Lemma getWalletBalance_normal (pk : PublicKey) (s : State) :
  exists v s', getWalletBalance W pk s = (Normal v, s').
Proof.
  unfold getWalletBalance; js_unfold.
  destruct (getBalance W pk); eauto.
Qed.

Lemma getWalletBalance_failed (pk : PublicKey) (e : JsError) (s : State) :
  getBalance W pk = Throw e ->
  getWalletBalance W pk s
  = (Normal 0%Q, extend s [ConsoleError (ErrorFetchingBalance (message e))]).
Proof.
  intros H. unfold getWalletBalance; js_unfold. now rewrite H.
Qed.

End ConsolidateFacts.

(** ** The randomized delay *)

Section Delay.
Local Open Scope Q_scope.

Lemma below_pow2_53 (a b : Z) (x : Q) :
  (- 2 ^ 53 < a)%Z -> (b < 2 ^ 53)%Z -> inject_Z a <= x -> x <= inject_Z b ->
  Qabs x < pow2 53.
Proof.
  intros Ha Hb Hlo Hhi. apply Qabs_Qlt_condition.
  assert (E : pow2 53 == inject_Z (2 ^ 53)) by (apply pow2_nonneg_exponent; lia).
  rewrite E. split.
  - apply Qlt_le_trans with (inject_Z a); [| assumption].
    rewrite <- inject_Z_opp, <- Zlt_Qlt. assumption.
  - apply Qle_lt_trans with (inject_Z b); [assumption |]. now rewrite <- Zlt_Qlt.
Qed.

(** A result between two integers below 2^53 stays between them when it is
    rounded. *)
Lemma round64_within (a b : Z) (x : Q) :
  (- 2 ^ 53 < a)%Z -> (b < 2 ^ 53)%Z -> inject_Z a <= x -> x <= inject_Z b ->
  inject_Z a <= round64 x /\ round64 x <= inject_Z b.
Proof.
  intros Ha Hb Hlo Hhi.
  pose proof (below_pow2_53 a b x Ha Hb Hlo Hhi) as Hx. split.
  - now apply (round64_between a x Hx).
  - now apply (round64_between b x Hx).
Qed.

(** In doubles the delay lies between [min] and [max] + 1. *)
Lemma floorOfDraw_bounds (r : Number) (min max : Z) :
  (0 <= min <= max)%Z -> (max < 2 ^ 52)%Z -> 0 <= r -> r < 1 ->
  (min <= floorOfDraw r min max <= max + 1)%Z.
Proof.
  intros [Hmin Hle] Hmax H0 H1.
  assert (Hbig : (2 ^ 52 < 2 ^ 53)%Z) by reflexivity.
  assert (Hpos : (0 < 2 ^ 52)%Z) by reflexivity.
  unfold floorOfDraw, add64, mul64, sub64.
  set (d1 := round64 (inject_Z max - inject_Z min)).
  assert (Hd1 : inject_Z (max - min) <= d1 /\ d1 <= inject_Z (max - min)).
  { apply round64_within; try lia.
    - unfold Zminus. rewrite inject_Z_plus, inject_Z_opp. apply Qle_refl.
    - unfold Zminus. rewrite inject_Z_plus, inject_Z_opp. apply Qle_refl. }
  set (d2 := round64 (d1 + 1)).
  assert (Hd2 : inject_Z (max - min + 1) <= d2 /\ d2 <= inject_Z (max - min + 1)).
  { apply round64_within; try lia.
    - rewrite inject_Z_plus. apply Qplus_le_l. apply Hd1.
    - rewrite inject_Z_plus. apply Qplus_le_l. apply Hd1. }
  assert (Hd2pos : 0 <= d2).
  { apply Qle_trans with (inject_Z (max - min + 1)); [| apply Hd2].
    change 0 with (inject_Z 0). rewrite <- Zle_Qle. lia. }
  set (p := round64 (r * d2)).
  assert (Hp : inject_Z 0 <= p /\ p <= inject_Z (max - min + 1)).
  { apply round64_within; try lia.
    - now apply Qmult_le_0_compat.
    - apply Qle_trans with d2; [| apply Hd2].
      apply Qle_trans with (1 * d2); [| rewrite Qmult_1_l; apply Qle_refl].
      apply Qmult_le_compat_r; [now apply Qlt_le_weak | assumption]. }
  set (v := round64 (p + inject_Z min)).
  assert (Hv : inject_Z min <= v /\ v <= inject_Z (max + 1)).
  { apply round64_within; try lia.
    - rewrite <- (Qplus_0_l (inject_Z min)) at 1. apply Qplus_le_l. apply Hp.
    - replace (max + 1)%Z with ((max - min + 1) + min)%Z by lia.
      rewrite inject_Z_plus. apply Qplus_le_l. apply Hp. }
  split.
  - rewrite <- (Qfloor_Z min) at 1. apply Qfloor_resp_le. apply Hv.
  - rewrite <- (Qfloor_Z (max + 1)). apply Qfloor_resp_le. apply Hv.
Qed.

(** The draw 0 gives [min]. *)
Lemma floorOfDraw_lowest (min max : Z) :
  (0 <= min <= max)%Z -> (max < 2 ^ 52)%Z -> floorOfDraw 0 min max = min.
Proof.
  intros [Hmin Hle] Hmax.
  assert (Hbig : (2 ^ 52 < 2 ^ 53)%Z) by reflexivity.
  assert (Hpos : (0 < 2 ^ 52)%Z) by reflexivity.
  unfold floorOfDraw, add64, mul64.
  set (d2 := round64 (sub64 (inject_Z max) (inject_Z min) + 1)).
  set (p := round64 (0 * d2)).
  assert (Hp : inject_Z 0 <= p /\ p <= inject_Z 0).
  { apply round64_within; try lia; rewrite Qmult_0_l; apply Qle_refl. }
  set (v := round64 (p + inject_Z min)).
  assert (Hv : inject_Z min <= v /\ v <= inject_Z min).
  { apply round64_within; try lia.
    - rewrite <- (Qplus_0_l (inject_Z min)) at 1. apply Qplus_le_l. apply Hp.
    - rewrite <- (Qplus_0_l (inject_Z min)) at 2. apply Qplus_le_l. apply Hp. }
  apply Z.le_antisymm.
  - rewrite <- (Qfloor_Z min). apply Qfloor_resp_le. apply Hv.
  - rewrite <- (Qfloor_Z min) at 1. apply Qfloor_resp_le. apply Hv.
Qed.

End Delay.

(** On the products and sums met below, and at the edge of the subnormal
    numbers, [round64] rounds as the binary64 operations of [SpecFloat] do. *)
Example round64_as_binary64_rounds :
  Qeq_bool (mul64 (ofDouble Sample64.eightPointTwo) (ofDouble Sample64.billion))
    (ofDouble (Sample64.mul Sample64.eightPointTwo Sample64.billion)) = true /\
  Qeq_bool (mul64 (ofDouble Sample64.threeTenths) (ofDouble Sample64.billion))
    (ofDouble (Sample64.mul Sample64.threeTenths Sample64.billion)) = true /\
  Qeq_bool (add64 (ofDouble Sample64.belowOne) (ofDouble Sample64.two))
    (ofDouble (Sample64.add Sample64.belowOne Sample64.two)) = true /\
  Qeq_bool (add64 (ofDouble Sample64.oneTenth) (ofDouble Sample64.twoTenths))
    (ofDouble (Sample64.add Sample64.oneTenth Sample64.twoTenths)) = true /\
  Qeq_bool (sub64 (ofDouble Sample64.threeTenths) (ofDouble Sample64.oneTenth))
    (ofDouble (Sample64.sub Sample64.threeTenths Sample64.oneTenth)) = true /\
  Qeq_bool (mul64 (ofDouble Sample64.smallest) (ofDouble Sample64.oneAndHalf))
    (ofDouble (Sample64.mul Sample64.smallest Sample64.oneAndHalf)) = true /\
  Qeq_bool nearOne (ofDouble Sample64.belowOne) = true.
Proof. vm_compute. repeat split. Qed.

(** C8, the code at the failing input: the delay range is 2..2 and
    [Math.random] returns the double 1 - 2^-52.  The sum
    (1 - 2^-52) * 1 + 2 is halfway between two doubles and rounds to 3, so
    [getRandomDelay] (the same function in buyBot.js and sellBot.js)
    returns 3, above [max].  Whatever the range 0 <= min <= max and the
    draw in [0, 1), the delay is an integer from min to max + 1. *)
Theorem C8_getRandomDelay_exceeds_max :
  (0 <= nearOne)%Q /\ (nearOne < 1)%Q /\
  (round64 nearOne == nearOne)%Q /\
  (forall W s, random W (draws s) = nearOne ->
     fst (BuyBot.getRandomDelay W 2 2 s) = Normal 3 /\
     fst (SellBot.getRandomDelay W 2 2 s) = Normal 3) /\
  (forall W s min max,
     (0 <= min <= max)%Z -> (max < 2 ^ 52)%Z ->
     (0 <= random W (draws s))%Q -> (random W (draws s) < 1)%Q ->
     exists d s',
       BuyBot.getRandomDelay W min max s = (Normal d, s') /\
       SellBot.getRandomDelay W min max s = (Normal d, s') /\
       (min <= d <= max + 1)%Z).
Proof.
  split; [discriminate |]. split; [reflexivity |]. split; [vm_compute; reflexivity |].
  split.
  - intros W s E.
    unfold BuyBot.getRandomDelay, SellBot.getRandomDelay, Math_random; js_unfold.
    cbn [fst]. rewrite E. split; vm_compute; reflexivity.
  - intros W s min max Hrange Hmax H0 H1.
    eexists _, _. split; [reflexivity |]. split; [reflexivity |].
    now apply floorOfDraw_bounds.
Qed.

Lemma C8_getRandomDelay_exceeds_max_witness :
  fst (BuyBot.getRandomDelay
         (sampleWorld fullEnv (mkWalletConfig [firstWallet] (mkDelayRange 2 2))
            (fun _ => nearOne) (fun _ => Normal 2000000000%Q) 5000%Q
            okTrade okSend okUpload (1%nat, 1%Q))
         2 2 start) = Normal 3 /\
  exists d s',
    BuyBot.getRandomDelay buyWorld 100 1000 start = (Normal d, s') /\ (100 <= d <= 1001)%Z.
Proof.
  destruct C8_getRandomDelay_exceeds_max as [_ [_ [_ [Hbad Hall]]]]. split.
  - apply (Hbad (sampleWorld fullEnv (mkWalletConfig [firstWallet] (mkDelayRange 2 2))
                   (fun _ => nearOne) (fun _ => Normal 2000000000%Q) 5000%Q
                   okTrade okSend okUpload (1%nat, 1%Q)) start). reflexivity.
  - destruct (Hall buyWorld start 100 1000) as [d [s' [Hb [_ Hd]]]].
    + lia.
    + reflexivity.
    + vm_compute. discriminate.
    + vm_compute. reflexivity.
    + exists d, s'. now split.
Defined.

(** ** consolidate.js *)

Lemma Qle_bool_false (x y : Q) : ~ (x <= y)%Q -> Qle_bool x y = false.
Proof.
  intros H. destruct (Qle_bool x y) eqn:E; [| reflexivity].
  now apply Qle_bool_iff in E.
Qed.

Section ConsolidateWallet.
Import Consolidate.
Variable W : World.
Variables (walletIndex : Z) (base : PublicKey) (key : string) (kp : PublicKey).
Hypothesis Hkey : env W (WALLET_PRIVATE_KEY (walletIndex + 1)) = Some key.
Hypothesis Hne : key <> "".
Hypothesis Hkp : fromSecretKey W key = Normal kp.

Ltac enter :=
  unfold consolidateWallet, getWalletBalance; js_unfold;
  rewrite Hkey, (proj2 (String.eqb_neq key "") Hne); simpl; rewrite Hkp.

Lemma consolidateWallet_query_failed (e : JsError) (s : State) :
  getBalance W kp = Throw e ->
  consolidateWallet W walletIndex base s
  = (Normal 0%Q,
     extend s [Call consolidateWallet_fn walletIndex "";
               ConsoleError (ErrorFetchingBalance (message e));
               ConsoleLog (SkippingNoBalance (walletIndex + 1))]).
Proof.
  intros Hb. enter. rewrite Hb. simpl. now rewrite !extend_extend.
Qed.

Lemma consolidateWallet_empty (b : Number) (s : State) :
  getBalance W kp = Normal b -> (b / LAMPORTS_PER_SOL <= 0)%Q ->
  consolidateWallet W walletIndex base s
  = (Normal 0%Q,
     extend s [Call consolidateWallet_fn walletIndex "";
               ConsoleLog (SkippingNoBalance (walletIndex + 1))]).
Proof.
  intros Hb Hle. enter. rewrite Hb.
  apply Qle_bool_iff in Hle. rewrite Hle. simpl. now rewrite !extend_extend.
Qed.

Section Positive.
Variables (b : Number) (blockhash : string) (r : RpcResponseAndContext).
Hypothesis Hb : getBalance W kp = Normal b.
Hypothesis Hpos : ~ (b / LAMPORTS_PER_SOL <= 0)%Q.
Hypothesis Hbh : getLatestBlockhash W = Normal blockhash.
Hypothesis Hfee : getFeeForMessage W kp = Normal r.

(** With a positive balance and a fee answered, whatever the fee: the
    amount is NaN, the transfer is not built, and the error is caught. *)
Lemma consolidateWallet_not_a_number (s : State) :
  consolidateWallet W walletIndex base s
  = (Normal 0%Q,
     extend s (processing walletIndex kp b ++
               [ConsoleError (ErrorConsolidating (walletIndex + 1) (message notAnInteger))])).
Proof.
  enter. rewrite Hb, (Qle_bool_false _ _ Hpos). simpl. rewrite Hbh, Hfee. simpl.
  now rewrite !extend_extend.
Qed.

End Positive.

End ConsolidateWallet.

Lemma transfers_extend (s : State) (evs : list Event) :
  transfers (trace (extend s evs)) = (transfers (trace s) ++ transfers evs)%list.
Proof. unfold transfers, extend; simpl. apply filter_app. Qed.

(** C10: [getWalletBalance] never throws; when the balance query fails it
    logs the error and returns 0, and [consolidateWallet] then does what it
    does for a balance of zero: it logs the skip, submits nothing and
    returns 0. *)
Theorem C10_failed_query_is_zero_balance
    (W : World) (walletIndex : Z) (base : PublicKey) (key : string) (kp : PublicKey)
    (s : State) :
  env W (WALLET_PRIVATE_KEY (walletIndex + 1)) = Some key ->
  key <> "" ->
  fromSecretKey W key = Normal kp ->
  (forall pk s0, exists v s1, Consolidate.getWalletBalance W pk s0 = (Normal v, s1)) /\
  (forall e, getBalance W kp = Throw e ->
     Consolidate.getWalletBalance W kp s
     = (Normal 0%Q, extend s [ConsoleError (ErrorFetchingBalance (message e))]) /\
     Consolidate.consolidateWallet W walletIndex base s
     = (Normal 0%Q,
        extend s [Call consolidateWallet_fn walletIndex "";
                  ConsoleError (ErrorFetchingBalance (message e));
                  ConsoleLog (SkippingNoBalance (walletIndex + 1))])) /\
  (getBalance W kp = Normal 0%Q ->
     Consolidate.consolidateWallet W walletIndex base s
     = (Normal 0%Q,
        extend s [Call consolidateWallet_fn walletIndex "";
                  ConsoleLog (SkippingNoBalance (walletIndex + 1))])).
Proof.
  intros Hkey Hne Hkp. split; [| split].
  - intros pk s0. apply getWalletBalance_normal.
  - intros e He. split.
    + now apply getWalletBalance_failed.
    + now apply consolidateWallet_query_failed with (key := key) (kp := kp).
  - intros Hz. apply consolidateWallet_empty with (key := key) (kp := kp) (b := 0%Q); try assumption.
    discriminate.
Qed.

Lemma C10_failed_query_is_zero_balance_witness :
  Consolidate.consolidateWallet offlineWorld 0 "base" start
  = (Normal 0%Q,
     extend start [Call consolidateWallet_fn 0 "";
                   ConsoleError (ErrorFetchingBalance "fetch failed");
                   ConsoleLog (SkippingNoBalance 1)]).
Proof.
  destruct (C10_failed_query_is_zero_balance offlineWorld 0 "base" "key1" "pub:key1" start)
    as [_ [H _]]; [reflexivity | discriminate | reflexivity |].
  exact (proj2 (H (mkError Error "fetch failed") eq_refl)).
Defined.

(** Whatever the world, one call of [consolidateWallet] returns 0,
    builds no transfer instruction, submits nothing and does not print
    the line of a successful transfer. *)
Lemma consolidateWallet_moves_nothing (W : World) (i : Z) (base : PublicKey) (s : State) :
  exists evs,
    Consolidate.consolidateWallet W i base s = (Normal 0%Q, extend s evs) /\
    transfers evs = [] /\
    ~ In (ConsoleLog TransferSuccessful) evs.
Proof.
  unfold Consolidate.consolidateWallet, Consolidate.getWalletBalance, SystemProgram_transfer,
    minus_object; js_unfold. cbn.
  repeat case_step; rewrite ?extend_extend; eexists; (split; [reflexivity |]);
    (split; [reflexivity |]); cbn; intuition discriminate.
Qed.

(** C2: in [consolidateWallet], whenever the queried balance is at most
    the estimated fee, no transfer instruction is built, nothing is
    submitted and the wallet contributes 0; so a balance equal to the fee
    sends nothing.  No call builds a transfer instruction at all, and so
    none of a negative amount. *)
Theorem C2_no_transfer_within_the_fee
    (W : World) (walletIndex : Z) (base : PublicKey) (s : State) :
  (forall key kp b r fee,
     env W (WALLET_PRIVATE_KEY (walletIndex + 1)) = Some key ->
     fromSecretKey W key = Normal kp ->
     getBalance W kp = Normal b ->
     getFeeForMessage W kp = Normal r ->
     value r = Some fee ->
     (b <= fee)%Q ->
     exists evs,
       Consolidate.consolidateWallet W walletIndex base s = (Normal 0%Q, extend s evs) /\
       transfers evs = []) /\
  (forall from to lamports,
     In (TransferInstruction from to lamports)
       (trace (snd (Consolidate.consolidateWallet W walletIndex base s))) ->
     In (TransferInstruction from to lamports) (trace s)).
Proof.
  destruct (consolidateWallet_moves_nothing W walletIndex base s) as [evs [E [T _]]].
  split.
  - intros key kp b r fee _ _ _ _ _ _. exists evs. now split.
  - intros from to lamports. rewrite E. cbn [snd trace extend]. rewrite in_app_iff.
    intros [H | H]; [assumption |].
    assert (Hin : In (TransferInstruction from to lamports) (transfers evs)).
    { unfold transfers. apply list_elem_of_In, list_elem_of_filter.
      split; [reflexivity | now apply list_elem_of_In]. }
    rewrite T in Hin. destruct Hin.
Qed.

Lemma C2_no_transfer_within_the_fee_witness :
  exists evs,
    Consolidate.consolidateWallet feeWorld 0 "base" start = (Normal 0%Q, extend start evs) /\
    transfers evs = [].
Proof.
  apply (proj1 (C2_no_transfer_within_the_fee feeWorld 0 "base" start)
           "key1" "pub:key1" 5000%Q (mkRpcResponse 0 (Some 5000%Q)) 5000%Q);
    try reflexivity.
  apply Qle_refl.
Defined.

(** C9: with a valid [BASE_WALLET_ADDRESS], a confirmed prompt and at
    least one wallet, the loop of [main] stops at its first iteration: the
    constant [baseWalletPublicKey] was declared in the block of the inner
    [try], so its name resolves nowhere when the loop evaluates it; the
    ReferenceError reaches the handler of [main], [consolidateWallet] is
    never entered and no transfer is constructed or submitted. *)
Theorem C9_consolidate_loop_aborts (W : World) (address : string) (pk : PublicKey) :
  env W BASE_WALLET_ADDRESS = Some address ->
  address <> "" ->
  newPublicKey W address = Normal pk ->
  confirm W = Normal true ->
  wallets (walletConfig W) <> [] ->
  Consolidate.run W
  = (Normal tt,
     extend (initial_state Consolidate.module_scope initial_files)
       [Prompt;
        ConsoleLog StartingConsolidation;
        ConsoleError
          (AnErrorOccurred (mkError ReferenceError "baseWalletPublicKey is not defined"))]) /\
  (forall i w, ~ In (Call consolidateWallet_fn i w) (trace (snd (Consolidate.run W)))) /\
  transfers (trace (snd (Consolidate.run W))) = [].
Proof.
  intros Haddr Hne Hpk Hconfirm Hws.
  assert (E : Consolidate.run W
              = (Normal tt,
                 extend (initial_state Consolidate.module_scope initial_files)
                   [Prompt;
                    ConsoleLog StartingConsolidation;
                    ConsoleError
                      (AnErrorOccurred
                         (mkError ReferenceError "baseWalletPublicKey is not defined"))])).
  { unfold Consolidate.run, Consolidate.main.
    rewrite Haddr. apply String.eqb_neq in Hne. rewrite Hne.
    destruct (wallets (walletConfig W)) as [| w ws] eqn:Ew; [contradiction |].
    unfold block, declare_const; js_unfold. cbn.
    rewrite Hpk. cbn. rewrite Hconfirm. cbn. reflexivity. }
  rewrite E. split; [reflexivity |]. split.
  - intros i w. cbn. intros [H | [H | [H | []]]]; discriminate.
  - reflexivity.
Qed.

Lemma C9_consolidate_loop_aborts_witness :
  transfers (trace (snd (Consolidate.run feeWorld))) = [].
Proof.
  apply (C9_consolidate_loop_aborts feeWorld "base" "base").
  - reflexivity.
  - discriminate.
  - reflexivity.
  - reflexivity.
  - discriminate.
Defined.

(** ** The batches *)

Lemma calls_app (a b : list Event) : calls (a ++ b) = (calls a ++ calls b)%list.
Proof. apply omap_app. Qed.

Lemma totals_app (a b : list Event) : totals (a ++ b) = (totals a ++ totals b)%list.
Proof. apply omap_app. Qed.

Lemma steps_bind {A B} (m : Js A) (k : A -> Js B) (c1 c2 : list (Fn * Z * string)) :
  steps m c1 -> (forall a, steps (k a) c2) -> steps (bind m k) (c1 ++ c2).
Proof.
  intros Hm Hk s. destruct (Hm s) as [a [s1 [e1 [E1 [R1 [C1 T1]]]]]].
  destruct (Hk a s1) as [b [s2 [e2 [E2 [R2 [C2 T2]]]]]].
  exists b, s2, (e1 ++ e2)%list. unfold bind. rewrite E1, E2.
  split; [reflexivity |]. split; [now rewrite R2, R1, <- app_assoc |].
  rewrite calls_app, totals_app, C1, C2, T1, T2. now split.
Qed.

Lemma steps_ret {A} (a : A) : steps (ret a) [].
Proof.
  intros s. exists a, s, []. unfold ret. rewrite app_nil_r. now repeat split.
Qed.

Ltac finish_step :=
  rewrite ?extend_extend; eexists _, _, _; split; [reflexivity |];
  split; [reflexivity | split; reflexivity].

Lemma executeBuyWithWallet_steps (W : World) (i : Z) (t : string) (w : Wallet) (bp : BaseParams) :
  steps (BuyBot.executeBuyWithWallet W i t w bp) [(executeBuyWithWallet_fn, i, name w)].
Proof.
  intros s. unfold BuyBot.executeBuyWithWallet; js_unfold. cbn.
  repeat case_step; finish_step.
Qed.

Lemma executeSellWithWallet_steps (W : World) (i : Z) (t : string) (w : Wallet) (bp : BaseParams) :
  steps (SellBot.executeSellWithWallet W i t w bp) [(executeSellWithWallet_fn, i, name w)].
Proof.
  intros s. unfold SellBot.executeSellWithWallet; js_unfold. cbn.
  repeat case_step; finish_step.
Qed.

Lemma delay_steps (W : World) (i : Z) :
  steps (if (0 <? i)%Z
         then bind (BuyBot.getRandomDelay W (min (delayRange (walletConfig W)))
                      (max (delayRange (walletConfig W))))
                (fun delay => bind (console_log (Waiting delay)) (fun _ => BuyBot.sleep delay))
         else ret tt) [].
Proof.
  intros s. destruct (0 <? i)%Z.
  - unfold BuyBot.getRandomDelay, BuyBot.sleep, Math_random; js_unfold. cbn.
    eexists _, _, _. split; [reflexivity |]. cbn.
    split; [rewrite <- app_assoc; reflexivity | split; reflexivity].
  - apply steps_ret.
Qed.

Lemma buyLoop_steps (W : World) (t : string) (bp : BaseParams) (ws : list Wallet) :
  forall i, steps (BuyBot.buyLoop W t bp ws i) (indexed executeBuyWithWallet_fn ws i).
Proof.
  induction ws as [| w ws IH]; intros i; cbn [BuyBot.buyLoop indexed].
  - apply steps_ret.
  - apply (steps_bind _ _ [] _ (delay_steps W i)). intros _.
    apply (steps_bind _ _ [_] _ (executeBuyWithWallet_steps W i t w bp)). intros _.
    apply IH.
Qed.

Section Sorting.
Context {A : Type}.
Variable compare : A -> A -> Js Number.
Hypothesis compare_silent : forall x y, silent (compare x y) (fun _ => True).

Lemma insert_permutation (x : A) (l : list A) :
  silent (SellBot.insert compare x l) (fun r => Permutation (x :: l) r).
Proof.
  induction l as [| y l IH]; intros s; cbn [SellBot.insert].
  - exists [x], s. now repeat split.
  - unfold bind at 1. destruct (compare_silent x y s) as [c [s1 [E1 [T1 _]]]].
    rewrite E1. destruct (Qle_bool c 0).
    + exists (x :: y :: l), s1. now repeat split.
    + unfold bind. destruct (IH s1) as [r [s2 [E2 [T2 P2]]]]. rewrite E2.
      exists (y :: r), s2. split; [reflexivity |]. split; [congruence |].
      rewrite perm_swap. now constructor.
Qed.

Lemma sort_permutation (l : list A) :
  silent (SellBot.sort compare l) (fun r => Permutation l r).
Proof.
  induction l as [| x l IH]; intros s; cbn [SellBot.sort].
  - exists [], s. now repeat split.
  - unfold bind. destruct (IH s) as [r [s1 [E1 [T1 P1]]]]. rewrite E1.
    destruct (insert_permutation x r s1) as [r' [s2 [E2 [T2 P2]]]].
    exists r', s2. split; [assumption |]. split; [congruence |].
    transitivity (x :: r); [now constructor | assumption].
Qed.

End Sorting.

Lemma shuffledWallets_permutation (W : World) :
  silent (SellBot.shuffledWallets W) (fun l => Permutation (wallets (walletConfig W)) l).
Proof.
  apply sort_permutation. intros _ _ s.
  unfold Math_random; js_unfold. eexists _, _. now repeat split.
Qed.

Lemma sellLoop_steps (W : World) (t : string) (bp : BaseParams) (ws : list Wallet) :
  forall i, steps (SellBot.sellLoop W t bp ws i) (sellCalls W ws).
Proof.
  induction ws as [| w ws IH]; intros i; cbn [SellBot.sellLoop sellCalls map].
  - apply steps_ret.
  - apply (steps_bind _ _ [] _ (delay_steps W i)). intros _.
    apply (steps_bind _ _ [_] _ (executeSellWithWallet_steps W _ t w bp)). intros _.
    apply IH.
Qed.

Lemma executeMultiWalletBuy_steps (W : World) (t : string) (bp : BaseParams) :
  steps (BuyBot.executeMultiWalletBuy W t bp)
    (indexed executeBuyWithWallet_fn (wallets (walletConfig W)) 0).
Proof.
  unfold BuyBot.executeMultiWalletBuy.
  apply (steps_bind _ _ [] _); [| intros _; apply buyLoop_steps].
  intros s. unfold console_log, emit. eexists _, _, _. now repeat split.
Qed.

Lemma executeMultiWalletSell_steps (W : World) (t : string) (bp : BaseParams) (s : State) :
  exists l s' evs,
    Permutation (wallets (walletConfig W)) l /\
    SellBot.executeMultiWalletSell W t bp s = (Normal tt, s') /\
    trace s' = (trace s ++ evs)%list /\
    calls evs = sellCalls W l /\ totals evs = [].
Proof.
  unfold SellBot.executeMultiWalletSell, console_log, emit, bind.
  destruct (shuffledWallets_permutation W (extend s [ConsoleLog StartingSellSequence]))
    as [l [s1 [E1 [T1 P1]]]].
  rewrite E1.
  destruct (sellLoop_steps W t bp l 0 s1) as [[] [s2 [evs [E2 [T2 [C2 O2]]]]]].
  exists l, s2, (ConsoleLog StartingSellSequence :: evs).
  split; [assumption |]. split; [assumption |].
  split; [| now split].
  rewrite T2, T1. cbn. now rewrite <- app_assoc.
Qed.

(** C4: the order in which a sell batch takes the wallets is a permutation
    of the configured list, whatever the random draws; a buy batch takes
    them in the configured order, wallet i with index i. *)
Theorem C4_sell_shuffles_buy_keeps_order
    (W : World) (tokenAddress : string) (baseParams : BaseParams) (s : State) :
  (exists l s', SellBot.shuffledWallets W s = (Normal l, s') /\
                Permutation (wallets (walletConfig W)) l) /\
  (exists l s' evs,
     Permutation (wallets (walletConfig W)) l /\
     SellBot.executeMultiWalletSell W tokenAddress baseParams s = (Normal tt, s') /\
     trace s' = (trace s ++ evs)%list /\
     calls evs = sellCalls W l) /\
  (exists s' evs,
     BuyBot.executeMultiWalletBuy W tokenAddress baseParams s = (Normal tt, s') /\
     trace s' = (trace s ++ evs)%list /\
     calls evs = indexed executeBuyWithWallet_fn (wallets (walletConfig W)) 0).
Proof.
  split; [| split].
  - destruct (shuffledWallets_permutation W s) as [l [s' [E [_ P]]]]. now exists l, s'.
  - destruct (executeMultiWalletSell_steps W tokenAddress baseParams s)
      as [l [s' [evs [P [E [T [C _]]]]]]].
    now exists l, s', evs.
  - destruct (executeMultiWalletBuy_steps W tokenAddress baseParams s)
      as [[] [s' [evs [E [T [C _]]]]]].
    now exists s', evs.
Qed.

(** ** fundWallets.js: the funding loop *)

Lemma fundStep_spec (W : World) (source : PublicKey) (sol : Number) (w : Wallet)
    (total : Number) (s : State) :
  exists s' evs,
    FundWallets.fundStep W source sol w total s
    = (Normal (if funded W source (publicKey w) sol then (total + sol)%Q else total), s') /\
    trace s' = (trace s ++ evs)%list /\
    calls evs = [(fundWallet_fn, 0, publicKey w)] /\ totals evs = [].
Proof.
  unfold funded, FundWallets.fundStep, FundWallets.fundWallet; js_unfold. cbn.
  repeat case_step;
    (rewrite ?extend_extend; eexists _, _; split; [reflexivity |];
     split; [reflexivity | split; reflexivity]).
Qed.

Lemma fundLoop_spec (W : World) (source : PublicKey) (sol : Number) (ws : list Wallet) :
  forall total s, exists s' evs,
    FundWallets.fundLoop W source sol ws total s
    = (Normal (fundedTotal W source sol ws total), s') /\
    trace s' = (trace s ++ evs)%list /\
    calls evs = map (fun w => (fundWallet_fn, 0, publicKey w)) ws /\ totals evs = [].
Proof.
  induction ws as [| w ws IH]; intros total s;
    cbn [FundWallets.fundLoop fundedTotal fold_left map].
  - exists s, []. unfold ret. rewrite app_nil_r. now repeat split.
  - unfold bind. destruct (fundStep_spec W source sol w total s) as [s1 [e1 [E1 [T1 [C1 O1]]]]].
    rewrite E1.
    destruct (IH (if funded W source (publicKey w) sol then (total + sol)%Q else total) s1)
      as [s2 [e2 [E2 [T2 [C2 O2]]]]].
    exists s2, (e1 ++ e2)%list. split; [exact E2 |].
    split; [now rewrite T2, T1, <- app_assoc |].
    rewrite calls_app, totals_app, C1, C2, O1, O2. now split.
Qed.

(** [consolidateWallet] always returns; what it returns is 0 unless the
    transfer was submitted and accepted. *)
Lemma consolidateWallet_contribution (W : World) (i : Z) (base : PublicKey) (s : State) :
  exists v s',
    Consolidate.consolidateWallet W i base s = (Normal v, s') /\
    (v = 0%Q \/
     exists kp lamports sg,
       sendTransfer W kp base lamports = Normal sg /\
       v = (lamports / LAMPORTS_PER_SOL)%Q /\
       In (SendTransfer kp base lamports) (trace s')).
Proof.
  unfold Consolidate.consolidateWallet, Consolidate.getWalletBalance; js_unfold. cbn.
  repeat case_step;
    (eexists _, _; split; [reflexivity |]);
    try (left; reflexivity).
  all: right; eexists _, _, _; split; [eassumption |]; split; [reflexivity |].
  all: cbn; rewrite !in_app_iff; cbn; tauto.
Qed.

Lemma generateLoop_spec (W : World) (n : nat) :
  forall i ws pks s, exists res s',
    FundWallets.generateLoop W n i ws pks s = (Normal res, s') /\
    trace s' = trace s /\ files s' = files s.
Proof.
  induction n as [| n IH]; intros i ws pks s; cbn [FundWallets.generateLoop].
  - exists (ws, pks), s. now repeat split.
  - unfold bind, Keypair_generate.
    match goal with
    | |- context [FundWallets.generateLoop W n ?i' ?ws' ?pks' ?s0] =>
        destruct (IH i' ws' pks' s0) as [res [s' [E [T F]]]]
    end.
    exists res, s'. now repeat split.
Qed.

Lemma generateAndSaveWallets_spec (W : World) (n : nat) (s : State) (content : string) :
  dotenv (files s) = Some content ->
  exists ws pks s' evs,
    FundWallets.generateAndSaveWallets W n s = (Normal (ws, pks), s') /\
    trace s' = (trace s ++ evs)%list /\ calls evs = [] /\ totals evs = [].
Proof.
  intros Hd. unfold FundWallets.generateAndSaveWallets, bind at 1.
  destruct (generateLoop_spec W n 0 [] [] s) as [[ws pks] [s1 [E1 [T1 F1]]]].
  rewrite E1.
  unfold FundWallets.loadBackup, FundWallets.storeBackup, get_files, put_files, Date_now;
    js_unfold. cbn. rewrite F1, Hd, T1.
  destruct (private_keys_backup (files s)); cbn;
    eexists _, _, _, _; (split; [reflexivity |]); cbn.
  all: split; [first [reflexivity | symmetry; apply app_nil_r] | split; reflexivity].
Qed.

Lemma fund_main_reports (W : World) (s : State) (fundingKey : string) (source : PublicKey)
    (n : nat) (sol : Number) (content : string) :
  env W FUNDING_WALLET_PRIVATE_KEY = Some fundingKey ->
  fundingKey <> "" ->
  fundAnswers W = Normal (n, sol) ->
  dotenv (files s) = Some content ->
  fromSecretKey W fundingKey = Normal source ->
  exists ws s' evs,
    FundWallets.main W s = (Normal tt, s') /\
    trace s' = (trace s ++ evs)%list /\
    calls evs = map (fun w => (fundWallet_fn, 0, publicKey w)) ws /\
    totals evs = [fundedTotal W source sol ws 0%Q].
Proof.
  intros Hkey Hne Hans Hd Hsrc.
  unfold FundWallets.main. rewrite Hkey. apply String.eqb_neq in Hne. rewrite Hne.
  js_unfold. rewrite Hans. cbn.
  match goal with
  | |- context [FundWallets.generateAndSaveWallets W n ?s0] =>
      destruct (generateAndSaveWallets_spec W n s0 content Hd)
        as [ws [pks [s1 [e1 [E1 [T1 [C1 O1]]]]]]]
  end.
  rewrite E1. cbn. rewrite Hsrc.
  match goal with
  | |- context [FundWallets.fundLoop W source sol ws ?t ?s0] =>
      destruct (fundLoop_spec W source sol ws t s0) as [s2 [e2 [E2 [T2 [C2 O2]]]]]
  end.
  rewrite E2. exists ws. eexists _, _. split; [reflexivity |].
  cbn in *. rewrite T2, T1. split.
  - rewrite <- !app_assoc. cbn. reflexivity.
  - unfold calls, totals in *. cbn. rewrite !omap_app. cbn. rewrite !omap_app.
    rewrite C1, C2, O1, O2. cbn. rewrite app_nil_r. now split.
Qed.

(** C1, the claim refuted: a buy batch over one wallet whose purchase
    succeeds reports no aggregate total at all; and the consolidate run of
    the same world enters no wallet operation and reports no total. *)
Lemma C1_buy_batch_reports_no_total :
  fst (BuyBot.executeBuyWithWallet buyWorld 0 "mint" (mkWallet "Wallet 1" "addr1" 0.5%Q)
         buyParams start) = Normal (Some "sent:signed:tx") /\
  ~ reports (trace (snd (BuyBot.executeMultiWalletBuy buyWorld "mint" buyParams start))) 0.5%Q /\
  calls (trace (snd (Consolidate.run buyWorld))) = [] /\
  totals (trace (snd (Consolidate.run buyWorld))) = [].
Proof.
  split; [reflexivity |]. split; [| split; reflexivity].
  intros [t [H _]]. vm_compute in H. discriminate.
Qed.

(** C1, amended: in the buy, sell and fund batches a failure of one
    wallet's operation is caught and the loop goes on to every wallet of
    its list (the sell batch in shuffled order); the buy and sell batches
    keep no aggregate total; the total of the fund batch is the sum of the
    amounts of exactly the transfers that went through, a failed transfer
    adding nothing, and it is the total the fund run prints; the
    consolidate operation of one wallet always returns, and returns 0
    unless its transfer was submitted and accepted. *)
Theorem C1_batches_isolate_failures
    (W : World) (tokenAddress : string) (baseParams : BaseParams) (s : State)
    (source : PublicKey) (solPerWallet : Number) (ws : list Wallet) (total : Number) :
  (exists s' evs,
     BuyBot.executeMultiWalletBuy W tokenAddress baseParams s = (Normal tt, s') /\
     trace s' = (trace s ++ evs)%list /\
     calls evs = indexed executeBuyWithWallet_fn (wallets (walletConfig W)) 0 /\
     totals evs = []) /\
  (exists l s' evs,
     Permutation (wallets (walletConfig W)) l /\
     SellBot.executeMultiWalletSell W tokenAddress baseParams s = (Normal tt, s') /\
     trace s' = (trace s ++ evs)%list /\
     calls evs = sellCalls W l /\
     totals evs = []) /\
  (exists s' evs,
     FundWallets.fundLoop W source solPerWallet ws total s
     = (Normal (fundedTotal W source solPerWallet ws total), s') /\
     trace s' = (trace s ++ evs)%list /\
     calls evs = map (fun w => (fundWallet_fn, 0, publicKey w)) ws /\
     totals evs = []) /\
  (forall fundingKey n content,
     env W FUNDING_WALLET_PRIVATE_KEY = Some fundingKey ->
     fundingKey <> "" ->
     fundAnswers W = Normal (n, solPerWallet) ->
     dotenv (files s) = Some content ->
     fromSecretKey W fundingKey = Normal source ->
     exists generated s' evs,
       FundWallets.main W s = (Normal tt, s') /\
       trace s' = (trace s ++ evs)%list /\
       calls evs = map (fun w => (fundWallet_fn, 0, publicKey w)) generated /\
       totals evs = [fundedTotal W source solPerWallet generated 0%Q]) /\
  (forall i base,
     exists v s',
       Consolidate.consolidateWallet W i base s = (Normal v, s') /\
       (v = 0%Q \/
        exists kp lamports sg,
          sendTransfer W kp base lamports = Normal sg /\
          v = (lamports / LAMPORTS_PER_SOL)%Q /\
          In (SendTransfer kp base lamports) (trace s'))).
Proof.
  split; [| split; [| split; [| split]]].
  - destruct (executeMultiWalletBuy_steps W tokenAddress baseParams s)
      as [[] [s' [evs H]]].
    now exists s', evs.
  - apply executeMultiWalletSell_steps.
  - apply fundLoop_spec.
  - intros fundingKey n content. apply fund_main_reports.
  - intros i base. apply consolidateWallet_contribution.
Qed.

Lemma C1_batches_isolate_failures_witness :
  exists generated s' evs,
    FundWallets.main fundWorld startWithEnv = (Normal tt, s') /\
    trace s' = (trace startWithEnv ++ evs)%list /\
    calls evs = map (fun w => (fundWallet_fn, 0, publicKey w)) generated /\
    totals evs = [fundedTotal fundWorld "pub:funding" 1%Q generated 0%Q].
Proof.
  destruct (C1_batches_isolate_failures fundWorld "mint" buyParams startWithEnv
              "pub:funding" 1%Q [] 0%Q) as [_ [_ [_ [H _]]]].
  apply (H "funding" 3%nat "").
  - reflexivity.
  - discriminate.
  - reflexivity.
  - reflexivity.
  - reflexivity.
Defined.

Example fund_run_skips_refused_transfer :
  totals (trace (snd (FundWallets.main fundWorld startWithEnv))) = [(0 + 1 + 1)%Q].
Proof. vm_compute. reflexivity. Qed.

(** ** Failures of one wallet's trade *)

Lemma buy_refused_quote_is_silent (W : World) (i : Z) (t : string) (w : Wallet)
    (bp : BaseParams) (key : string) (pk : PublicKey) (r : Response string) (s : State) :
  env W (WALLET_PRIVATE_KEY (i + 1)) = Some key ->
  key <> "" ->
  fromSecretKey W key = Normal pk ->
  tradeLocal W (mkTradeRequest pk Buy None t true (amount w) (slippage bp) (priorityFee bp))
  = Normal r ->
  status r <> 200%Z ->
  BuyBot.executeBuyWithWallet W i t w bp s
  = (Normal None,
     extend s [Call executeBuyWithWallet_fn i (name w);
               ConsoleLog (ExecutingBuy (name w) (amount w));
               Trade [mkTradeRequest pk Buy None t true (amount w) (slippage bp) (priorityFee bp)]]).
Proof.
  intros Hkey Hne Hpk Hr Hst.
  unfold BuyBot.executeBuyWithWallet; js_unfold.
  rewrite Hkey. apply String.eqb_neq in Hne. rewrite Hne. cbn.
  rewrite Hpk. cbn. rewrite Hr. apply Z.eqb_neq in Hst. rewrite Hst.
  now rewrite !extend_extend.
Qed.

Lemma buy_missing_key_is_logged (W : World) (i : Z) (t : string) (w : Wallet)
    (bp : BaseParams) (s : State) :
  env W (WALLET_PRIVATE_KEY (i + 1)) = None ->
  BuyBot.executeBuyWithWallet W i t w bp s
  = (Normal None,
     extend s [Call executeBuyWithWallet_fn i (name w);
               ConsoleLog (SkippingNoPrivateKey (i + 1))]).
Proof.
  intros Hkey. unfold BuyBot.executeBuyWithWallet; js_unfold.
  rewrite Hkey. cbn. now rewrite !extend_extend.
Qed.

Lemma buy_failed_submission_is_logged (W : World) (i : Z) (t : string) (w : Wallet)
    (bp : BaseParams) (key : string) (pk : PublicKey) (r : Response string) (tx : string)
    (e : JsError) (s : State) :
  env W (WALLET_PRIVATE_KEY (i + 1)) = Some key ->
  key <> "" ->
  fromSecretKey W key = Normal pk ->
  tradeLocal W (mkTradeRequest pk Buy None t true (amount w) (slippage bp) (priorityFee bp))
  = Normal r ->
  status r = 200%Z ->
  deserialize W (body r) = Normal tx ->
  sendTransaction W (fst (signed W tx [pk])) = Throw e ->
  exists evs,
    BuyBot.executeBuyWithWallet W i t w bp s
    = (Normal None, extend s (evs ++ [ConsoleError (ErrorWith (name w) (message e))])).
Proof.
  intros Hkey Hne Hpk Hr Hst Htx Hsend.
  unfold BuyBot.executeBuyWithWallet; js_unfold.
  rewrite Hkey. apply String.eqb_neq in Hne. rewrite Hne. cbn.
  rewrite Hpk. cbn. rewrite Hr, Hst. cbn. rewrite Htx. cbn. rewrite Hsend.
  rewrite !extend_extend. eexists.
  match goal with
  | |- (_, extend s ?l) = _ =>
      change l with (removelast l ++ [ConsoleError (ErrorWith (name w) (message e))])%list
  end.
  reflexivity.
Qed.

(** C3, the code at the failing input: the trade API answers 500 to the one
    wallet of a buy and of a sell; the operation returns no signature, and
    the console shows the start of the operation and nothing about its
    failure. *)
Theorem C3_refused_quote_is_not_surfaced :
  BuyBot.executeBuyWithWallet quoteDownWorld 0 "mint" firstWallet buyParams start
  = (Normal None,
     extend start
       [Call executeBuyWithWallet_fn 0 "Wallet 1";
        ConsoleLog (ExecutingBuy "Wallet 1" 0.5%Q);
        Trade [mkTradeRequest "pub:key1" Buy None "mint" true 0.5%Q 10%Q 0.00001%Q]]) /\
  SellBot.executeSellWithWallet quoteDownWorld 0 "mint" firstWallet buyParams start
  = (Normal None,
     extend start
       [Call executeSellWithWallet_fn 0 "Wallet 1";
        ConsoleLog (ExecutingSell "Wallet 1");
        ConsoleLog (CurrentBalance 1000%Q);
        Trade [mkTradeRequest "pub:key1" Sell None "mint" false 1000%Q 10%Q 0.00001%Q]]) /\
  existsb failure_line
    (trace (snd (BuyBot.executeMultiWalletBuy quoteDownWorld "mint" buyParams start))) = false /\
  existsb failure_line
    (trace (snd (SellBot.executeMultiWalletSell quoteDownWorld "mint" buyParams start))) = false.
Proof.
  split; [| split; [| split]]; vm_compute; reflexivity.
Qed.

(** ** createToken.js *)

Ltac no_signing :=
  unfold signings; cbn; rewrite ?filter_app; cbn; rewrite ?app_nil_r; reflexivity.

(** [createTokenBundle] never gets past the first [formData.append]: it
    throws, having uploaded, requested, signed and submitted nothing; the
    last line it printed is the error, and the line of a created token was
    not printed. *)
Lemma createTokenBundle_throws (W : World) (tokenData : TokenData) (s : State) :
  exists e s' evs,
    CreateToken.createTokenBundle W tokenData s = (Throw e, s') /\
    trace s' = (trace s ++ evs)%list /\
    signings evs = [] /\
    trades evs = [] /\
    filter is_upload evs = [] /\
    last evs = Some (ConsoleError (ErrorCreatingToken e)) /\
    ~ In (ConsoleLog TokenCreated) evs.
Proof.
  unfold CreateToken.createTokenBundle, CreateToken.keypairOfEnv, CreateToken.FormData_append,
    Keypair_generate; js_unfold. cbn.
  repeat case_step; eexists _, _, _; (split; [reflexivity |]); cbn;
    (split; [rewrite <- ?app_assoc; reflexivity |]);
    repeat split; try reflexivity; cbn; intuition discriminate.
Qed.

(** C5: a creation in which the upload of the metadata or the quote
    request fails aborts before anything is signed, and so does every
    creation: [createTokenBundle] throws, and what it did holds no
    signature and no submission. *)
Theorem C5_creation_aborts_before_signing (W : World) (tokenData : TokenData) (s : State) :
  exists e s' evs,
    CreateToken.createTokenBundle W tokenData s = (Throw e, s') /\
    trace s' = (trace s ++ evs)%list /\
    signings evs = [].
Proof.
  destruct (createTokenBundle_throws W tokenData s) as [e [s' [evs [E [T [S _]]]]]].
  now exists e, s', evs.
Qed.

Example creation_with_a_refused_upload :
  CreateToken.createTokenBundle uploadDownWorld sampleToken start
  = (Throw (mkError TypeError "source.on is not a function"),
     mkState
       [ConsoleLog PreparingToken;
        ConsoleError (ErrorCreatingToken (mkError TypeError "source.on is not a function"))]
       (scopes start) (files start) (draws start) (ticks start) 1).
Proof. reflexivity. Qed.

(** ** The private-key backup *)

Lemma appendBackupBatch_spec (t : string) (keys : list (EnvVar * string)) (ws : list Wallet)
    (s : State) :
  exists s',
    FundWallets.appendBackupBatch t keys ws s = (Normal tt, s') /\
    private_keys_backup (files s')
    = Parsed (<[t := mkBatch keys (map publicKey ws)]> (stored (private_keys_backup (files s)))).
Proof.
  unfold FundWallets.appendBackupBatch, FundWallets.loadBackup, FundWallets.storeBackup,
    get_files, put_files; js_unfold. cbn.
  destruct (private_keys_backup (files s)); cbn; eexists; split; reflexivity.
Qed.

Lemma generateLoop_ticks (W : World) (n : nat) :
  forall i ws pks s,
    ticks (snd (FundWallets.generateLoop W n i ws pks s)) = ticks s /\
    files (snd (FundWallets.generateLoop W n i ws pks s)) = files s /\
    exists res, fst (FundWallets.generateLoop W n i ws pks s) = Normal res.
Proof.
  induction n as [| n IH]; intros i ws pks s; cbn [FundWallets.generateLoop].
  - unfold ret. cbn. eauto.
  - unfold bind, Keypair_generate.
    match goal with
    | |- context [FundWallets.generateLoop W n ?i' ?ws' ?pks' ?s0] =>
        destruct (IH i' ws' pks' s0) as [T [F R]]
    end.
    now split; [| split].
Qed.

(** The backup that [generateAndSaveWallets] leaves is the one of
    [appendBackupBatch] at the timestamp the clock gives. *)
Lemma generateAndSaveWallets_backup (W : World) (n : nat) (s : State) :
  exists ws keys,
    private_keys_backup (files (snd (FundWallets.generateAndSaveWallets W n s)))
    = private_keys_backup
        (files (snd (FundWallets.appendBackupBatch (clock W (ticks s)) keys ws s))).
Proof.
  unfold FundWallets.generateAndSaveWallets, bind at 1.
  destruct (generateLoop_ticks W n 0 [] [] s) as [T [F [[ws keys] R]]].
  destruct (FundWallets.generateLoop W n 0 [] [] s) as [o s1]. cbn in T, F, R. subst o.
  exists ws, keys.
  unfold FundWallets.appendBackupBatch, FundWallets.loadBackup, FundWallets.storeBackup,
    get_files, put_files, Date_now; js_unfold. cbn. rewrite F, T.
  destruct (private_keys_backup (files s)); cbn; destruct (dotenv (files s)); reflexivity.
Qed.

(** C6, the claim refuted: two writes under one timestamp leave the batch
    of the second only. *)
Lemma C6_same_timestamp_overwrites :
  ~ first_batch_kept
      "2024-01-01T00:00:00.000Z" [(WALLET_PRIVATE_KEY 1, "first")] [firstWallet]
      "2024-01-01T00:00:00.000Z" [(WALLET_PRIVATE_KEY 1, "second")] [firstWallet] start.
Proof.
  intros [m [Hm [H1 _]]].
  destruct (appendBackupBatch_spec "2024-01-01T00:00:00.000Z"
              [(WALLET_PRIVATE_KEY 1, "first")] [firstWallet] start) as [s1 [E1 B1]].
  destruct (appendBackupBatch_spec "2024-01-01T00:00:00.000Z"
              [(WALLET_PRIVATE_KEY 1, "second")] [firstWallet] s1) as [s2 [E2 B2]].
  unfold twoBackups, bind in Hm. rewrite E1, E2 in Hm. cbn [snd] in Hm.
  rewrite B2 in Hm. injection Hm as <-.
  rewrite lookup_insert_eq in H1. discriminate.
Qed.

(** C6, amended: a write of the backup keeps every batch of a readable
    store whose timestamp is not the one written; so after two writes under
    different timestamps both batches are there, with everything the store
    held under other timestamps.  A store that is missing or cannot be
    parsed counts as empty. *)
Theorem C6_backup_keeps_other_timestamps
    (t1 : string) (keys1 : list (EnvVar * string)) (ws1 : list Wallet)
    (t2 : string) (keys2 : list (EnvVar * string)) (ws2 : list Wallet) (s : State) :
  t1 <> t2 ->
  exists s' m,
    twoBackups t1 keys1 ws1 t2 keys2 ws2 s = (Normal tt, s') /\
    private_keys_backup (files s') = Parsed m /\
    m !! t1 = Some (mkBatch keys1 (map publicKey ws1)) /\
    m !! t2 = Some (mkBatch keys2 (map publicKey ws2)) /\
    (forall t, t <> t1 -> t <> t2 -> m !! t = stored (private_keys_backup (files s)) !! t).
Proof.
  intros Hne.
  destruct (appendBackupBatch_spec t1 keys1 ws1 s) as [s1 [E1 B1]].
  destruct (appendBackupBatch_spec t2 keys2 ws2 s1) as [s2 [E2 B2]].
  exists s2. eexists. unfold twoBackups, bind. rewrite E1, E2.
  split; [reflexivity |]. split; [exact B2 |].
  rewrite B1. cbn [stored]. split; [| split].
  - rewrite lookup_insert_ne by congruence. apply lookup_insert_eq.
  - apply lookup_insert_eq.
  - intros t H1 H2. rewrite !lookup_insert_ne by congruence. reflexivity.
Qed.

Lemma C6_backup_keeps_other_timestamps_witness :
  exists s' m,
    twoBackups "2024-01-01T00:00:00.000Z" [(WALLET_PRIVATE_KEY 1, "first")] [firstWallet]
               "2024-01-02T00:00:00.000Z" [(WALLET_PRIVATE_KEY 1, "second")] [firstWallet]
               start = (Normal tt, s') /\
    private_keys_backup (files s') = Parsed m /\
    m !! "2024-01-01T00:00:00.000Z" = Some (mkBatch [(WALLET_PRIVATE_KEY 1, "first")] ["addr1"]) /\
    m !! "2024-01-02T00:00:00.000Z" = Some (mkBatch [(WALLET_PRIVATE_KEY 1, "second")] ["addr1"]).
Proof.
  destruct (C6_backup_keeps_other_timestamps
              "2024-01-01T00:00:00.000Z" [(WALLET_PRIVATE_KEY 1, "first")] [firstWallet]
              "2024-01-02T00:00:00.000Z" [(WALLET_PRIVATE_KEY 1, "second")] [firstWallet]
              start) as [s' [m [E [B [H1 [H2 _]]]]]].
  - discriminate.
  - now exists s', m.
Defined.

(** ** The amount of a sale *)

Lemma amountToSell_all (bp : BaseParams) (b : Number) :
  (percentToSell bp == 100)%Q -> SellBot.amountToSell bp b = b.
Proof.
  intros H. unfold SellBot.amountToSell. apply Qeq_bool_iff in H. now rewrite H.
Qed.

Lemma amountToSell_share (bp : BaseParams) (b : Number) :
  (SellBot.amountToSell bp b == b * (percentToSell bp / 100))%Q.
Proof.
  unfold SellBot.amountToSell. generalize (percentToSell bp). unfold Number in *. intros p.
  destruct (Qeq_bool p 100) eqn:E.
  - apply Qeq_bool_iff in E. rewrite E. field.
  - field.
Qed.

Lemma amountToSell_positive (bp : BaseParams) (b : Number) :
  (1 <= percentToSell bp)%Q -> (0 < b)%Q -> (0 < SellBot.amountToSell bp b)%Q.
Proof.
  intros Hp Hb. rewrite amountToSell_share.
  apply Qmult_lt_0_compat; [assumption |].
  apply Qlt_shift_div_l; [reflexivity |]. rewrite Qmult_0_l.
  apply Qlt_le_trans with 1%Q; [reflexivity | assumption].
Qed.

Section Sale.
Variable W : World.
Variables (i : Z) (t : string) (w : Wallet) (bp : BaseParams).
Variables (key : string) (pk mint : PublicKey).
Hypothesis Hkey : env W (WALLET_PRIVATE_KEY (i + 1)) = Some key.
Hypothesis Hne : key <> "".
Hypothesis Hpk : fromSecretKey W key = Normal pk.
Hypothesis Hmint : newMint W t = Normal mint.

Ltac enter_sale :=
  unfold SellBot.executeSellWithWallet; js_unfold;
  rewrite Hkey, (proj2 (String.eqb_neq key "") Hne); cbn;
  rewrite Hpk; cbn; rewrite Hmint; cbn.

Lemma sell_no_account (s : State) :
  getParsedTokenAccountsByOwner W pk mint = Normal [] ->
  SellBot.executeSellWithWallet W i t w bp s
  = (Normal None,
     extend s [Call executeSellWithWallet_fn i (name w);
               ConsoleLog (ExecutingSell (name w));
               ConsoleLog (NoTokenBalance (name w))]).
Proof.
  intros Ha. enter_sale. rewrite Ha. cbn. now rewrite !extend_extend.
Qed.

Lemma sell_nothing (b : Number) (others : list Number) (s : State) :
  getParsedTokenAccountsByOwner W pk mint = Normal (b :: others) ->
  (SellBot.amountToSell bp b <= 0)%Q ->
  SellBot.executeSellWithWallet W i t w bp s
  = (Normal None,
     extend s [Call executeSellWithWallet_fn i (name w);
               ConsoleLog (ExecutingSell (name w));
               ConsoleLog (CurrentBalance b);
               ConsoleLog (InsufficientBalance (name w))]).
Proof.
  intros Ha Hle. enter_sale. rewrite Ha. cbn.
  fold (SellBot.amountToSell bp b). apply Qle_bool_iff in Hle. rewrite Hle.
  now rewrite !extend_extend.
Qed.

Lemma sell_requests (b : Number) (others : list Number) (s : State) :
  getParsedTokenAccountsByOwner W pk mint = Normal (b :: others) ->
  ~ (SellBot.amountToSell bp b <= 0)%Q ->
  exists rest,
    trace (snd (SellBot.executeSellWithWallet W i t w bp s))
    = (trace s ++ selling i t w bp pk b ++ rest)%list.
Proof.
  intros Ha Hpos. enter_sale. rewrite Ha. cbn.
  fold (SellBot.amountToSell bp b). rewrite (Qle_bool_false _ _ Hpos). cbn.
  repeat case_step; cbn; rewrite <- ?app_assoc; cbn; eexists; reflexivity.
Qed.

End Sale.

(** C7: in [executeSellWithWallet], for a wallet with its key and a
    percentage between 1 and 100: a wallet without token account, or with a
    balance of zero, is skipped; for a positive balance the amount asked to
    sell is the balance itself when [percentToSell] is 100, and in every
    case it equals balance * (percentToSell / 100). *)
Theorem C7_sell_amount
    (W : World) (i : Z) (t : string) (w : Wallet) (bp : BaseParams)
    (key : string) (pk mint : PublicKey) (accounts : list Number) (s : State) :
  env W (WALLET_PRIVATE_KEY (i + 1)) = Some key ->
  key <> "" ->
  fromSecretKey W key = Normal pk ->
  newMint W t = Normal mint ->
  getParsedTokenAccountsByOwner W pk mint = Normal accounts ->
  (1 <= percentToSell bp)%Q ->
  (percentToSell bp <= 100)%Q ->
  (accounts = [] ->
     SellBot.executeSellWithWallet W i t w bp s
     = (Normal None,
        extend s [Call executeSellWithWallet_fn i (name w);
                  ConsoleLog (ExecutingSell (name w));
                  ConsoleLog (NoTokenBalance (name w))])) /\
  (forall b others, accounts = b :: others ->
     ((b == 0)%Q ->
        SellBot.executeSellWithWallet W i t w bp s
        = (Normal None,
           extend s [Call executeSellWithWallet_fn i (name w);
                     ConsoleLog (ExecutingSell (name w));
                     ConsoleLog (CurrentBalance b);
                     ConsoleLog (InsufficientBalance (name w))])) /\
     ((0 < b)%Q ->
        (exists rest,
           trace (snd (SellBot.executeSellWithWallet W i t w bp s))
           = (trace s ++ selling i t w bp pk b ++ rest)%list) /\
        ((percentToSell bp == 100)%Q -> SellBot.amountToSell bp b = b) /\
        (SellBot.amountToSell bp b == b * (percentToSell bp / 100))%Q)).
Proof.
  intros Hkey Hne Hpk Hmint Hacc Hlo Hhi. split.
  - intros ->. now apply sell_no_account with (key := key) (pk := pk) (mint := mint).
  - intros b others ->. split.
    + intros Hz.
      apply sell_nothing with (key := key) (pk := pk) (mint := mint) (others := others);
        try assumption.
      rewrite amountToSell_share, Hz, Qmult_0_l. apply Qle_refl.
    + intros Hb. split; [| split].
      * apply sell_requests with (key := key) (mint := mint) (others := others);
          try assumption.
        apply Qlt_not_le. now apply amountToSell_positive.
      * apply amountToSell_all.
      * apply amountToSell_share.
Qed.

Lemma C7_sell_amount_witness :
  exists rest,
    trace (snd (SellBot.executeSellWithWallet buyWorld 0 "mint" firstWallet halfParams start))
    = (trace start ++ selling 0 "mint" firstWallet halfParams "pub:key1" 1000%Q ++ rest)%list.
Proof.
  destruct (C7_sell_amount buyWorld 0 "mint" firstWallet halfParams "key1" "pub:key1" "mint"
              [1000%Q] start) as [_ H];
    [reflexivity | discriminate | reflexivity | reflexivity | reflexivity
    | discriminate | discriminate |].
  destruct (H 1000%Q [] eq_refl) as [_ H'].
  exact (proj1 (H' eq_refl)).
Defined.

Example half_of_the_balance :
  (SellBot.amountToSell halfParams 1000 == 500)%Q.
Proof. reflexivity. Qed.

(** ** Sample runs *)

(** The order below is the one the insertion sort of the model gives for
    these draws; an engine may order the same wallets otherwise. *)
Example sell_order_is_shuffled :
  calls (trace (snd (SellBot.executeMultiWalletSell shuffleWorld "mint" buyParams start)))
  = [(executeSellWithWallet_fn, 0, "Wallet 1");
     (executeSellWithWallet_fn, 2, "Wallet 3");
     (executeSellWithWallet_fn, 1, "Wallet 2")].
Proof. vm_compute. reflexivity. Qed.

Example buy_order_is_kept :
  calls (trace (snd (BuyBot.executeMultiWalletBuy shuffleWorld "mint" buyParams start)))
  = [(executeBuyWithWallet_fn, 0, "Wallet 1");
     (executeBuyWithWallet_fn, 1, "Wallet 2");
     (executeBuyWithWallet_fn, 2, "Wallet 3")].
Proof. vm_compute. reflexivity. Qed.

Example unreadable_backup_is_replaced :
  private_keys_backup
    (files (snd (FundWallets.appendBackupBatch "2024-01-01T00:00:00.000Z"
                   [(WALLET_PRIVATE_KEY 1, "first")] [firstWallet] startUnreadable)))
  = Parsed {[ "2024-01-01T00:00:00.000Z" := mkBatch [(WALLET_PRIVATE_KEY 1, "first")] ["addr1"] ]}.
Proof.
  destruct (appendBackupBatch_spec "2024-01-01T00:00:00.000Z"
              [(WALLET_PRIVATE_KEY 1, "first")] [firstWallet] startUnreadable) as [s' [E B]].
  rewrite E. cbn [snd]. rewrite B. cbn. now rewrite insert_empty.
Qed.

Example consolidation_of_one_wallet :
  Consolidate.consolidateWallet buyWorld 0 "base" start
  = (Normal 0%Q,
     extend start
       [Call consolidateWallet_fn 0 "";
        ConsoleLog (ProcessingWallet 1);
        ConsoleLog (Address "pub:key1");
        ConsoleLog (BalanceLine (2000000000 / LAMPORTS_PER_SOL)%Q);
        ConsoleError
          (ErrorConsolidating 1
             "The number NaN cannot be converted to a BigInt because it is not an integer")]).
Proof. reflexivity. Qed.

(** * Further properties of the scripts *)

(** ** consolidate.js: [main] *)

Lemma Qle_bool_false_inv (x y : Q) : Qle_bool x y = false -> ~ (x <= y)%Q.
Proof.
  intros H Hle. apply Qle_bool_iff in Hle. congruence.
Qed.

(** X1: whatever the environment, the node and the answers, [main] of
    consolidate.js returns without throwing, enters [consolidateWallet] for
    no wallet, constructs and submits no transfer, and the only total it
    can print is 0. *)
Theorem X1_consolidate_main_moves_nothing (W : World) :
  fst (Consolidate.run W) = Normal tt /\
  calls (trace (snd (Consolidate.run W))) = [] /\
  transfers (trace (snd (Consolidate.run W))) = [] /\
  (forall t, In t (totals (trace (snd (Consolidate.run W)))) -> t = 0%Q).
Proof.
  unfold Consolidate.run, Consolidate.main, block, declare_const; js_unfold.
  destruct (wallets (walletConfig W)) as [| w ws]; cbn;
    repeat case_step; cbn;
    (split; [reflexivity |]; split; [reflexivity |]; split; [reflexivity |]);
    intros t Ht; cbn in Ht; try contradiction.
  destruct Ht as [<- | []]. reflexivity.
Qed.

(** X2: the paths of [main] of consolidate.js that end before the loop or
    run it over no wallet.  Without [BASE_WALLET_ADDRESS], or with one that
    is no address, it prints the error and does not prompt; a declined
    prompt prints the cancellation; a prompt that fails is reported by the
    handler; a confirmed run over an empty wallet list prints a total of 0. *)
Theorem X2_consolidate_main_edges (W : World) :
  ((env W BASE_WALLET_ADDRESS = None \/ env W BASE_WALLET_ADDRESS = Some "") ->
     Consolidate.run W
     = (Normal tt,
        extend (initial_state Consolidate.module_scope initial_files)
          [ConsoleError BaseWalletMissing])) /\
  (forall address, env W BASE_WALLET_ADDRESS = Some address -> address <> "" ->
     (forall e, newPublicKey W address = Throw e ->
        Consolidate.run W
        = (Normal tt,
           extend (initial_state Consolidate.module_scope initial_files)
             [ConsoleError BaseWalletInvalid])) /\
     (forall pk, newPublicKey W address = Normal pk ->
        (confirm W = Normal false ->
           Consolidate.run W
           = (Normal tt,
              extend (initial_state Consolidate.module_scope initial_files)
                [Prompt; ConsoleLog OperationCancelled])) /\
        (forall e, confirm W = Throw e ->
           Consolidate.run W
           = (Normal tt,
              extend (initial_state Consolidate.module_scope initial_files)
                [Prompt; ConsoleError (AnErrorOccurred e)])) /\
        (confirm W = Normal true -> wallets (walletConfig W) = [] ->
           Consolidate.run W
           = (Normal tt,
              extend (initial_state Consolidate.module_scope initial_files)
                [Prompt; ConsoleLog StartingConsolidation;
                 ConsoleLog ConsolidationCompleted;
                 ConsoleLog (TotalConsolidated 0%Q)])))).
Proof.
  split.
  - intros [H | H]; unfold Consolidate.run, Consolidate.main, block; js_unfold;
      rewrite H; reflexivity.
  - intros address Ha Hne. apply String.eqb_neq in Hne.
    split; [| intros pk Hpk; split; [| split]].
    + intros e He. unfold Consolidate.run, Consolidate.main, block, declare_const; js_unfold.
      rewrite Ha, Hne. cbn. rewrite He. reflexivity.
    + intros Hc. unfold Consolidate.run, Consolidate.main, block, declare_const; js_unfold.
      rewrite Ha, Hne. cbn. rewrite Hpk. cbn. rewrite Hc. reflexivity.
    + intros e Hc. unfold Consolidate.run, Consolidate.main, block, declare_const; js_unfold.
      rewrite Ha, Hne. cbn. rewrite Hpk. cbn. rewrite Hc. reflexivity.
    + intros Hc Hw. unfold Consolidate.run, Consolidate.main, block, declare_const; js_unfold.
      rewrite Ha, Hne, Hw. cbn. rewrite Hpk. cbn. rewrite Hc. reflexivity.
Qed.

Lemma X2_consolidate_main_edges_witness :
  Consolidate.run bareWorld
  = (Normal tt,
     extend (initial_state Consolidate.module_scope initial_files)
       [ConsoleError BaseWalletMissing]) /\
  Consolidate.run emptyWorld
  = (Normal tt,
     extend (initial_state Consolidate.module_scope initial_files)
       [Prompt; ConsoleLog StartingConsolidation;
        ConsoleLog ConsolidationCompleted;
        ConsoleLog (TotalConsolidated 0%Q)]).
Proof.
  split.
  - apply (proj1 (X2_consolidate_main_edges bareWorld)). left. reflexivity.
  - destruct (X2_consolidate_main_edges emptyWorld) as [_ H].
    destruct (H "base" eq_refl ltac:(discriminate)) as [_ H'].
    destruct (H' "base" eq_refl) as [_ [_ H'']].
    apply H''; reflexivity.
Defined.

(** ** consolidate.js: [consolidateWallet] *)

(** X3: one call of [consolidateWallet] moves no funds.  Whatever the
    world, it returns 0, builds no transfer instruction, submits nothing
    and does not print the line of a successful transfer.  For a wallet
    with a positive balance, once the blockhash and the fee are answered,
    the amount [balance * LAMPORTS_PER_SOL - fee] is NaN, the fee being an
    object, and the call ends with the error of [BigInt(NaN)] on the error
    stream, whatever the balance and the fee. *)
Theorem X3_consolidateWallet_moves_nothing
    (W : World) (i : Z) (base : PublicKey) (s : State) :
  (exists evs,
     Consolidate.consolidateWallet W i base s = (Normal 0%Q, extend s evs) /\
     transfers evs = [] /\
     ~ In (ConsoleLog TransferSuccessful) evs) /\
  (forall key kp b blockhash r,
     env W (WALLET_PRIVATE_KEY (i + 1)) = Some key ->
     key <> "" ->
     fromSecretKey W key = Normal kp ->
     getBalance W kp = Normal b ->
     ~ (b / LAMPORTS_PER_SOL <= 0)%Q ->
     getLatestBlockhash W = Normal blockhash ->
     getFeeForMessage W kp = Normal r ->
     Consolidate.consolidateWallet W i base s
     = (Normal 0%Q,
        extend s (processing i kp b ++
                  [ConsoleError (ErrorConsolidating (i + 1) (message notAnInteger))]))).
Proof.
  split; [apply consolidateWallet_moves_nothing |].
  intros key kp b blockhash r Hkey Hne Hkp Hb Hpos Hbh Hfee.
  now apply consolidateWallet_not_a_number with (key := key) (blockhash := blockhash) (r := r).
Qed.

Lemma X3_consolidateWallet_moves_nothing_witness :
  Consolidate.consolidateWallet buyWorld 0 "base" start
  = (Normal 0%Q,
     extend start (processing 0 "pub:key1" 2000000000%Q ++
                   [ConsoleError (ErrorConsolidating 1 (message notAnInteger))])).
Proof.
  apply (proj2 (X3_consolidateWallet_moves_nothing buyWorld 0 "base" start)
           "key1" "pub:key1" 2000000000%Q "blockhash" (mkRpcResponse 0 (Some 5000%Q)));
    try reflexivity.
  - discriminate.
  - apply Qlt_not_le. reflexivity.
Defined.

(** ** buyBot.js and sellBot.js: the operation of one wallet *)

Ltac close_iff :=
  repeat (split; [first [reflexivity | eassumption
                        | now apply String.eqb_neq | now apply Z.eqb_eq
                        | now apply Qle_bool_false_inv] |]);
  first [reflexivity | eassumption].

(** X4: [executeBuyWithWallet] returns a signature exactly when the wallet
    has a key that decodes, the trade API answers its request with status
    200 and a transaction that deserializes, and the node accepts the
    signed transaction; the signature is the one the node returned. *)
Theorem X4_buy_returns_node_signature
    (W : World) (i : Z) (t : string) (w : Wallet) (bp : BaseParams) (s : State)
    (sg : Signature) :
  fst (BuyBot.executeBuyWithWallet W i t w bp s) = Normal (Some sg) <->
  exists key pk r tx,
    env W (WALLET_PRIVATE_KEY (i + 1)) = Some key /\
    key <> "" /\
    fromSecretKey W key = Normal pk /\
    tradeLocal W (mkTradeRequest pk Buy None t true (amount w) (slippage bp) (priorityFee bp))
    = Normal r /\
    status r = 200%Z /\
    deserialize W (body r) = Normal tx /\
    sendTransaction W (fst (signed W tx [pk])) = Normal sg.
Proof.
  split.
  - unfold BuyBot.executeBuyWithWallet; js_unfold. cbn.
    repeat case_step; intros H; try discriminate H.
    injection H as <-. eexists _, _, _, _. close_iff.
  - intros (key & pk & r & tx & Hkey & Hne & Hpk & Hr & Hst & Htx & Hsend).
    unfold BuyBot.executeBuyWithWallet; js_unfold.
    rewrite Hkey. apply String.eqb_neq in Hne. rewrite Hne. cbn.
    rewrite Hpk. cbn. rewrite Hr, Hst. cbn. rewrite Htx. cbn. rewrite Hsend. reflexivity.
Qed.

(** X5: [executeSellWithWallet] returns a signature exactly when the wallet
    has a key that decodes, the token address is an address, the wallet has
    a token account whose balance gives a positive amount to sell, the
    trade API answers the request for that amount with status 200 and a
    transaction that deserializes, and the node accepts the signed
    transaction. *)
Theorem X5_sell_returns_node_signature
    (W : World) (i : Z) (t : string) (w : Wallet) (bp : BaseParams) (s : State)
    (sg : Signature) :
  fst (SellBot.executeSellWithWallet W i t w bp s) = Normal (Some sg) <->
  exists key pk mint b others r tx,
    env W (WALLET_PRIVATE_KEY (i + 1)) = Some key /\
    key <> "" /\
    fromSecretKey W key = Normal pk /\
    newMint W t = Normal mint /\
    getParsedTokenAccountsByOwner W pk mint = Normal (b :: others) /\
    ~ (SellBot.amountToSell bp b <= 0)%Q /\
    tradeLocal W (mkTradeRequest pk Sell None t false (SellBot.amountToSell bp b)
                    (slippage bp) (priorityFee bp)) = Normal r /\
    status r = 200%Z /\
    deserialize W (body r) = Normal tx /\
    sendTransaction W (fst (signed W tx [pk])) = Normal sg.
Proof.
  split.
  - unfold SellBot.executeSellWithWallet; js_unfold. cbn.
    repeat case_step; intros H; try discriminate H.
    injection H as <-. eexists _, _, _, _, _, _, _. close_iff.
  - intros (key & pk & mint & b & others & r & tx
            & Hkey & Hne & Hpk & Hmint & Hacc & Hpos & Hr & Hst & Htx & Hsend).
    unfold SellBot.executeSellWithWallet; js_unfold.
    rewrite Hkey. apply String.eqb_neq in Hne. rewrite Hne. cbn.
    rewrite Hpk. cbn. rewrite Hmint. cbn. rewrite Hacc. cbn.
    rewrite (Qle_bool_false _ _ Hpos). cbn.
    rewrite Hr, Hst. cbn. rewrite Htx. cbn. rewrite Hsend. reflexivity.
Qed.

(** X6: what one [executeBuyWithWallet] does outside the console.  It never
    throws; it sends at most one request to the trade API, a purchase
    denominated in SOL of the configured amount for the public key of the
    wallet's own key; it signs nothing unless that request was answered
    with status 200, and then it signs the transaction received with that
    key alone and submits the signed transaction, once. *)
Theorem X6_buy_effects
    (W : World) (i : Z) (t : string) (w : Wallet) (bp : BaseParams) (s : State) :
  exists v evs,
    BuyBot.executeBuyWithWallet W i t w bp s = (Normal v, extend s evs) /\
    ((trades evs = [] /\ signings evs = []) \/
     exists key pk,
       env W (WALLET_PRIVATE_KEY (i + 1)) = Some key /\
       fromSecretKey W key = Normal pk /\
       trades evs
       = [[mkTradeRequest pk Buy None t true (amount w) (slippage bp) (priorityFee bp)]] /\
       (signings evs = [] \/
        exists r tx,
          tradeLocal W (mkTradeRequest pk Buy None t true (amount w)
                          (slippage bp) (priorityFee bp)) = Normal r /\
          status r = 200%Z /\
          deserialize W (body r) = Normal tx /\
          signings evs = [Sign tx [pk]; SendTransaction (fst (signed W tx [pk]))])).
Proof.
  unfold BuyBot.executeBuyWithWallet; js_unfold. cbn.
  repeat case_step; rewrite ?extend_extend;
    (eexists _, _; split; [reflexivity |]);
    try (left; split; reflexivity).
  all: right; eexists _, _;
    (split; [reflexivity |]); (split; [eassumption |]); (split; [reflexivity |]).
  all: try (left; reflexivity).
  all: right; eexists _, _. all: close_iff.
Qed.

Lemma amountToSell_at_most (bp : BaseParams) (b : Number) :
  (percentToSell bp <= 100)%Q -> (0 <= b)%Q -> (SellBot.amountToSell bp b <= b)%Q.
Proof.
  intros Hp Hb. rewrite amountToSell_share.
  apply Qle_trans with (1 * b)%Q; [| rewrite Qmult_1_l; apply Qle_refl].
  rewrite (Qmult_comm b). apply Qmult_le_compat_r; [| assumption].
  apply Qle_shift_div_r; [reflexivity |]. now rewrite Qmult_1_l.
Qed.

(** X7: what one [executeSellWithWallet] does outside the console.  It
    never throws; it sends at most one request to the trade API, a sale
    denominated in tokens for the public key of the wallet's own key, of a
    positive amount computed from the balance of the first token account,
    an amount that does not exceed that balance when [percentToSell] is at
    most 100; it signs nothing unless the request was answered with status
    200, and then signs with that key alone and submits once. *)
Theorem X7_sell_effects
    (W : World) (i : Z) (t : string) (w : Wallet) (bp : BaseParams) (s : State) :
  exists v evs,
    SellBot.executeSellWithWallet W i t w bp s = (Normal v, extend s evs) /\
    ((trades evs = [] /\ signings evs = []) \/
     exists key pk mint b others,
       env W (WALLET_PRIVATE_KEY (i + 1)) = Some key /\
       fromSecretKey W key = Normal pk /\
       newMint W t = Normal mint /\
       getParsedTokenAccountsByOwner W pk mint = Normal (b :: others) /\
       (0 < SellBot.amountToSell bp b)%Q /\
       ((percentToSell bp <= 100)%Q -> (0 <= b)%Q -> (SellBot.amountToSell bp b <= b)%Q) /\
       trades evs
       = [[mkTradeRequest pk Sell None t false (SellBot.amountToSell bp b)
             (slippage bp) (priorityFee bp)]] /\
       (signings evs = [] \/
        exists r tx,
          tradeLocal W (mkTradeRequest pk Sell None t false (SellBot.amountToSell bp b)
                          (slippage bp) (priorityFee bp)) = Normal r /\
          status r = 200%Z /\
          deserialize W (body r) = Normal tx /\
          signings evs = [Sign tx [pk]; SendTransaction (fst (signed W tx [pk]))])).
Proof.
  unfold SellBot.executeSellWithWallet; js_unfold. cbn.
  repeat case_step; rewrite ?extend_extend;
    (eexists _, _; split; [reflexivity |]);
    try (left; split; reflexivity).
  all: right; eexists _, _, _, _, _;
    do 4 (split; [first [reflexivity | eassumption] |]);
    (split; [apply Qnot_le_lt; now apply Qle_bool_false_inv |]);
    (split; [apply amountToSell_at_most |]); (split; [reflexivity |]).
  all: try (left; reflexivity).
  all: right; eexists _, _. all: close_iff.
Qed.

(** ** buyBot.js and sellBot.js: the pacing of a batch *)

Lemma beats_app (a b : list Event) : beats (a ++ b) = (beats a ++ beats b)%list.
Proof. apply omap_app. Qed.

Lemma executeBuyWithWallet_beat
    (W : World) (i : Z) (t : string) (w : Wallet) (bp : BaseParams) (s : State) :
  exists v evs,
    BuyBot.executeBuyWithWallet W i t w bp s = (Normal v, extend s evs) /\
    beats evs = [Enter (executeBuyWithWallet_fn, i, name w)].
Proof.
  unfold BuyBot.executeBuyWithWallet; js_unfold. cbn.
  repeat case_step; rewrite ?extend_extend; eexists _, _; split; reflexivity.
Qed.

Lemma executeSellWithWallet_beat
    (W : World) (i : Z) (t : string) (w : Wallet) (bp : BaseParams) (s : State) :
  exists v evs,
    SellBot.executeSellWithWallet W i t w bp s = (Normal v, extend s evs) /\
    beats evs = [Enter (executeSellWithWallet_fn, i, name w)].
Proof.
  unfold SellBot.executeSellWithWallet; js_unfold. cbn.
  repeat case_step; rewrite ?extend_extend; eexists _, _; split; reflexivity.
Qed.

Lemma pauses_next (i : Z) (n : nat) : (0 <= i)%Z -> pauses (i + 1) n = n.
Proof.
  intros H. unfold pauses. destruct (0 <? i + 1)%Z eqn:E; [reflexivity |].
  apply Z.ltb_ge in E. lia.
Qed.

Lemma bind_run {A B} (m : Js A) (k : A -> Js B) (s s1 : State) (a : A) :
  m s = (Normal a, s1) -> bind m k s = k a s1.
Proof. intros H. unfold bind. now rewrite H. Qed.

Lemma delay_pacing (W : World) (i : Z) (s : State) :
  exists s1 e0,
    (if (0 <? i)%Z
     then bind (BuyBot.getRandomDelay W (min (delayRange (walletConfig W)))
                  (max (delayRange (walletConfig W))))
            (fun delay => bind (console_log (Waiting delay)) (fun _ => BuyBot.sleep delay))
     else ret tt) s = (Normal tt, s1) /\
    trace s1 = (trace s ++ e0)%list /\
    beats e0 = map Pause (delaysFrom W (draws s) (if (0 <? i)%Z then 1 else 0)) /\
    draws s1 = (draws s + (if (0 <? i)%Z then 1 else 0))%nat.
Proof.
  destruct (0 <? i)%Z.
  - unfold BuyBot.getRandomDelay, BuyBot.sleep, Math_random; js_unfold. cbn.
    eexists _, _. split; [reflexivity |]. cbn.
    split; [rewrite <- app_assoc; reflexivity |]. split; [reflexivity | lia].
  - exists s, []. unfold ret. rewrite app_nil_r. cbn. now rewrite Nat.add_0_r.
Qed.

Lemma rhythm_step (W : World) (i : Z) (c : Fn * Z * string) (cs : list (Fn * Z * string))
    (d : nat) :
  (0 <= i)%Z ->
  rhythm i (c :: cs) (delaysFrom W d (pauses i (S (length cs))))
  = (map Pause (delaysFrom W d (if (0 <? i)%Z then 1 else 0)) ++ [Enter c] ++
     rhythm (i + 1) cs
       (delaysFrom W (d + (if (0 <? i)%Z then 1 else 0)) (pauses (i + 1) (length cs))))%list.
Proof.
  intros Hi. rewrite pauses_next by assumption. unfold rhythm, pauses.
  assert (E : (0 <? i + 1)%Z = true) by (apply Z.ltb_lt; lia). rewrite E.
  destruct (0 <? i)%Z; cbn.
  - now rewrite Nat.add_1_r.
  - now rewrite Nat.add_0_r.
Qed.

Lemma buyLoop_pacing (W : World) (t : string) (bp : BaseParams) (ws : list Wallet) :
  forall i s, (0 <= i)%Z ->
    exists s' evs,
      BuyBot.buyLoop W t bp ws i s = (Normal tt, s') /\
      trace s' = (trace s ++ evs)%list /\
      beats evs = rhythm i (indexed executeBuyWithWallet_fn ws i)
                    (delaysFrom W (draws s) (pauses i (length ws))) /\
      draws s' = (draws s + pauses i (length ws))%nat.
Proof.
  induction ws as [| w ws IH]; intros i s Hi; cbn [BuyBot.buyLoop length indexed].
  - exists s, []. unfold ret, pauses, rhythm. rewrite app_nil_r.
    destruct (0 <? i)%Z; cbn; now rewrite Nat.add_0_r.
  - destruct (delay_pacing W i s) as [s1 [e0 [E0 [T0 [S0 D0]]]]].
    rewrite (bind_run _ _ _ _ _ E0).
    destruct (executeBuyWithWallet_beat W i t w bp s1) as [v [e1 [E1 S1]]].
    rewrite (bind_run _ _ _ _ _ E1).
    destruct (IH (i + 1)%Z (extend s1 e1) ltac:(lia)) as [s2 [e2 [E2 [T2 [S2 D2]]]]].
    rewrite E2. exists s2, (e0 ++ e1 ++ e2)%list. split; [reflexivity |].
    cbn [extend trace draws] in T2, S2, D2.
    split; [| split].
    + rewrite T2, T0. now rewrite <- !app_assoc.
    + rewrite !beats_app, S0, S1, S2, D0.
      replace (length ws) with (length (indexed executeBuyWithWallet_fn ws (i + 1))).
      * symmetry. now apply rhythm_step.
      * clear. generalize (i + 1)%Z. induction ws as [| w ws IH]; intros j; cbn;
          [reflexivity | now rewrite IH].
    + rewrite D2, D0. rewrite pauses_next by assumption.
      unfold pauses. destruct (0 <? i)%Z; cbn; lia.
Qed.

Lemma sellLoop_pacing (W : World) (t : string) (bp : BaseParams) (ws : list Wallet) :
  forall i s, (0 <= i)%Z ->
    exists s' evs,
      SellBot.sellLoop W t bp ws i s = (Normal tt, s') /\
      trace s' = (trace s ++ evs)%list /\
      beats evs = rhythm i (sellCalls W ws)
                    (delaysFrom W (draws s) (pauses i (length ws))) /\
      draws s' = (draws s + pauses i (length ws))%nat.
Proof.
  induction ws as [| w ws IH]; intros i s Hi; cbn [SellBot.sellLoop length sellCalls map].
  - exists s, []. unfold ret, pauses, rhythm. rewrite app_nil_r.
    destruct (0 <? i)%Z; cbn; now rewrite Nat.add_0_r.
  - destruct (delay_pacing W i s) as [s1 [e0 [E0 [T0 [S0 D0]]]]].
    change BuyBot.getRandomDelay with SellBot.getRandomDelay in E0.
    change BuyBot.sleep with SellBot.sleep in E0.
    rewrite (bind_run _ _ _ _ _ E0).
    match goal with
    | |- context [SellBot.executeSellWithWallet W ?j t w bp] =>
        destruct (executeSellWithWallet_beat W j t w bp s1) as [v [e1 [E1 S1]]]
    end.
    rewrite (bind_run _ _ _ _ _ E1).
    destruct (IH (i + 1)%Z (extend s1 e1) ltac:(lia)) as [s2 [e2 [E2 [T2 [S2 D2]]]]].
    rewrite E2. exists s2, (e0 ++ e1 ++ e2)%list. split; [reflexivity |].
    cbn [extend trace draws] in T2, S2, D2.
    split; [| split].
    + rewrite T2, T0. now rewrite <- !app_assoc.
    + rewrite !beats_app, S0, S1, S2, D0.
      replace (length ws) with (length (sellCalls W ws))
        by (unfold sellCalls; apply length_map).
      symmetry. now apply rhythm_step.
    + rewrite D2, D0. rewrite pauses_next by assumption.
      unfold pauses. destruct (0 <? i)%Z; cbn; lia.
Qed.

Lemma delaysFrom_length (W : World) (k : nat) : forall d, length (delaysFrom W d k) = k.
Proof. induction k as [| k IH]; intros d; cbn; [reflexivity | now rewrite IH]. Qed.

Lemma delaysFrom_in_range (W : World) (k : nat) :
  (0 <= min (delayRange (walletConfig W)) <= max (delayRange (walletConfig W)))%Z ->
  (max (delayRange (walletConfig W)) < 2 ^ 52)%Z ->
  (forall j, (0 <= random W j)%Q /\ (random W j < 1)%Q) ->
  forall d, Forall (fun ms => (min (delayRange (walletConfig W)) <= ms
                               <= max (delayRange (walletConfig W)) + 1)%Z)
              (delaysFrom W d k).
Proof.
  intros Hr Hm Hd. induction k as [| k IH]; intros d; cbn [delaysFrom]; constructor.
  - apply floorOfDraw_bounds; [assumption | assumption | apply Hd | apply Hd].
  - apply IH.
Qed.

(** X8: the pacing of a batch.  A buy batch and a sell batch enter their
    first wallet at once and pause once before each of the other wallets,
    and nowhere else: for n wallets there are n - 1 pauses, none before
    the first wallet and none after the last.  The buy batch draws one
    random number for each pause and no other.  When the configured range
    has 0 <= min <= max < 2^52 and every draw is in [0, 1), every pause is
    an integer from min to max + 1. *)
Theorem X8_batch_pacing (W : World) (t : string) (bp : BaseParams) (s : State) :
  (exists s' evs,
     BuyBot.executeMultiWalletBuy W t bp s = (Normal tt, s') /\
     trace s' = (trace s ++ evs)%list /\
     beats evs
     = paced (indexed executeBuyWithWallet_fn (wallets (walletConfig W)) 0)
         (delaysFrom W (draws s) (pred (length (wallets (walletConfig W))))) /\
     draws s' = (draws s + pred (length (wallets (walletConfig W))))%nat) /\
  (exists l s' evs d,
     Permutation (wallets (walletConfig W)) l /\
     SellBot.executeMultiWalletSell W t bp s = (Normal tt, s') /\
     trace s' = (trace s ++ evs)%list /\
     beats evs
     = paced (sellCalls W l) (delaysFrom W d (pred (length (wallets (walletConfig W)))))) /\
  (forall d k, length (delaysFrom W d k) = k) /\
  ((0 <= min (delayRange (walletConfig W)) <= max (delayRange (walletConfig W)))%Z ->
   (max (delayRange (walletConfig W)) < 2 ^ 52)%Z ->
   (forall j, (0 <= random W j)%Q /\ (random W j < 1)%Q) ->
   forall d k, Forall (fun ms => (min (delayRange (walletConfig W)) <= ms
                                  <= max (delayRange (walletConfig W)) + 1)%Z)
                 (delaysFrom W d k)).
Proof.
  split; [| split; [| split]].
  - unfold BuyBot.executeMultiWalletBuy.
    rewrite (bind_run _ _ s (extend s [ConsoleLog StartingBuySequence]) tt) by reflexivity.
    destruct (buyLoop_pacing W t bp (wallets (walletConfig W)) 0
                (extend s [ConsoleLog StartingBuySequence]) ltac:(lia))
      as [s' [evs [E [T [S D]]]]].
    exists s', (ConsoleLog StartingBuySequence :: evs). split; [exact E |].
    cbn [extend trace draws] in T, S, D. split; [| split].
    + rewrite T. now rewrite <- app_assoc.
    + exact S.
    + exact D.
  - unfold SellBot.executeMultiWalletSell.
    rewrite (bind_run _ _ s (extend s [ConsoleLog StartingSellSequence]) tt) by reflexivity.
    destruct (shuffledWallets_permutation W (extend s [ConsoleLog StartingSellSequence]))
      as [l [s1 [E1 [T1 P1]]]].
    rewrite (bind_run _ _ _ _ _ E1).
    destruct (sellLoop_pacing W t bp l 0 s1 ltac:(lia)) as [s' [evs [E [T [S D]]]]].
    exists l, s', (ConsoleLog StartingSellSequence :: evs), (draws s1).
    split; [exact P1 |]. split; [exact E |]. split.
    + rewrite T, T1. cbn. now rewrite <- app_assoc.
    + transitivity (beats evs); [reflexivity |].
      rewrite S. unfold pauses, rhythm. cbn. now rewrite (Permutation_length P1).
  - intros d k. apply delaysFrom_length.
  - intros Hr Hm Hd d k. now apply delaysFrom_in_range.
Qed.

Lemma X8_batch_pacing_witness :
  Forall (fun ms => (100 <= ms <= 1001)%Z) (delaysFrom shuffleWorld 0 2).
Proof.
  destruct (X8_batch_pacing shuffleWorld "mint" buyParams start) as [_ [_ [_ H]]].
  apply (H ltac:(cbn; lia) ltac:(reflexivity)).
  intros j. cbn. destruct (Nat.even j); split; discriminate || reflexivity.
Defined.

Example a_buy_batch_of_three :
  beats (trace (snd (BuyBot.executeMultiWalletBuy shuffleWorld "mint" buyParams start)))
  = [Enter (executeBuyWithWallet_fn, 0, "Wallet 1"); Pause 910;
     Enter (executeBuyWithWallet_fn, 1, "Wallet 2"); Pause 280;
     Enter (executeBuyWithWallet_fn, 2, "Wallet 3")].
Proof. vm_compute. reflexivity. Qed.

(** ** sellBot.js: the index of a wallet *)

Lemma findIndex_first {A} (p : A -> bool) (l : list A) :
  forall i, (exists x, In x l /\ p x = true) ->
    exists k x,
      SellBot.findIndex p l i = (i + Z.of_nat k)%Z /\
      nth_error l k = Some x /\ p x = true /\
      (forall j y, (j < k)%nat -> nth_error l j = Some y -> p y = false).
Proof.
  induction l as [| a l IH]; intros i [x [Hin Hp]]; [contradiction |].
  cbn [SellBot.findIndex]. destruct (p a) eqn:Ea.
  - exists 0%nat, a. rewrite Z.add_0_r. repeat split; try assumption.
    intros j y Hj. lia.
  - destruct Hin as [-> | Hin]; [congruence |].
    destruct (IH (i + 1)%Z (ex_intro _ x (conj Hin Hp))) as [k [y [E [N [P F]]]]].
    exists (S k), y. split; [rewrite E; lia |]. split; [exact N |]. split; [exact P |].
    intros j z Hj Hz. destruct j as [| j]; cbn in Hz.
    + now injection Hz as <-.
    + apply (F j z); [lia | assumption].
Qed.

Lemma findIndex_own_position (ws : list Wallet) (k : nat) (wallet : Wallet) :
  List.NoDup (map name ws) ->
  nth_error ws k = Some wallet ->
  SellBot.findIndex (fun w => String.eqb (name w) (name wallet)) ws 0 = Z.of_nat k.
Proof.
  intros Hnd Hk.
  destruct (findIndex_first (fun w => String.eqb (name w) (name wallet)) ws 0)
    as [k' [w' [E [N [P _]]]]].
  { exists wallet. split; [eapply nth_error_In; eassumption | apply String.eqb_refl]. }
  rewrite E, Z.add_0_l. f_equal.
  apply String.eqb_eq in P.
  apply (proj1 (NoDup_nth_error (map name ws)) Hnd).
  - rewrite length_map. apply nth_error_Some. congruence.
  - rewrite !nth_error_map, N, Hk. cbn. now rewrite P.
Qed.

Lemma sell_indices_from (pre ws : list Wallet) :
  List.NoDup (map name (pre ++ ws)) ->
  map (fun wallet =>
         SellBot.findIndex (fun w => String.eqb (name w) (name wallet)) (pre ++ ws) 0) ws
  = map Z.of_nat (seq (length pre) (length ws)).
Proof.
  revert pre. induction ws as [| w ws IH]; intros pre Hnd; [reflexivity |].
  cbn [map seq length]. f_equal.
  - apply findIndex_own_position; [assumption |].
    rewrite nth_error_app2 by lia. now rewrite Nat.sub_diag.
  - specialize (IH (pre ++ [w])%list). rewrite <- app_assoc in IH. cbn in IH.
    rewrite IH by assumption. rewrite length_app. cbn. now rewrite Nat.add_1_r.
Qed.

(** X9: the index a sell batch hands to [executeSellWithWallet], and so the
    key it reads, is the position of the first configured wallet that has
    the name of the wallet sold (never -1).  When the configured names are
    distinct it is the position of the wallet itself, and the indices of a
    batch are a permutation of 0 .. n-1: every key is used once. *)
Theorem X9_sell_index_is_first_of_name
    (W : World) (t : string) (bp : BaseParams) (s : State) :
  (forall wallet, In wallet (wallets (walletConfig W)) ->
     exists k w',
       SellBot.findIndex (fun w => String.eqb (name w) (name wallet))
         (wallets (walletConfig W)) 0 = Z.of_nat k /\
       nth_error (wallets (walletConfig W)) k = Some w' /\
       name w' = name wallet /\
       (forall j w'', (j < k)%nat -> nth_error (wallets (walletConfig W)) j = Some w'' ->
                      name w'' <> name wallet)) /\
  (List.NoDup (map name (wallets (walletConfig W))) ->
     (forall k wallet, nth_error (wallets (walletConfig W)) k = Some wallet ->
        SellBot.findIndex (fun w => String.eqb (name w) (name wallet))
          (wallets (walletConfig W)) 0 = Z.of_nat k) /\
     exists s' evs,
       SellBot.executeMultiWalletSell W t bp s = (Normal tt, s') /\
       trace s' = (trace s ++ evs)%list /\
       Permutation (map (fun c => snd (fst c)) (calls evs))
         (map Z.of_nat (seq 0 (length (wallets (walletConfig W)))))).
Proof.
  split.
  - intros wallet Hin.
    destruct (findIndex_first (fun w => String.eqb (name w) (name wallet))
                (wallets (walletConfig W)) 0) as [k [w' [E [N [P F]]]]].
    { exists wallet. split; [assumption | apply String.eqb_refl]. }
    exists k, w'. rewrite E, Z.add_0_l. split; [reflexivity |]. split; [exact N |].
    split; [now apply String.eqb_eq |].
    intros j w'' Hj Hw. apply String.eqb_neq. now apply (F j w'').
  - intros Hnd. split.
    + intros k wallet. now apply findIndex_own_position.
    + destruct (executeMultiWalletSell_steps W t bp s) as [l [s' [evs [P [E [T [C _]]]]]]].
      exists s', evs. split; [exact E |]. split; [exact T |].
      rewrite C. unfold sellCalls. rewrite map_map. cbn [fst snd].
      pose proof (sell_indices_from [] (wallets (walletConfig W)) Hnd) as Hs.
      cbn [app length] in Hs. rewrite <- Hs.
      apply Permutation_map. now symmetry.
Qed.

Lemma X9_sell_index_is_first_of_name_witness :
  exists s' evs,
    SellBot.executeMultiWalletSell shuffleWorld "mint" buyParams start = (Normal tt, s') /\
    trace s' = (trace start ++ evs)%list /\
    Permutation (map (fun c => snd (fst c)) (calls evs)) [0%Z; 1%Z; 2%Z].
Proof.
  destruct (X9_sell_index_is_first_of_name shuffleWorld "mint" buyParams start) as [_ H].
  destruct H as [_ H].
  - cbn. repeat constructor; cbn; intuition discriminate.
  - exact H.
Defined.

(** ** createToken.js: [createTokenBundle] *)

Ltac create_cases :=
  unfold CreateToken.createTokenBundle, CreateToken.keypairOfEnv, Keypair_generate;
  js_unfold; cbn; repeat case_step; cbn;
  (eexists _, _, _; split; [reflexivity |];
   split; [cbn; rewrite <- ?app_assoc; reflexivity |]).

(** X10: [createTokenBundle] sends at most one request to the trade API: a
    pair made of a creation by the wallet of [WALLET_A_PRIVATE_KEY], with
    the metadata URI the upload returned, and a purchase by the wallet of
    [WALLET_B_PRIVATE_KEY]; both name the same mint, the key pair generated
    for this call, and the same amount. *)
Theorem X10_bundle_requests_share_the_mint (W : World) (tokenData : TokenData) (s : State) :
  exists o s' evs,
    CreateToken.createTokenBundle W tokenData s = (o, s') /\
    trace s' = (trace s ++ evs)%list /\
    (trades evs = [] \/
     exists ka a kb b r uri,
       env W WALLET_A_PRIVATE_KEY = Some ka /\ fromSecretKey W ka = Normal a /\
       env W WALLET_B_PRIVATE_KEY = Some kb /\ fromSecretKey W kb = Normal b /\
       upload W tokenData = Normal r /\ body r = Normal uri /\
       trades evs
       = [[mkTradeRequest a Create uri (fst (keygen W (gens s))) false
             (td_amount tokenData) 10%Q 0.0001%Q;
           mkTradeRequest b Buy None (fst (keygen W (gens s))) false
             (td_amount tokenData) 10%Q 0.00005%Q]]).
Proof.
  create_cases; try (left; reflexivity).
  all: right; eexists _, _, _, _, _, _;
    repeat (split; [first [reflexivity | eassumption] |]); reflexivity.
Qed.

(** X11: [createTokenBundle] signs the first transaction of the answer
    with the mint and wallet A, then the second with wallet B, and submits
    a bundle only after both: what it signs and submits is nothing, or the
    first signature alone (the second transaction was missing or broken,
    and nothing is submitted), or both signatures followed by the bundle of
    the two signed transactions. *)
Theorem X11_bundle_is_never_partial (W : World) (tokenData : TokenData) (s : State) :
  exists o s' evs,
    CreateToken.createTokenBundle W tokenData s = (o, s') /\
    trace s' = (trace s ++ evs)%list /\
    (signings evs = [] \/
     exists ka a tx0,
       env W WALLET_A_PRIVATE_KEY = Some ka /\ fromSecretKey W ka = Normal a /\
       (signings evs = [Sign tx0 [fst (keygen W (gens s)); a]] \/
        exists kb b tx1,
          env W WALLET_B_PRIVATE_KEY = Some kb /\ fromSecretKey W kb = Normal b /\
          signings evs
          = [Sign tx0 [fst (keygen W (gens s)); a];
             Sign tx1 [b];
             SendBundle [fst (signed W tx0 [fst (keygen W (gens s)); a]);
                         fst (signed W tx1 [b])]])).
Proof.
  create_cases; try (left; reflexivity).
  all: right; eexists _, _, _;
    do 2 (split; [first [reflexivity | eassumption] |]);
    try (left; reflexivity).
  all: right; eexists _, _, _;
    do 2 (split; [first [reflexivity | eassumption] |]); reflexivity.
Qed.

(** X12: without [WALLET_A_PRIVATE_KEY] or [WALLET_B_PRIVATE_KEY],
    [createTokenBundle] throws before it generates the mint, uploads
    anything or asks the trade API: it prints its first line and the
    error, and throws the error on. *)
Theorem X12_create_needs_both_keys (W : World) (tokenData : TokenData) (s : State) :
  (env W WALLET_A_PRIVATE_KEY = None ->
     CreateToken.createTokenBundle W tokenData s
     = (Throw (mkError TypeError "Expected String"),
        extend s [ConsoleLog PreparingToken;
                  ConsoleError (ErrorCreatingToken (mkError TypeError "Expected String"))])) /\
  (forall ka a,
     env W WALLET_A_PRIVATE_KEY = Some ka -> fromSecretKey W ka = Normal a ->
     env W WALLET_B_PRIVATE_KEY = None ->
     CreateToken.createTokenBundle W tokenData s
     = (Throw (mkError TypeError "Expected String"),
        extend s [ConsoleLog PreparingToken;
                  ConsoleError (ErrorCreatingToken (mkError TypeError "Expected String"))])).
Proof.
  split.
  - intros Ha. unfold CreateToken.createTokenBundle, CreateToken.keypairOfEnv; js_unfold.
    rewrite Ha. cbn. now rewrite extend_extend.
  - intros ka a Ha Hka Hb.
    unfold CreateToken.createTokenBundle, CreateToken.keypairOfEnv; js_unfold.
    rewrite Ha, Hb. cbn. rewrite Hka. cbn. now rewrite extend_extend.
Qed.

Lemma X12_create_needs_both_keys_witness :
  CreateToken.createTokenBundle bareWorld sampleToken start
  = (Throw (mkError TypeError "Expected String"),
     extend start [ConsoleLog PreparingToken;
                   ConsoleError (ErrorCreatingToken (mkError TypeError "Expected String"))]).
Proof.
  apply (proj1 (X12_create_needs_both_keys bareWorld sampleToken start)). reflexivity.
Defined.

(** X13: as the script stands, [createTokenBundle] creates no token.
    Whatever the world, it throws; the last line it printed is that error,
    on the error stream; the line of a created token is not printed;
    nothing is uploaded and no request reaches the trade API.  With both
    keys decoded and the image opened, the error is the TypeError of
    [formData.append] for the Blob, thrown once the mint key pair has been
    generated. *)
Theorem X13_create_never_succeeds (W : World) (tokenData : TokenData) (s : State) :
  (exists e s' evs,
     CreateToken.createTokenBundle W tokenData s = (Throw e, s') /\
     trace s' = (trace s ++ evs)%list /\
     last evs = Some (ConsoleError (ErrorCreatingToken e)) /\
     ~ In (ConsoleLog TokenCreated) evs /\
     filter is_upload evs = [] /\
     trades evs = []) /\
  (forall ka a kb b,
     env W WALLET_A_PRIVATE_KEY = Some ka -> fromSecretKey W ka = Normal a ->
     env W WALLET_B_PRIVATE_KEY = Some kb -> fromSecretKey W kb = Normal b ->
     openAsBlob W (imagePath tokenData) = Normal tt ->
     CreateToken.createTokenBundle W tokenData s
     = (Throw (mkError TypeError "source.on is not a function"),
        mkState
          (trace s ++
           [ConsoleLog PreparingToken;
            ConsoleError
              (ErrorCreatingToken (mkError TypeError "source.on is not a function"))])
          (scopes s) (files s) (draws s) (ticks s) (S (gens s)))).
Proof.
  split.
  - destruct (createTokenBundle_throws W tokenData s)
      as [e [s' [evs [E [T [_ [Tr [U [L N]]]]]]]]].
    exists e, s', evs. repeat split; assumption.
  - intros ka a kb b Ha Hka Hb Hkb Hblob.
    unfold CreateToken.createTokenBundle, CreateToken.keypairOfEnv, CreateToken.FormData_append,
      Keypair_generate; js_unfold.
    cbn. rewrite Ha. cbn. rewrite Hka. cbn. rewrite Hb. cbn. rewrite Hkb. cbn.
    rewrite Hblob. cbn. unfold extend. cbn. rewrite <- ?app_assoc. reflexivity.
Qed.

Lemma X13_create_never_succeeds_witness :
  CreateToken.createTokenBundle buyWorld sampleToken start
  = (Throw (mkError TypeError "source.on is not a function"),
     mkState
       (trace start ++
        [ConsoleLog PreparingToken;
         ConsoleError (ErrorCreatingToken (mkError TypeError "source.on is not a function"))])
       (scopes start) (files start) (draws start) (ticks start) (S (gens start))).
Proof.
  apply (proj2 (X13_create_never_succeeds buyWorld sampleToken start)
           "keyA" "pub:keyA" "keyB" "pub:keyB"); reflexivity.
Defined.

(** ** fundWallets.js: [generateAndSaveWallets] *)

Lemma generateLoop_result (W : World) (n : nat) :
  forall i ws pks s,
    FundWallets.generateLoop W n i ws pks s
    = (Normal (ws ++ generatedWallets W n i (gens s), pks ++ generatedKeys W n i (gens s))%list,
       mkState (trace s) (scopes s) (files s) (draws s) (ticks s) (gens s + n)).
Proof.
  induction n as [| n IH]; intros i ws pks s;
    cbn [FundWallets.generateLoop generatedWallets generatedKeys].
  - unfold ret. rewrite !app_nil_r, Nat.add_0_r. now destruct s.
  - unfold bind, Keypair_generate. rewrite IH. cbn.
    rewrite <- !app_assoc, Nat.add_succ_r. reflexivity.
Qed.

Lemma generatedWallets_length (W : World) (n : nat) :
  forall i g, length (generatedWallets W n i g) = n.
Proof. induction n as [| n IH]; intros i g; cbn; [reflexivity | now rewrite IH]. Qed.

Lemma generatedWallets_names (W : World) (n : nat) :
  forall i g w, In w (generatedWallets W n i g) ->
    exists m, (i < m <= i + Z.of_nat n)%Z /\ name w = "Wallet " ++ pretty m /\ amount w = 0%Q.
Proof.
  induction n as [| n IH]; intros i g w Hin; [contradiction |].
  destruct Hin as [<- | Hin].
  - exists (i + 1)%Z. cbn [name amount]. split; [lia | now split].
  - destruct (IH _ _ _ Hin) as [m [Hm H]]. exists m. split; [lia | exact H].
Qed.

Lemma generatedWallets_NoDup (W : World) (n : nat) :
  forall i g, List.NoDup (map name (generatedWallets W n i g)).
Proof.
  induction n as [| n IH]; intros i g; cbn [generatedWallets map]; constructor.
  - intros Hin. apply in_map_iff in Hin. destruct Hin as [w [Hn Hw]].
    destruct (generatedWallets_names W n _ _ w Hw) as [m [Hm [Hname _]]].
    rewrite Hname in Hn. cbn in Hn. injection Hn as Hp.
    assert (Hmi : m = (i + 1)%Z) by (now apply (inj pretty)). lia.
  - apply IH.
Qed.

Lemma generatedKeys_vars (W : World) (n : nat) :
  forall i g x, In x (map fst (generatedKeys W n i g)) ->
    exists m, (i < m <= i + Z.of_nat n)%Z /\ x = WALLET_PRIVATE_KEY m.
Proof.
  induction n as [| n IH]; intros i g x Hin; [contradiction |].
  destruct Hin as [<- | Hin].
  - exists (i + 1)%Z. split; [lia | reflexivity].
  - destruct (IH _ _ _ Hin) as [m [Hm H]]. exists m. split; [lia | exact H].
Qed.

Lemma generatedKeys_NoDup (W : World) (n : nat) :
  forall i g, List.NoDup (map fst (generatedKeys W n i g)).
Proof.
  induction n as [| n IH]; intros i g; cbn [generatedKeys map fst]; constructor.
  - intros Hin. destruct (generatedKeys_vars W n _ _ _ Hin) as [m [Hm E]].
    injection E as E. lia.
  - apply IH.
Qed.

(** The wallet and the key of one position come from one key pair. *)
Lemma generated_pairs (W : World) (n : nat) :
  forall i g k, (k < n)%nat ->
    nth_error (generatedWallets W n i g) k
    = Some (mkWallet ("Wallet " ++ pretty (i + Z.of_nat k + 1)) (fst (keygen W (g + k))) 0%Q) /\
    nth_error (generatedKeys W n i g) k
    = Some (WALLET_PRIVATE_KEY (i + Z.of_nat k + 1), snd (keygen W (g + k))).
Proof.
  induction n as [| n IH]; intros i g k Hk; [lia |].
  destruct k as [| k]; cbn [generatedWallets generatedKeys nth_error].
  - rewrite Z.add_0_r, Nat.add_0_r. now split.
  - destruct (IH (i + 1)%Z (S g) k ltac:(lia)) as [Hw Hs].
    rewrite Hw, Hs.
    replace (i + 1 + Z.of_nat k + 1)%Z with (i + Z.of_nat (S k) + 1)%Z by lia.
    replace (S g + k)%nat with (g + S k)%nat by lia. now split.
Qed.

Section EnvFile.
Import FundWallets.

Lemma prefix_split (p t : string) :
  String.prefix p t = true -> t = p ++ dropPrefix (String.length p) t.
Proof.
  revert t. induction p as [| a p IH]; intros t H; [reflexivity |].
  destruct t as [| b t]; [discriminate |]. cbn in H.
  destruct (ascii_dec a b) as [-> |]; [| discriminate].
  change (String b t = String b (p ++ dropPrefix (String.length p) t)).
  f_equal. now apply IH.
Qed.

Lemma prefix_append (p a b : string) :
  String.prefix p a = true -> String.prefix p (a ++ b) = true.
Proof.
  revert a. induction p as [| x p IH]; intros a H; [now destruct (a ++ b) |].
  destruct a as [| y a]; [discriminate |].
  change (String y a ++ b) with (String y (a ++ b)). cbn [String.prefix] in *.
  destruct (ascii_dec x y); [now apply IH | discriminate].
Qed.

Lemma atLineTerminator_append (a b : string) :
  atLineTerminator a = true -> atLineTerminator (a ++ b) = true.
Proof.
  unfold atLineTerminator. rewrite !orb_true_iff.
  intros [[[H | H] | H] | H]; apply (prefix_append _ _ b) in H; rewrite H; tauto.
Qed.

(** The rest of a line and what follows it. *)
Lemma afterDotStar_split (t : string) :
  exists line, t = line ++ afterDotStar t /\ afterDotStar line = "" /\
               afterDotStar (afterDotStar t) = afterDotStar t.
Proof.
  induction t as [| c t [line [E [L I]]]]; [now exists "" |].
  cbn [afterDotStar]. destruct (atLineTerminator (String c t)) eqn:A.
  - exists "". split; [reflexivity |]. split; [reflexivity |].
    cbn [afterDotStar]. now rewrite A.
  - exists (String c line). split; [| split; [| exact I]].
    + change (String c t = String c (line ++ afterDotStar t)). now f_equal.
    + cbn [afterDotStar]. rewrite L.
      destruct (atLineTerminator (String c line)) eqn:A'; [| reflexivity].
      apply (atLineTerminator_append _ (afterDotStar t)) in A'.
      change (String c line ++ afterDotStar t) with (String c (line ++ afterDotStar t)) in A'.
      rewrite <- E in A'. congruence.
Qed.

Lemma string_app_assoc (a b c : string) : (a ++ b) ++ c = a ++ (b ++ c).
Proof.
  induction a as [| x a IH]; [reflexivity |].
  change (String x ((a ++ b) ++ c) = String x (a ++ (b ++ c))). now rewrite IH.
Qed.

Lemma prefix_here (p a : string) : String.prefix p (p ++ a) = true.
Proof.
  induction p as [| x p IH]; [now destruct a |].
  change (String x p ++ a) with (String x (p ++ a)). cbn [String.prefix].
  destruct (ascii_dec x x); [exact IH | contradiction].
Qed.

(** No replacement means that [key=] occurs nowhere in the text. *)
Lemma replaceAssignment_none (key value text : string) :
  replaceAssignment key value text = None ->
  forall before after, text <> before ++ (key ++ "=") ++ after.
Proof.
  induction text as [| c text IH]; intros H before after E; cbn [replaceAssignment] in H.
  - destruct before; [| discriminate]. destruct key; discriminate E.
  - destruct (String.prefix (key ++ "=") (String c text)) eqn:P; [discriminate |].
    destruct (replaceAssignment key value text) eqn:Hr; [discriminate |].
    destruct before as [| x before].
    + change ("" ++ (key ++ "=") ++ after) with ((key ++ "=") ++ after) in E.
      rewrite E, prefix_here in P. discriminate.
    + injection E as -> E. now apply (IH eq_refl before after).
Qed.

(** What a replacement does: at the first place where [key=] occurs, the
    rest of the line is replaced; the text before that place and the text
    from the end of that line on are kept. *)
Lemma replaceAssignment_rule (key value text replaced : string) :
  replaceAssignment key value text = Some replaced ->
  exists before line after,
    text = before ++ (key ++ "=") ++ line ++ after /\
    replaced = before ++ (key ++ "=") ++ value ++ after /\
    afterDotStar line = "" /\ afterDotStar after = after /\
    (forall b1 b2, before = b1 ++ b2 -> b2 <> "" ->
       String.prefix (key ++ "=") (b2 ++ (key ++ "=") ++ line ++ after) = false).
Proof.
  assert (Hhere : forall t,
            String.prefix (key ++ "=") t = true ->
            exists line after,
              t = (key ++ "=") ++ line ++ after /\
              key ++ "=" ++ value ++ afterDotStar (dropPrefix (String.length (key ++ "=")) t)
              = (key ++ "=") ++ value ++ after /\
              afterDotStar line = "" /\ afterDotStar after = after).
  { intros t P. apply prefix_split in P.
    destruct (afterDotStar_split (dropPrefix (String.length (key ++ "=")) t))
      as [line [E [L I]]].
    exists line, (afterDotStar (dropPrefix (String.length (key ++ "=")) t)).
    split; [now rewrite <- E |]. split; [now rewrite string_app_assoc |]. now split. }
  assert (Hnone : forall b1 b2 : string, "" = b1 ++ b2 -> b2 <> "" -> False).
  { intros [| x b1] [| y b2] E N; try discriminate. now apply N. }
  revert replaced. induction text as [| c text IH]; intros replaced H;
    cbn [replaceAssignment] in H.
  - destruct (String.prefix (key ++ "=") "") eqn:P; [| discriminate].
    injection H as <-. destruct (Hhere "" P) as [line [after [E [R [L I]]]]].
    exists "", line, after. repeat split; try assumption.
    intros b1 b2 Eb Nb. destruct (Hnone b1 b2 Eb Nb).
  - destruct (String.prefix (key ++ "=") (String c text)) eqn:P.
    + injection H as <-. destruct (Hhere _ P) as [line [after [E [R [L I]]]]].
      exists "", line, after. repeat split; try assumption.
      intros b1 b2 Eb Nb. destruct (Hnone b1 b2 Eb Nb).
    + destruct (replaceAssignment key value text) as [r |] eqn:Hr; [| discriminate].
      injection H as <-.
      destruct (IH r eq_refl) as [before [line [after [E [R [L [I F]]]]]]].
      exists (String c before), line, after. subst. repeat split; try assumption.
      intros [| x b1] b2 Eb Nb.
      * change ("" ++ b2) with b2 in Eb. rewrite <- Eb. exact P.
      * injection Eb as -> Eb. now apply (F b1 b2).
Qed.

End EnvFile.

Lemma generateAndSaveWallets_result (W : World) (n : nat) (s : State)
    (content : string) :
  dotenv (files s) = Some content ->
  exists evs,
    FundWallets.generateAndSaveWallets W n s
    = (Normal (generatedWallets W n 0 (gens s), generatedKeys W n 0 (gens s)),
       mkState (trace s ++ evs) (scopes s)
         (mkFiles
            (Some (mkWalletConfig (generatedWallets W n 0 (gens s)) (mkDelayRange 100 1000)))
            (Parsed (<[clock W (ticks s) :=
                        mkBatch (generatedKeys W n 0 (gens s))
                          (map publicKey (generatedWallets W n 0 (gens s)))]>
                       (stored (private_keys_backup (files s)))))
            (Some (FundWallets.writeEnv (generatedKeys W n 0 (gens s)) content)))
         (draws s) (S (ticks s)) (gens s + n)) /\
    (evs = [] \/ evs = [ConsoleLog NoExistingBackup]).
Proof.
  intros Hd. unfold FundWallets.generateAndSaveWallets.
  rewrite (bind_run _ _ _ _ _ (generateLoop_result W n 0 [] [] s)). cbn [app].
  unfold FundWallets.loadBackup, FundWallets.storeBackup, get_files, put_files, Date_now;
    js_unfold. cbn. rewrite Hd.
  destruct (private_keys_backup (files s)); cbn.
  - exists []. rewrite app_nil_r. split; [reflexivity | now left].
  - exists [ConsoleLog NoExistingBackup]. split; [reflexivity | now right].
  - exists []. rewrite app_nil_r. split; [reflexivity | now left].
Qed.

(** X14: with a [.env] file in place, [generateAndSaveWallets] returns
    exactly the number of wallets asked for, with distinct names
    "Wallet 1", "Wallet 2", ... and a configured amount of 0 each, and
    replaces [config/wallets.json] by these wallets with the delay range
    100..1000; the wallet and the key of one position come from the same
    generated key pair. *)
Theorem X14_generated_wallets (W : World) (n : nat) (s : State)
    (content : string) :
  dotenv (files s) = Some content ->
  exists ws keys s',
    FundWallets.generateAndSaveWallets W n s = (Normal (ws, keys), s') /\
    length ws = n /\
    List.NoDup (map name ws) /\
    (forall w, In w ws -> amount w = 0%Q) /\
    wallets_json (files s') = Some (mkWalletConfig ws (mkDelayRange 100 1000)) /\
    (forall k, (k < n)%nat ->
       nth_error ws k
       = Some (mkWallet ("Wallet " ++ pretty (Z.of_nat k + 1)) (fst (keygen W (gens s + k))) 0%Q) /\
       nth_error keys k
       = Some (WALLET_PRIVATE_KEY (Z.of_nat k + 1), snd (keygen W (gens s + k)))).
Proof.
  intros Hd. destruct (generateAndSaveWallets_result W n s content Hd) as [evs [E _]].
  eexists _, _, _. split; [exact E |]. cbn [files wallets_json].
  split; [apply generatedWallets_length |].
  split; [apply generatedWallets_NoDup |].
  split; [| split; [reflexivity |]].
  - intros w Hw. now destruct (generatedWallets_names W n _ _ w Hw) as [m [_ [_ H]]].
  - intros k Hk. apply (generated_pairs W n 0 (gens s) k Hk).
Qed.

Lemma X14_generated_wallets_witness :
  exists ws keys s',
    FundWallets.generateAndSaveWallets fundWorld 3 startWithEnv = (Normal (ws, keys), s') /\
    length ws = 3%nat /\ List.NoDup (map name ws).
Proof.
  destruct (X14_generated_wallets fundWorld 3 startWithEnv "" eq_refl)
    as [ws [keys [s' [E [L [N _]]]]]].
  now exists ws, keys, s'.
Defined.

(** X15: after [generateAndSaveWallets] the backup and the configuration
    agree with what was returned: the backup holds, under the timestamp of
    the run, the keys returned and the addresses of the wallets written to
    the configuration, and keeps the batches of every other timestamp.
    The text of [.env] is the old text with the returned keys written one
    after the other, each by this rule: a line [KEY=secret] is appended
    when [KEY=] occurs nowhere in the text; otherwise, at the first place
    where [KEY=] occurs, wherever in a line that is, the rest of that line
    is replaced by the secret, and the text around it is kept. *)
Theorem X15_stores_agree (W : World) (n : nat) (s : State)
    (content : string) :
  dotenv (files s) = Some content ->
  (exists ws keys s' m,
     FundWallets.generateAndSaveWallets W n s = (Normal (ws, keys), s') /\
     wallets_json (files s') = Some (mkWalletConfig ws (mkDelayRange 100 1000)) /\
     private_keys_backup (files s') = Parsed m /\
     m !! clock W (ticks s) = Some (mkBatch keys (map publicKey ws)) /\
     (forall t, t <> clock W (ticks s) ->
        m !! t = stored (private_keys_backup (files s)) !! t) /\
     dotenv (files s') = Some (FundWallets.writeEnv keys content)) /\
  (forall key value text,
     ((forall before after, text <> before ++ (key ++ "=") ++ after) /\
      FundWallets.setEnvLine key value text = text ++ FundWallets.LF ++ key ++ "=" ++ value) \/
     (exists before line after,
        text = before ++ (key ++ "=") ++ line ++ after /\
        FundWallets.setEnvLine key value text = before ++ (key ++ "=") ++ value ++ after /\
        FundWallets.afterDotStar line = "" /\
        FundWallets.afterDotStar after = after /\
        (forall b1 b2, before = b1 ++ b2 -> b2 <> "" ->
           String.prefix (key ++ "=") (b2 ++ (key ++ "=") ++ line ++ after) = false))).
Proof.
  intros Hd. split.
  - destruct (generateAndSaveWallets_result W n s content Hd) as [evs [E _]].
    eexists _, _, _, _. split; [exact E |].
    cbn [files wallets_json private_keys_backup dotenv].
    split; [reflexivity |]. split; [reflexivity |].
    split; [apply lookup_insert_eq |].
    split; [intros t Ht; now apply lookup_insert_ne | reflexivity].
  - intros key value text. unfold FundWallets.setEnvLine.
    destruct (FundWallets.replaceAssignment key value text) as [replaced |] eqn:R.
    + right. destruct (replaceAssignment_rule key value text replaced R)
        as [before [line [after [E [Er H]]]]].
      exists before, line, after. now split.
    + left. split; [| reflexivity]. now apply (replaceAssignment_none key value).
Qed.

Lemma X15_stores_agree_witness :
  exists ws keys s',
    FundWallets.generateAndSaveWallets fundWorld 2 startWithBackup = (Normal (ws, keys), s') /\
    dotenv (files s')
    = Some (FundWallets.writeEnv keys
              ("FUNDING_WALLET_PRIVATE_KEY=funding" ++ FundWallets.LF ++
               "WALLET_1_PRIVATE_KEY=old")).
Proof.
  destruct (proj1 (X15_stores_agree fundWorld 2 startWithBackup
                     ("FUNDING_WALLET_PRIVATE_KEY=funding" ++ FundWallets.LF ++
                      "WALLET_1_PRIVATE_KEY=old") eq_refl))
    as [ws [keys [s' [m [E [_ [_ [_ [_ D]]]]]]]]].
  now exists ws, keys, s'.
Defined.

Example regenerated_keys_replace_the_old_one :
  dotenv (files (snd (FundWallets.generateAndSaveWallets fundWorld 2 startWithBackup)))
  = Some ("FUNDING_WALLET_PRIVATE_KEY=funding" ++ FundWallets.LF ++
          "WALLET_1_PRIVATE_KEY=secret0" ++ FundWallets.LF ++
          "WALLET_2_PRIVATE_KEY=secret1").
Proof. vm_compute. reflexivity. Qed.

(** The expression is not anchored: a line that only mentions the
    variable is the one rewritten, and no line of the variable is added. *)
Example a_commented_line_is_rewritten :
  FundWallets.setEnvLine "WALLET_1_PRIVATE_KEY" "secret0"
    ("#WALLET_1_PRIVATE_KEY=old" ++ FundWallets.LF ++ "PUMP_FUN_RPC=https://rpc")
  = "#WALLET_1_PRIVATE_KEY=secret0" ++ FundWallets.LF ++ "PUMP_FUN_RPC=https://rpc" /\
  FundWallets.setEnvLine "WALLET_1_PRIVATE_KEY" "secret0"
    ("OLD_WALLET_1_PRIVATE_KEY=old" ++ FundWallets.LF ++ "WALLET_1_PRIVATE_KEY=older")
  = "OLD_WALLET_1_PRIVATE_KEY=secret0" ++ FundWallets.LF ++ "WALLET_1_PRIVATE_KEY=older".
Proof. split; vm_compute; reflexivity. Qed.

Lemma generateAndSaveWallets_without_env (W : World) (n : nat) (s : State) :
  dotenv (files s) = None ->
  exists evs,
    FundWallets.generateAndSaveWallets W n s
    = (Throw (mkError Error "ENOENT: no such file or directory, open '.env'"),
       mkState (trace s ++ evs) (scopes s)
         (mkFiles
            (Some (mkWalletConfig (generatedWallets W n 0 (gens s)) (mkDelayRange 100 1000)))
            (Parsed (<[clock W (ticks s) :=
                        mkBatch (generatedKeys W n 0 (gens s))
                          (map publicKey (generatedWallets W n 0 (gens s)))]>
                       (stored (private_keys_backup (files s)))))
            None)
         (draws s) (S (ticks s)) (gens s + n)) /\
    (evs = [] \/ evs = [ConsoleLog NoExistingBackup]).
Proof.
  intros Hd. unfold FundWallets.generateAndSaveWallets.
  rewrite (bind_run _ _ _ _ _ (generateLoop_result W n 0 [] [] s)). cbn [app].
  unfold FundWallets.loadBackup, FundWallets.storeBackup, get_files, put_files, Date_now;
    js_unfold. cbn. rewrite Hd.
  destruct (private_keys_backup (files s)); cbn.
  - exists []. rewrite app_nil_r. split; [reflexivity | now left].
  - exists [ConsoleLog NoExistingBackup]. split; [reflexivity | now right].
  - exists []. rewrite app_nil_r. split; [reflexivity | now left].
Qed.

(** ** fundWallets.js: [fundWallet] and [main] *)

Lemma is_integer_inject_Z (z : Z) : is_integer (inject_Z z) = true.
Proof. unfold is_integer. rewrite Qfloor_Z. apply Qeq_bool_iff. reflexivity. Qed.

(** The lamports of an amount are the exact product rounded down or up to
    a whole lamport. *)
Lemma fundLamports_within (amount : Number) :
  (0 <= amount)%Q -> (amount * LAMPORTS_PER_SOL < inject_Z (2 ^ 53))%Q ->
  (inject_Z (Qfloor (amount * LAMPORTS_PER_SOL)) <= fundLamports amount)%Q /\
  (fundLamports amount <= inject_Z (Qceiling (amount * LAMPORTS_PER_SOL)))%Q.
Proof.
  intros H0 Hlt. unfold fundLamports, mul64.
  set (x := (amount * LAMPORTS_PER_SOL)%Q) in *.
  assert (Hx0 : (0 <= x)%Q) by (apply Qmult_le_0_compat; [assumption | discriminate]).
  assert (Hx : (Qabs x < pow2 53)%Q).
  { rewrite Qabs_pos by assumption.
    now rewrite pow2_nonneg_exponent by lia. }
  split; rewrite <- Zle_Qle.
  - rewrite <- (Qfloor_Z (Qfloor x)) at 1. apply Qfloor_resp_le.
    apply (round64_between (Qfloor x) x Hx). apply Qfloor_le.
  - rewrite <- (Qfloor_Z (Qceiling x)). apply Qfloor_resp_le.
    apply (round64_between (Qceiling x) x Hx). apply Qle_ceiling.
Qed.

(** X16: [fundWallet] sends a whole number of lamports, the floor of the
    product amount * LAMPORTS_PER_SOL as the doubles give it: for an
    amount of less than 2^53 lamports, the exact product rounded down or
    up to a whole lamport.  The lamports go from the source to the
    destination address, in at most one transfer; [fundWallet] returns the
    signature of the node exactly when the address is valid and the
    transfer is constructed and accepted, and throws every failure on. *)
Theorem X16_fundWallet_sends_whole_lamports
    (W : World) (source : PublicKey) (destination : string) (amount : Number) (s : State) :
  ((0 <= amount)%Q -> (amount * LAMPORTS_PER_SOL < inject_Z (2 ^ 53))%Q ->
   (inject_Z (Qfloor (amount * LAMPORTS_PER_SOL)) <= fundLamports amount)%Q /\
   (fundLamports amount <= inject_Z (Qceiling (amount * LAMPORTS_PER_SOL)))%Q) /\
  exists o evs,
    FundWallets.fundWallet W source destination amount s
    = (o, extend s (Call fundWallet_fn 0 destination :: evs)) /\
    (transfers evs = [] \/
     exists to,
       newPublicKey W destination = Normal to /\
       (transfers evs = [TransferInstruction source to (fundLamports amount)] \/
        transfers evs = [TransferInstruction source to (fundLamports amount);
                         SendTransfer source to (fundLamports amount)])) /\
    (forall sg,
       o = Normal sg <->
       exists to,
         newPublicKey W destination = Normal to /\
         transfer W source to (fundLamports amount) = Normal tt /\
         sendTransfer W source to (fundLamports amount) = Normal sg).
Proof.
  split; [apply fundLamports_within |].
  unfold FundWallets.fundWallet, SystemProgram_transfer, fundLamports; js_unfold.
  rewrite is_integer_inject_Z. cbn.
  repeat case_step; rewrite ?extend_extend; eexists _, _; (split; [reflexivity |]); split.
  all: try (left; reflexivity).
  all: try (right; eexists; split; [reflexivity |];
            first [left; reflexivity | right; reflexivity]).
  all: repeat match goal with u : unit |- _ => destruct u end.
  all: intros sg; split;
    [ intros H; try discriminate H; injection H as <-;
      eexists; repeat (split; [first [reflexivity | eassumption] |]);
      first [reflexivity | eassumption]
    | intros [to [H1 [H2 H3]]]; congruence ].
Qed.

Lemma X16_fundWallet_sends_whole_lamports_witness :
  (inject_Z (Qfloor (ofDouble Sample64.eightPointTwo * LAMPORTS_PER_SOL))
   <= fundLamports (ofDouble Sample64.eightPointTwo))%Q /\
  (fundLamports (ofDouble Sample64.eightPointTwo)
   <= inject_Z (Qceiling (ofDouble Sample64.eightPointTwo * LAMPORTS_PER_SOL)))%Q.
Proof.
  apply (proj1 (X16_fundWallet_sends_whole_lamports fundWorld "pub:funding" "generated0"
                  (ofDouble Sample64.eightPointTwo) start)).
  - vm_compute. discriminate.
  - vm_compute. reflexivity.
Defined.

(** For the doubles written 8.2 and 0.3: 8199999999 lamports, the product
    being just below 8200000000, and 300000000 lamports, the product of
    the double below 0.3 being rounded up to it. *)
Example lamports_of_an_amount :
  fundLamports (ofDouble Sample64.eightPointTwo) = inject_Z 8199999999 /\
  fundLamports (ofDouble Sample64.threeTenths) = inject_Z 300000000 /\
  fundLamports 1%Q = inject_Z 1000000000.
Proof. vm_compute. repeat split. Qed.

Lemma fundStep_transfers (W : World) (source : PublicKey) (sol : Number) (w : Wallet)
    (total : Number) (s : State) :
  exists v s' evs,
    FundWallets.fundStep W source sol w total s = (Normal v, s') /\
    trace s' = (trace s ++ evs)%list /\
    (forall e, In e evs -> is_transfer e = true ->
       exists to,
         newPublicKey W (publicKey w) = Normal to /\
         (e = TransferInstruction source to (fundLamports sol) \/
          e = SendTransfer source to (fundLamports sol))).
Proof.
  unfold FundWallets.fundStep, FundWallets.fundWallet, fundLamports; js_unfold. cbn.
  repeat case_step; rewrite ?extend_extend; eexists _, _, _;
    (split; [reflexivity |]); (split; [reflexivity |]);
    intros e0 Hin Ht; cbn in Hin;
    repeat (destruct Hin as [<- | Hin]; [try discriminate Ht |]); try contradiction.
  all: eexists; split; [reflexivity |]; first [left; reflexivity | right; reflexivity].
Qed.

Lemma fundLoop_transfers (W : World) (source : PublicKey) (sol : Number) (ws : list Wallet) :
  forall total s, exists v s' evs,
    FundWallets.fundLoop W source sol ws total s = (Normal v, s') /\
    trace s' = (trace s ++ evs)%list /\
    (forall e, In e evs -> is_transfer e = true ->
       exists w to,
         In w ws /\ newPublicKey W (publicKey w) = Normal to /\
         (e = TransferInstruction source to (fundLamports sol) \/
          e = SendTransfer source to (fundLamports sol))).
Proof.
  induction ws as [| w ws IH]; intros total s; cbn [FundWallets.fundLoop].
  - exists total, s, []. unfold ret. rewrite app_nil_r. split; [reflexivity |].
    split; [reflexivity |]. intros e [].
  - destruct (fundStep_transfers W source sol w total s) as [v [s1 [e1 [E1 [T1 H1]]]]].
    rewrite (bind_run _ _ _ _ _ E1).
    destruct (IH v s1) as [v' [s2 [e2 [E2 [T2 H2]]]]].
    exists v', s2, (e1 ++ e2)%list. split; [exact E2 |].
    split; [now rewrite T2, T1, <- app_assoc |].
    intros e Hin Ht. apply in_app_or in Hin. destruct Hin as [Hin | Hin].
    + destruct (H1 e Hin Ht) as [to [Hto He]]. exists w, to. split; [now left | now split].
    + destruct (H2 e Hin Ht) as [w' [to [Hw [Hto He]]]]. exists w', to.
      split; [now right | now split].
Qed.

Ltac trace_eq := cbn [trace extend]; rewrite <- ?app_assoc; reflexivity.

(** X17: [main] of fundWallets.js never throws, whatever the environment,
    the files, the answers and the node; and every transfer it constructs
    or submits goes from the wallet of [FUNDING_WALLET_PRIVATE_KEY] to the
    address of one of the wallets it has just generated, for the whole
    lamports of the amount answered at the prompt. *)
Theorem X17_fund_main_transfers (W : World) (s : State) :
  exists s' evs,
    FundWallets.main W s = (Normal tt, s') /\
    trace s' = (trace s ++ evs)%list /\
    (forall e, In e evs -> is_transfer e = true ->
       exists key source n sol w to,
         env W FUNDING_WALLET_PRIVATE_KEY = Some key /\
         fromSecretKey W key = Normal source /\
         fundAnswers W = Normal (n, sol) /\
         In w (generatedWallets W n 0 (gens s)) /\
         newPublicKey W (publicKey w) = Normal to /\
         (e = TransferInstruction source to (fundLamports sol) \/
          e = SendTransfer source to (fundLamports sol))).
Proof.
  unfold FundWallets.main; js_unfold.
  destruct (env W FUNDING_WALLET_PRIVATE_KEY) as [key |] eqn:Hkey.
  2: { eexists _, _. split; [reflexivity |]. split; [reflexivity |].
       intros e [<- | []] Ht. discriminate Ht. }
  destruct (String.eqb key "").
  { eexists _, _. split; [reflexivity |]. split; [reflexivity |].
    intros e [<- | []] Ht. discriminate Ht. }
  cbn. destruct (fundAnswers W) as [[n sol] |] eqn:Hans; cbn.
  2: { eexists _, _. split; [reflexivity |]. split; [trace_eq |].
       intros ev Hin Ht. cbn in Hin. intuition (subst; discriminate Ht). }
  destruct (dotenv (files s)) as [content |] eqn:Hd.
  - match goal with
    | |- context [FundWallets.generateAndSaveWallets W n ?s0] =>
        destruct (generateAndSaveWallets_result W n s0 content Hd) as [e0 [E0 He0]]
    end.
    rewrite E0. cbn.
    destruct (fromSecretKey W key) as [source |] eqn:Hsrc; cbn.
    + match goal with
      | |- context [FundWallets.fundLoop W source sol ?ws ?t ?s0] =>
          destruct (fundLoop_transfers W source sol ws t s0) as [v [s2 [e2 [E2 [T2 H2]]]]]
      end.
      rewrite E2. eexists _, _. split; [reflexivity |]. cbn in T2 |- *. rewrite T2.
      split; [trace_eq |].
      intros ev Hin Ht. cbn in Hin.
      assert (Hin2 : In ev e2).
      { destruct He0 as [-> | ->];
          repeat (progress (rewrite ?in_app_iff in Hin; cbn in Hin)); intuition (subst; first [discriminate Ht | assumption]). }
      destruct (H2 ev Hin2 Ht) as [w [to [Hw [Hto He]]]].
      exists key, source, n, sol, w, to. now repeat split.
    + eexists _, _. split; [reflexivity |]. cbn.
      split; [trace_eq |].
      intros e0' Hin Ht.
      destruct He0 as [-> | ->];
        repeat (progress (rewrite ?in_app_iff in Hin; cbn in Hin)); intuition (subst; discriminate Ht).
  - match goal with
    | |- context [FundWallets.generateAndSaveWallets W n ?s0] =>
        destruct (generateAndSaveWallets_without_env W n s0 Hd) as [e0 [E0 He0]]
    end.
    rewrite E0. cbn. eexists _, _. split; [reflexivity |]. cbn.
    split; [trace_eq |].
    intros e0' Hin Ht.
    destruct He0 as [-> | ->];
      repeat (progress (rewrite ?in_app_iff in Hin; cbn in Hin)); intuition (subst; discriminate Ht).
Qed.

(** X18: the funding key in [main] of fundWallets.js.  Without
    [FUNDING_WALLET_PRIVATE_KEY] the run prints the error and touches
    nothing: no prompt, no key pair, no file.  A key that does not decode
    is found out only after the wallets were generated: the configuration
    and the [.env] file are already rewritten when the error is reported,
    and no transfer is made. *)
Theorem X18_funding_key (W : World) (s : State) :
  ((env W FUNDING_WALLET_PRIVATE_KEY = None \/ env W FUNDING_WALLET_PRIVATE_KEY = Some "") ->
     FundWallets.main W s = (Normal tt, extend s [ConsoleError FundingKeyMissing])) /\
  (forall key n sol content e,
     env W FUNDING_WALLET_PRIVATE_KEY = Some key -> key <> "" ->
     fundAnswers W = Normal (n, sol) ->
     dotenv (files s) = Some content ->
     fromSecretKey W key = Throw e ->
     exists s' evs,
       FundWallets.main W s = (Normal tt, s') /\
       trace s' = (trace s ++ evs)%list /\
       transfers evs = [] /\
       last evs = Some (ConsoleError (AnErrorOccurred e)) /\
       wallets_json (files s')
       = Some (mkWalletConfig (generatedWallets W n 0 (gens s)) (mkDelayRange 100 1000)) /\
       dotenv (files s')
       = Some (FundWallets.writeEnv (generatedKeys W n 0 (gens s)) content)).
Proof.
  split.
  - intros [H | H]; unfold FundWallets.main; js_unfold; rewrite H; reflexivity.
  - intros key n sol content e Hkey Hne Hans Hd Hsrc.
    unfold FundWallets.main; js_unfold.
    rewrite Hkey. apply String.eqb_neq in Hne. rewrite Hne. cbn. rewrite Hans. cbn.
    match goal with
    | |- context [FundWallets.generateAndSaveWallets W n ?s0] =>
        destruct (generateAndSaveWallets_result W n s0 content Hd) as [e0 [E0 He0]]
    end.
    rewrite E0. cbn. rewrite Hsrc. cbn.
    eexists _, _. split; [reflexivity |]. cbn.
    split; [rewrite <- ?app_assoc; reflexivity |].
    split; [destruct He0 as [-> | ->]; reflexivity |].
    split; [destruct He0 as [-> | ->]; reflexivity |].
    split; reflexivity.
Qed.

Lemma X18_funding_key_witness :
  FundWallets.main bareWorld startWithEnv
  = (Normal tt, extend startWithEnv [ConsoleError FundingKeyMissing]) /\
  exists s' evs,
    FundWallets.main badFundingWorld startWithEnv = (Normal tt, s') /\
    trace s' = (trace startWithEnv ++ evs)%list /\
    transfers evs = [] /\
    wallets_json (files s')
    = Some (mkWalletConfig (generatedWallets badFundingWorld 2 0 0) (mkDelayRange 100 1000)).
Proof.
  split.
  - apply (proj1 (X18_funding_key bareWorld startWithEnv)). now left.
  - destruct (proj2 (X18_funding_key badFundingWorld startWithEnv)
                "funding" 2%nat 1%Q "" (mkError Error "bad secret key size")
                eq_refl ltac:(discriminate) eq_refl eq_refl eq_refl)
      as [s' [evs [E [T [Tr [_ [C _]]]]]]].
    now exists s', evs.
Defined.

(** X19: without a [.env] file, [generateAndSaveWallets] throws only after
    it has replaced the wallet configuration and written the new keys to
    the backup; [main] reports the error, funds no wallet, and the keys
    reach no [.env] file. *)
Theorem X19_missing_env_file (W : World) (n : nat) (s : State) :
  dotenv (files s) = None ->
  (exists s',
     FundWallets.generateAndSaveWallets W n s
     = (Throw (mkError Error "ENOENT: no such file or directory, open '.env'"), s') /\
     wallets_json (files s')
     = Some (mkWalletConfig (generatedWallets W n 0 (gens s)) (mkDelayRange 100 1000)) /\
     private_keys_backup (files s')
     = Parsed (<[clock W (ticks s) :=
                  mkBatch (generatedKeys W n 0 (gens s))
                    (map publicKey (generatedWallets W n 0 (gens s)))]>
                 (stored (private_keys_backup (files s)))) /\
     dotenv (files s') = None) /\
  (forall key sol,
     env W FUNDING_WALLET_PRIVATE_KEY = Some key -> key <> "" ->
     fundAnswers W = Normal (n, sol) ->
     exists s' evs,
       FundWallets.main W s = (Normal tt, s') /\
       trace s' = (trace s ++ evs)%list /\
       transfers evs = [] /\ calls evs = [] /\
       last evs
       = Some (ConsoleError
                 (AnErrorOccurred
                    (mkError Error "ENOENT: no such file or directory, open '.env'"))) /\
       dotenv (files s') = None).
Proof.
  intros Hd. split.
  - destruct (generateAndSaveWallets_without_env W n s Hd) as [e0 [E0 _]].
    eexists. split; [exact E0 |]. cbn. now repeat split.
  - intros key sol Hkey Hne Hans.
    unfold FundWallets.main; js_unfold.
    rewrite Hkey. apply String.eqb_neq in Hne. rewrite Hne. cbn. rewrite Hans. cbn.
    match goal with
    | |- context [FundWallets.generateAndSaveWallets W n ?s0] =>
        destruct (generateAndSaveWallets_without_env W n s0 Hd) as [e0 [E0 He0]]
    end.
    rewrite E0. cbn.
    eexists _, _. split; [reflexivity |]. cbn.
    split; [rewrite <- ?app_assoc; reflexivity |].
    destruct He0 as [-> | ->]; now repeat split.
Qed.

Lemma X19_missing_env_file_witness :
  exists s' evs,
    FundWallets.main fundWorld start = (Normal tt, s') /\
    trace s' = (trace start ++ evs)%list /\
    transfers evs = [] /\ calls evs = [] /\
    last evs
    = Some (ConsoleError
              (AnErrorOccurred
                 (mkError Error "ENOENT: no such file or directory, open '.env'"))) /\
    dotenv (files s') = None.
Proof.
  apply (proj2 (X19_missing_env_file fundWorld 3 start eq_refl) "funding" 1%Q).
  - reflexivity.
  - discriminate.
  - reflexivity.
Defined.

(** ** From one script to the next *)

Lemma executeBuyWithWallet_request
    (W : World) (i : Z) (t : string) (w : Wallet) (bp : BaseParams) (s : State) :
  exists v evs,
    BuyBot.executeBuyWithWallet W i t w bp s = (Normal v, extend s evs) /\
    (trades evs = [] \/
     exists pk,
       trades evs
       = [[mkTradeRequest pk Buy None t true (amount w) (slippage bp) (priorityFee bp)]]).
Proof.
  unfold BuyBot.executeBuyWithWallet; js_unfold. cbn.
  repeat case_step; rewrite ?extend_extend;
    (eexists _, _; split; [reflexivity |]);
    first [left; reflexivity | right; eexists; reflexivity].
Qed.

Lemma trades_app (a b : list Event) : trades (a ++ b) = (trades a ++ trades b)%list.
Proof. apply omap_app. Qed.

Lemma buyLoop_requests (W : World) (t : string) (bp : BaseParams) (ws : list Wallet) :
  forall i s,
    exists s' evs,
      BuyBot.buyLoop W t bp ws i s = (Normal tt, s') /\
      trace s' = (trace s ++ evs)%list /\
      (forall reqs, In reqs (trades evs) ->
         exists w pk,
           In w ws /\
           reqs = [mkTradeRequest pk Buy None t true (amount w) (slippage bp) (priorityFee bp)]).
Proof.
  induction ws as [| w ws IH]; intros i s; cbn [BuyBot.buyLoop].
  - exists s, []. unfold ret. rewrite app_nil_r. split; [reflexivity |].
    split; [reflexivity |]. intros reqs [].
  - destruct (delay_pacing W i s) as [s1 [e0 [E0 [T0 _]]]].
    assert (H0 : trades e0 = []).
    { revert E0 T0. destruct (0 <? i)%Z.
      - unfold BuyBot.getRandomDelay, BuyBot.sleep, Math_random; js_unfold. cbn.
        intros E0 T0. injection E0 as <-. cbn in T0. rewrite <- app_assoc in T0.
        apply app_inv_head in T0. now subst e0.
      - unfold ret. intros E0 T0. injection E0 as <-.
        rewrite <- (app_nil_r (trace s)) in T0 at 1. apply app_inv_head in T0. now subst e0. }
    rewrite (bind_run _ _ _ _ _ E0).
    destruct (executeBuyWithWallet_request W i t w bp s1) as [v [e1 [E1 H1]]].
    rewrite (bind_run _ _ _ _ _ E1).
    destruct (IH (i + 1)%Z (extend s1 e1)) as [s2 [e2 [E2 [T2 H2]]]].
    rewrite E2. exists s2, (e0 ++ e1 ++ e2)%list. split; [reflexivity |].
    cbn [extend trace] in T2. split; [rewrite T2, T0; now rewrite <- !app_assoc |].
    intros reqs Hin. rewrite !trades_app, H0 in Hin. cbn [app] in Hin.
    apply in_app_or in Hin. destruct Hin as [Hin | Hin].
    + destruct H1 as [H1 | [pk H1]]; rewrite H1 in Hin; [contradiction |].
      destruct Hin as [<- | []]. exists w, pk. split; [now left | reflexivity].
    + destruct (H2 reqs Hin) as [w' [pk [Hw Hr]]]. exists w', pk. split; [now right | exact Hr].
Qed.

(** X21: every request of a buy batch is a single purchase, denominated in
    SOL, of the amount configured for one of the wallets.  The wallets that
    [generateAndSaveWallets] writes to the configuration all have the
    amount 0: a buy batch run on that configuration as it stands asks for
    purchases of 0 SOL only. *)
Theorem X21_buy_after_funding_asks_for_nothing
    (W : World) (t : string) (bp : BaseParams) (s : State) :
  exists s' evs,
    BuyBot.executeMultiWalletBuy W t bp s = (Normal tt, s') /\
    trace s' = (trace s ++ evs)%list /\
    (forall reqs, In reqs (trades evs) ->
       exists w pk,
         In w (wallets (walletConfig W)) /\
         reqs = [mkTradeRequest pk Buy None t true (amount w) (slippage bp) (priorityFee bp)]) /\
    (forall W0 n g,
       wallets (walletConfig W) = generatedWallets W0 n 0 g ->
       forall reqs, In reqs (trades evs) ->
         exists pk,
           reqs = [mkTradeRequest pk Buy None t true 0%Q (slippage bp) (priorityFee bp)]).
Proof.
  unfold BuyBot.executeMultiWalletBuy.
  rewrite (bind_run _ _ s (extend s [ConsoleLog StartingBuySequence]) tt) by reflexivity.
  destruct (buyLoop_requests W t bp (wallets (walletConfig W)) 0
              (extend s [ConsoleLog StartingBuySequence])) as [s' [evs [E [T H]]]].
  exists s', (ConsoleLog StartingBuySequence :: evs). split; [exact E |].
  cbn [extend trace] in T. split; [rewrite T; now rewrite <- app_assoc |].
  split; [exact H |].
  intros W0 n g Hw reqs Hin. destruct (H reqs Hin) as [w [pk [Hin' ->]]].
  rewrite Hw in Hin'. destruct (generatedWallets_names W0 n _ _ w Hin') as [m [_ [_ Ha]]].
  exists pk. now rewrite Ha.
Qed.

(** X22: the scripts agree on where the key of a wallet is.  For a
    configuration written by [generateAndSaveWallets], the wallet of
    position k has the address of the k-th generated key pair, its secret
    was stored under the variable [WALLET_<k+1>_PRIVATE_KEY], and that is
    the variable a buy batch (index k) and a sell batch (the index
    [findIndex] gives for the name) read for it. *)
Theorem X22_key_of_a_generated_wallet
    (W W0 : World) (n g k : nat) (w : Wallet) :
  wallets (walletConfig W) = generatedWallets W0 n 0 g ->
  nth_error (wallets (walletConfig W)) k = Some w ->
  publicKey w = fst (keygen W0 (g + k)) /\
  nth_error (generatedKeys W0 n 0 g) k
  = Some (WALLET_PRIVATE_KEY (Z.of_nat k + 1), snd (keygen W0 (g + k))) /\
  SellBot.findIndex (fun w' => String.eqb (name w') (name w)) (wallets (walletConfig W)) 0
  = Z.of_nat k /\
  nth_error (indexed executeBuyWithWallet_fn (wallets (walletConfig W)) 0) k
  = Some (executeBuyWithWallet_fn, Z.of_nat k, name w).
Proof.
  intros Hw Hk.
  assert (Hlt : (k < n)%nat).
  { rewrite <- (generatedWallets_length W0 n 0 g), <- Hw. apply nth_error_Some. congruence. }
  destruct (generated_pairs W0 n 0 g k Hlt) as [Hwk Hkk].
  rewrite Hw, Hwk in Hk. injection Hk as <-. cbn [publicKey name].
  split; [reflexivity |]. split; [exact Hkk |]. split.
  - rewrite Hw.
    exact (findIndex_own_position _ k _ (generatedWallets_NoDup W0 n 0 g) Hwk).
  - rewrite Hw. clear Hw Hkk Hlt.
    assert (Hidx : forall ws i j x, nth_error ws j = Some x ->
              nth_error (indexed executeBuyWithWallet_fn ws i) j
              = Some (executeBuyWithWallet_fn, (i + Z.of_nat j)%Z, name x)).
    { induction ws as [| a ws IH]; intros i j x Hj; destruct j; try discriminate.
      - injection Hj as <-. cbn. now rewrite Z.add_0_r.
      - cbn in Hj |- *. rewrite (IH (i + 1)%Z j x Hj). do 3 f_equal. lia. }
    apply (Hidx _ 0%Z k _ Hwk).
Qed.

Lemma X22_key_of_a_generated_wallet_witness :
  SellBot.findIndex (fun w' => String.eqb (name w') "Wallet 2")
    (wallets (walletConfig afterFundingWorld)) 0 = 1%Z.
Proof.
  exact (proj1 (proj2 (proj2
           (X22_key_of_a_generated_wallet afterFundingWorld fundWorld 3 0 1
              (mkWallet "Wallet 2" "generated1" 0%Q) eq_refl eq_refl)))).
Defined.

Lemma X21_buy_after_funding_asks_for_nothing_witness :
  exists s' evs,
    BuyBot.executeMultiWalletBuy afterFundingWorld "mint" buyParams start = (Normal tt, s') /\
    trace s' = (trace start ++ evs)%list /\
    (forall reqs, In reqs (trades evs) ->
       exists pk,
         reqs = [mkTradeRequest pk Buy None "mint" true 0%Q (slippage buyParams)
                   (priorityFee buyParams)]).
Proof.
  destruct (X21_buy_after_funding_asks_for_nothing afterFundingWorld "mint" buyParams start)
    as [s' [evs [E [T [_ H]]]]].
  exists s', evs. split; [exact E |]. split; [exact T |].
  exact (H fundWorld 3%nat 0%nat eq_refl).
Defined.

Example buy_after_funding :
  trades (trace (snd (BuyBot.executeMultiWalletBuy afterFundingWorld "mint" buyParams start)))
  = [[mkTradeRequest "pub:key1" Buy None "mint" true 0%Q 10%Q 0.00001%Q];
     [mkTradeRequest "pub:key2" Buy None "mint" true 0%Q 10%Q 0.00001%Q];
     [mkTradeRequest "pub:key3" Buy None "mint" true 0%Q 10%Q 0.00001%Q]].
Proof. vm_compute. reflexivity. Qed.
